(** * GCventease: the recommendation core, embedded and verified

    Shallow embedding of
      - [app/services/recommendation_service.py] (class
        [RecommendationService]) and
      - [app/api/v1/endpoints/analytics.py] ([build_user_profile] and
        [get_personalized_recommendations], from the rows the queries
        return on).

    Conventions of the embedding.
      - Python numbers that may be floats are rationals ([Q]); the
        integer-valued ones are [Z].  The popularity ratio, a quotient of
        two integers that is compared with 0.1, 0.3 and 0.9, is rounded to
        binary64 as Python rounds it ([truediv], [float]); its overflow
        beyond the range of binary64 is not modelled.  Sums, products,
        halves of day counts and the share of common words of the fallback
        text score are exact; [round(x, 2)] rounds the exact value, ties
        to even.
      - A Python [str] is a [string]; [str.lower], [str.split] and
        [str.strip] act on ASCII characters, and a statement that depends
        on how they read a text is made for ASCII texts.
      - A dict read with [.get] is a record whose fields are [field]s: a
        key can be absent, hold [None], or hold a value.
      - Exceptions are the [Raise] results of an error monad; the only
        mutable object, the shared [TfidfVectorizer] of the service, is
        threaded explicitly as state.
      - scikit-learn and [datetime] are not code of the repository: they
        are the operations of the class [Runtime]. *)

From Stdlib Require Import ZArith QArith Qround Qpower Lqa Lia Bool List String Ascii.
From Stdlib Require Import Permutation Sorted DecimalString.
Import ListNotations.

Local Open Scope string_scope.
Local Open Scope Z_scope.

(** ** Python values and primitives *)

Module Py.

(** The exceptions the modelled code can raise. *)
Inductive exn : Type := AttributeError | TypeError | ValueError.

Inductive result (A : Type) : Type :=
| Ok (a : A)
| Raise (e : exn).
Arguments Ok {A} a.
Arguments Raise {A} e.

(** A key of a dict: missing, bound to [None], or bound to a value. *)
Inductive field (A : Type) : Type :=
| Absent
| Null
| Present (a : A).
Arguments Absent {A}.
Arguments Null {A}.
Arguments Present {A} a.

(** [d.get(key, default)]; a Python value that may be [None] is an
    [option]. *)
Definition get {A : Type} (f : field A) (default : option A) : option A :=
  match f with
  | Absent => default
  | Null => None
  | Present a => Some a
  end.

(** [x or d] for the three kinds of value the code uses it on. *)
Definition or_int (x : option Z) (d : Z) : Z :=
  match x with
  | Some n => if n =? 0 then d else n
  | None => d
  end.

Definition or_list {A : Type} (x : option (list A)) (d : list A) : list A :=
  match x with
  | Some (a :: l) => a :: l
  | _ => d
  end.

(** Truthiness. *)
Definition truthy_str (s : string) : bool :=
  match s with EmptyString => false | String _ _ => true end.

Definition truthy_list {A : Type} (l : list A) : bool :=
  match l with [] => false | _ :: _ => true end.

(** [str.lower] on ASCII. *)
Definition lower_ascii (c : ascii) : ascii :=
  let n := nat_of_ascii c in
  if (Nat.leb 65 n && Nat.leb n 90)%bool then ascii_of_nat (n + 32) else c.

Fixpoint lower (s : string) : string :=
  match s with
  | EmptyString => EmptyString
  | String c s' => String (lower_ascii c) (lower s')
  end.

(** [x.lower()] where [x] may be [None]. *)
Definition lower_of (x : option string) : result string :=
  match x with
  | Some s => Ok (lower s)
  | None => Raise AttributeError
  end.

(** [needle in hay] on strings: substring test. *)
Fixpoint str_in (needle hay : string) : bool :=
  (prefix needle hay
   || match hay with
      | EmptyString => false
      | String _ hay' => str_in needle hay'
      end)%bool.

(** [x in l] on a list of strings. *)
Definition mem (x : string) (l : list string) : bool :=
  existsb (String.eqb x) l.

(** [sep.join(parts)]. *)
Definition join (sep : string) (parts : list string) : string :=
  String.concat sep parts.

(** [s.replace(c, by)] for a one-character pattern. *)
Fixpoint replace_char (c : ascii) (by_ : string) (s : string) : string :=
  match s with
  | EmptyString => EmptyString
  | String a s' =>
      if Ascii.eqb a c then by_ ++ replace_char c by_ s'
      else String a (replace_char c by_ s')
  end.

(** [str.isspace] on an ASCII character: the characters 9 to 13, the
    separators 28 to 31 and the space. *)
Definition is_space (c : ascii) : bool :=
  let n := nat_of_ascii c in
  (Nat.eqb n 32 || (Nat.leb 9 n && Nat.leb n 13) || (Nat.leb 28 n && Nat.leb n 31))%bool.

(** [s.split()]: maximal runs of non-whitespace characters. *)

Fixpoint split_from (s word : string) : list string :=
  match s with
  | EmptyString => if truthy_str word then [word] else []
  | String c s' =>
      if is_space c
      then (if truthy_str word then word :: split_from s' "" else split_from s' "")
      else split_from s' (word ++ String c "")
  end.

Definition split (s : string) : list string := split_from s "".

(** [set(l)] of strings, as a duplicate-free list, and intersection. *)
Definition set_of (l : list string) : list string := nodup string_dec l.

Definition intersection (a b : list string) : list string :=
  filter (fun x => mem x b) a.

(** [l[:n]] for any integer [n]: a negative bound counts from the end. *)
Definition slice_to {A : Type} (l : list A) (n : Z) : list A :=
  if 0 <=? n then firstn (Z.to_nat n) l
  else firstn (List.length l - Z.to_nat (- n)) l.

(** Comparison of rationals as booleans. *)
Definition Qltb (x y : Q) : bool := negb (Qle_bool y x).

(** [max(a, b)] and [min(a, b)]: the first argument wins unless the
    second is strictly better. *)
Definition max (a b : Q) : Q := if Qltb a b then b else a.
Definition min (a b : Q) : Q := if Qltb b a then b else a.

(** [int(x)]: truncation toward zero. *)
Definition int (x : Q) : Z := Z.quot (Qnum x) (Zpos (Qden x)).

(** [round(x)] to an integer, ties to even, and [round(x, 2)]. *)
Definition round_half_even (x : Q) : Z :=
  let f := Qfloor x in
  match (x - inject_Z f ?= 1 # 2)%Q with
  | Lt => f
  | Gt => f + 1
  | Eq => if Z.even f then f else f + 1
  end.

Definition round2 (x : Q) : Q :=
  (inject_Z (round_half_even (x * 100)) / 100)%Q.

(** Floats.  [float x] is the binary64 number nearest to the rational [x],
    ties to even: what a decimal literal denotes and what the quotient of
    two integers evaluates to.  [binade x] is the exponent of the power of
    two at or below a positive [x]; a binary64 number has 53 significant
    bits, and none below 2^-1074.  Upwards the exponent is left unbounded:
    Python raises [OverflowError] on a quotient beyond 2^1024. *)
Definition binade (x : Q) : Z :=
  let k := Z.log2 (Qnum x) - Z.log2 (Zpos (Qden x)) in
  if Qle_bool (2 ^ k) x then k else k - 1.

Definition nearest (x : Q) : Q :=
  let e := Z.max (binade x - 52) (-1074) in
  (inject_Z (round_half_even (x / 2 ^ e)) * 2 ^ e)%Q.

Definition float (x : Q) : Q :=
  match (0 ?= x)%Q with
  | Lt => nearest x
  | Eq => 0
  | Gt => - nearest (- x)
  end.

(** [a / b] on two integers, [b] not 0. *)
Definition truediv (a b : Z) : Q := float (inject_Z a / inject_Z b).

(** [str(x)] inside an f-string, for a value that may be [None]. *)
Definition str_of (x : option string) : string :=
  match x with Some s => s | None => "None" end.

(** [sorted(l, key=key, reverse=True)] and [l.sort(key=key, reverse=True)]:
    descending by key, elements with equal keys in their original order.
    [ltb] is the strict order of the keys.  The sort is modelled by
    insertion from the right, which yields the same list as any stable
    sort. *)
Section Sorting.
Context {A K : Type} (key : A -> K) (ltb : K -> K -> bool).

Fixpoint insert_desc (x : A) (l : list A) : list A :=
    match l with
    | [] => [x]
    | y :: l' =>
        if ltb (key x) (key y) then y :: insert_desc x l'
        else x :: y :: l'
    end.

Definition sorted_reverse (l : list A) : list A :=
    fold_right insert_desc [] l.
End Sorting.

(** Order of the tuples of two integers. *)
Definition pair_ltb (a b : Z * Z) : bool :=
  ((fst a <? fst b) || ((fst a =? fst b) && (snd a <? snd b)))%bool.

End Py.

Import Py.

(** Sequencing of computations that may raise. *)
Definition and_then {A B : Type} (r : result A) (k : A -> result B) : result B :=
  match r with
  | Ok a => k a
  | Raise e => Raise e
  end.

Fixpoint traverse {A B : Type} (f : A -> result B) (l : list A) : result (list B) :=
  match l with
  | [] => Ok []
  | a :: l' =>
      and_then (f a) (fun b => and_then (traverse f l') (fun bs => Ok (b :: bs)))
  end.

(** Computations over a mutable object of type [S]: the object survives an
    exception. *)
Definition M (S A : Type) : Type := S -> S * result A.

Definition ret {S A : Type} (a : A) : M S A := fun s => (s, Ok a).

Definition bind {S A B : Type} (m : M S A) (k : A -> M S B) : M S B :=
  fun s =>
    match m s with
    | (s', Ok a) => k a s'
    | (s', Raise e) => (s', Raise e)
    end.

Definition lift {S A : Type} (r : result A) : M S A := fun s => (s, r).

Declare Scope py_scope.
Delimit Scope py_scope with py.
Notation "x <- m ;; k" := (bind m (fun x => k))
  (at level 61, m at next level, right associativity) : py_scope.
Notation "x <~ r ;; k" := (and_then r (fun x => k))
  (at level 61, r at next level, right associativity) : py_scope.

(** [for a in l: ...] collecting one result per element, left to right. *)
Fixpoint for_each {S A B : Type} (f : A -> M S B) (l : list A) : M S (list B) :=
  match l with
  | [] => ret []
  | a :: l' => (b <- f a ;; bs <- for_each f l' ;; ret (b :: bs))%py
  end.

(** ** The libraries the code calls

    [fit_transform] is [TfidfVectorizer.fit_transform] on a list of texts:
    it learns the vocabulary and the idf weights from these texts alone
    (replacing whatever the object had learnt before) and returns the
    tf-idf matrix, or raises [ValueError] ([None]) when no term is left.
    [cosine_similarity] is [cosine_similarity(m[0:1], m[1:2])[0][0]].
    Dates are day numbers: [today] is [datetime.now().date()];
    [fromisoformat] and [strptime_ymd] are [datetime.fromisoformat] and
    [datetime.strptime(_, '%Y-%m-%d')] followed by [.date()], [None] when
    they raise. *)
Class Runtime : Type := {
  Fitted : Type;
  Matrix : Type;
  fit_transform : list string -> option (Fitted * Matrix);
  cosine_similarity : Matrix -> Q;
  today : Z;
  fromisoformat : string -> option Z;
  strptime_ymd : string -> option Z
}.

(** ** Data model *)

(** An item of [participation_history]. *)
Module HistoryItem.
Record t : Type := {
  title : string;
  category : string;
  tags : list string
}.
End HistoryItem.

(** The dict returned by [build_user_profile]. *)
Module UserProfile.
Record t : Type := {
  favorite_categories : list string;
  favorite_tags : list string;
  participation_history : list HistoryItem.t;
  events_created : nat;
  events_attended : nat;
  has_initial_preferences : bool
}.
End UserProfile.

(** A candidate event, as the dict the service reads with [.get]. *)
Module Event.
Record t : Type := {
  id : field string;
  title : field string;
  description : field string;
  category : field string;
  tags : field (list string);
  date : field string;
  current_participants : field Z;
  max_participants : field Z
}.
End Event.

(** An element of [scored_events]. *)
Module ScoredEvent.
Record t : Type := {
  event : Event.t;
  score : Q;
  confidence : Z
}.
End ScoredEvent.

(** An element of the list [get_recommendations] returns. *)
Module Recommendation.
Record t : Type := {
  eventId : option string;
  title : option string;
  reason : string;
  confidence : Z;
  score : Q;
  matchFactors : list string
}.
End Recommendation.

(** ** [RecommendationService] *)

Section Service.
Context {R : Runtime}.

(** The service object: its only attribute is the vectorizer, whose state
    is what it has learnt at its last fit ([None] before any). *)
Record RecommendationService : Type := {
  vectorizer : option Fitted
}.

(** [__init__] *)
Definition init : RecommendationService := {| vectorizer := None |}.

(** 1. Category match (0-30 points). *)
Definition category_points (user_categories : list string) (event_category : string) : Q :=
  if mem event_category (map lower user_categories) then 30
  else if truthy_list user_categories then
    if existsb (fun cat => str_in (lower cat) event_category
                           || str_in event_category (lower cat))%bool
               user_categories
    then 15 else 0
  else 0.

(** The user tags counted by [matching_tags]. *)
Definition matching (user_tags event_tags : list string) : list string :=
  filter (fun tag => mem (lower tag) event_tags
                     || existsb (fun et => str_in (lower tag) et) event_tags)%bool
         user_tags.

(** The lower-cased tags of an event. *)
Definition event_tags_of (event : Event.t) : list string :=
  map lower (or_list (get (Event.tags event) (Some [])) []).

(** 2. Tag match (0-20 points). *)
Definition tag_points (user_tags event_tags : list string) : Q :=
  if truthy_list event_tags then
    let matching_tags := Z.of_nat (List.length (matching user_tags event_tags)) in
    if 0 <? matching_tags then inject_Z (Z.min 20 (matching_tags * 5)) else 0
  else 0.

Definition _build_user_text (user_profile : UserProfile.t) : string :=
  join " "
    (map lower (UserProfile.favorite_categories user_profile)
     ++ map lower (UserProfile.favorite_tags user_profile)
     ++ flat_map (fun item =>
                    lower (HistoryItem.title item)
                    :: lower (HistoryItem.category item)
                    :: map lower (HistoryItem.tags item))
                 (UserProfile.participation_history user_profile)).

Definition _build_event_text (event : Event.t) : result string :=
  (title <~ lower_of (get (Event.title event) (Some "")) ;;
   description <~ lower_of (get (Event.description event) (Some "")) ;;
   category <~ lower_of (get (Event.category event) (Some "")) ;;
   Ok (join " " (title :: description :: category :: event_tags_of event)))%py.

(** The fallback of the text similarity: shared words over user words. *)
Definition word_overlap_points (user_text event_text : string) : Q :=
  let user_words := set_of (split (lower user_text)) in
  let event_words := set_of (split (lower event_text)) in
  let common_words := intersection user_words event_words in
  if truthy_list user_words then
    (inject_Z (Z.of_nat (List.length common_words))
     / inject_Z (Z.of_nat (List.length user_words)) * 25)%Q
  else 0.

(** 3. Text similarity using TF-IDF (0-25 points): the vectorizer of the
    service is fitted again on the two texts. *)
Definition text_points (user_text event_text : string) : M RecommendationService Q :=
  fun self =>
    if (truthy_str user_text && truthy_str event_text)%bool then
      match fit_transform [user_text; event_text] with
      | Some (fitted, tfidf_matrix) =>
          ({| vectorizer := Some fitted |},
           Ok (cosine_similarity tfidf_matrix * 25)%Q)
      | None => (self, Ok (word_overlap_points user_text event_text))
      end
    else (self, Ok 0%Q).

(** The days from today to the event, when [event_date] parses. *)
Definition days_away_of (event_date : string) : option Z :=
  match fromisoformat (replace_char "Z" "+00:00" event_date) with
  | Some d => Some (d - today)
  | None => None
  end.

(** 4. Date proximity (0-15 points). *)
Definition date_points (event : Event.t) : Q :=
  match get (Event.date event) None with
  | Some event_date =>
      if truthy_str event_date then
        match days_away_of event_date with
        | Some days_away =>
            if ((0 <=? days_away) && (days_away <=? 30))%bool
            then Py.max 0 (15 - inject_Z days_away / 2)%Q
            else 0
        | None => 0
        end
      else 0
  | None => 0
  end.

(** 5. Popularity bonus (0-10 points). *)
Definition popularity_points (event : Event.t) : Q :=
  let current_participants := or_int (get (Event.current_participants event) (Some 0)) 0 in
  let max_participants := or_int (get (Event.max_participants event) (Some 1)) 1 in
  if 0 <? max_participants then
    let popularity := truediv current_participants max_participants in
    if (Qle_bool (float (3 # 10)) popularity
        && Qle_bool popularity (float (9 # 10)))%bool then 10
    else if (Qle_bool (float (1 # 10)) popularity
             && Qltb popularity (float (3 # 10)))%bool then 5
    else 0
  else 0.

Definition calculate_similarity_score (user_profile : UserProfile.t) (event : Event.t)
  : M RecommendationService Q :=
  (let score := 0%Q in
   let user_categories := UserProfile.favorite_categories user_profile in
   event_category <- lift (lower_of (get (Event.category event) (Some ""))) ;;
   let score := (score + category_points user_categories event_category)%Q in
   let user_tags := UserProfile.favorite_tags user_profile in
   let event_tags := event_tags_of event in
   let score := (score + tag_points user_tags event_tags)%Q in
   let user_text := _build_user_text user_profile in
   event_text <- lift (_build_event_text event) ;;
   similarity_points <- text_points user_text event_text ;;
   let score := (score + similarity_points)%Q in
   let score := (score + date_points event)%Q in
   let score := (score + popularity_points event)%Q in
   ret (Py.min 100 (Py.max 0 score)))%py.

(** The test guarding the override for users without preferences. *)
Definition no_preferences (user_profile : UserProfile.t) : bool :=
  (negb (truthy_list (UserProfile.favorite_categories user_profile))
   && negb (truthy_list (UserProfile.favorite_tags user_profile))
   && negb (truthy_list (UserProfile.participation_history user_profile)))%bool.

(** Bonus for popular events of the override; dividing [None] raises. *)
Definition base_popularity_bonus (event : Event.t) : result Z :=
  let current_participants := get (Event.current_participants event) (Some 0) in
  let max_participants := or_int (get (Event.max_participants event) (Some 1)) 1 in
  if 0 <? max_participants then
    match current_participants with
    | Some current_participants =>
        let popularity := truediv current_participants max_participants in
        if (Qle_bool (float (3 # 10)) popularity
            && Qle_bool popularity (float (9 # 10)))%bool then Ok 20
        else if (Qle_bool (float (1 # 10)) popularity
                 && Qltb popularity (float (3 # 10)))%bool then Ok 10
        else Ok 0
    | None => Raise TypeError
    end
  else Ok 0.

(** The days until the event as the override parses them: ISO format when
    the string has a 'T', a plain date otherwise. *)
Definition days_until_of (date_str : string) : option Z :=
  let event_date :=
    if str_in "T" date_str
    then fromisoformat (replace_char "Z" "+00:00" date_str)
    else strptime_ymd date_str in
  match event_date with
  | Some d => Some (d - today)
  | None => None
  end.

(** Bonus for upcoming events of the override; every failure is swallowed. *)
Definition base_date_bonus (event : Event.t) : Z :=
  match get (Event.date event) (Some "") with
  | Some date_str =>
      if truthy_str date_str then
        match days_until_of date_str with
        | Some days_until =>
            if ((0 <=? days_until) && (days_until <=? 30))%bool then 10 else 0
        | None => 0
        end
      else 0
  | None => 0
  end.

(** The score of a user without preferences. *)
Definition base_score_of (event : Event.t) : result Z :=
  (let base_score := 40 in
   bonus <~ base_popularity_bonus event ;;
   let base_score := base_score + bonus in
   let base_score := base_score + base_date_bonus event in
   Ok base_score)%py.

(** [min(10, max(1, int(score / 10)))] *)
Definition confidence_of (score : Q) : Z :=
  Z.min 10 (Z.max 1 (int (score / 10)%Q)).

(** The body of the scoring loop of [get_recommendations]. *)
Definition score_event (user_profile : UserProfile.t) (event : Event.t)
  : M RecommendationService ScoredEvent.t :=
  (score <- calculate_similarity_score user_profile event ;;
   score <- (if no_preferences user_profile
             then lift (base_score <~ base_score_of event ;; Ok (inject_Z base_score))
             else ret score) ;;
   ret {| ScoredEvent.event := event;
          ScoredEvent.score := score;
          ScoredEvent.confidence := confidence_of score |})%py.

Definition _get_match_factors (user_profile : UserProfile.t) (event : Event.t)
  : result (list string) :=
  (let user_categories := UserProfile.favorite_categories user_profile in
   event_category <~ lower_of (get (Event.category event) (Some "")) ;;
   let factors :=
     if mem event_category (map lower user_categories)
     then ["Matches your interest in " ++ str_of (get (Event.category event) None)]
     else [] in
   let user_tags := UserProfile.favorite_tags user_profile in
   let event_tags := event_tags_of event in
   let matching_tags := matching user_tags event_tags in
   let factors :=
     if truthy_list matching_tags
     then List.app factors ["Matches your tags: " ++ join ", " (firstn 2 matching_tags)]
     else factors in
   let factors :=
     match get (Event.date event) None with
     | Some event_date =>
         if truthy_str event_date then
           match days_away_of event_date with
           | Some days_away =>
               if ((0 <=? days_away) && (days_away <=? 7))%bool
               then List.app factors ["Happening soon"]
               else if ((8 <=? days_away) && (days_away <=? 30))%bool
               then List.app factors ["Upcoming event"]
               else factors
           | None => factors
           end
         else factors
     | None => factors
     end in
   Ok (if truthy_list factors then factors else ["Based on your preferences"]))%py.

Definition _generate_reason (score : Q) (match_factors : list string) (event : Event.t)
  : string :=
  let base :=
    if Qle_bool 70 score then "Highly recommended"
    else if Qle_bool 50 score then "Good match"
    else if Qle_bool 30 score then "May interest you"
    else "Based on your activity" in
  match match_factors with
  | factor :: _ => base ++ ": " ++ factor
  | [] => base ++ " based on your event preferences and history"
  end.

(** The body of the formatting loop of [get_recommendations]. *)
Definition format_item (user_profile : UserProfile.t) (item : ScoredEvent.t)
  : result Recommendation.t :=
  (let event := ScoredEvent.event item in
   let score := ScoredEvent.score item in
   let confidence := ScoredEvent.confidence item in
   match_factors <~ _get_match_factors user_profile event ;;
   let reason := _generate_reason score match_factors event in
   Ok {| Recommendation.eventId := get (Event.id event) None;
         Recommendation.title := get (Event.title event) None;
         Recommendation.reason := reason;
         Recommendation.confidence := confidence;
         Recommendation.score := round2 score;
         Recommendation.matchFactors := match_factors |})%py.

Definition get_recommendations
  (user_profile : UserProfile.t) (available_events : list Event.t) (top_n : Z)
  : M RecommendationService (list Recommendation.t) :=
  (if negb (truthy_list available_events) then ret []
   else
     scored_events <- for_each (score_event user_profile) available_events ;;
     let scored_events := sorted_reverse ScoredEvent.score Qltb scored_events in
     lift (traverse (format_item user_profile) (slice_to scored_events top_n)))%py.

End Service.

(** ** The vectorizer as a shared object

    Above, what [fit_transform] returns is a function of the texts alone.
    Here lines 59-72 are read without that: the vectorizer is an object of
    the library, [fit_transform_on] is handed what the object has learnt so
    far and returns the object after the call together with the matrix
    ([None] when it raises), and the service passes its one vectorizer
    from call to call. *)
Section SharedVectorizer.
Context {R : Runtime}.
Variable Vectorizer : Type.
Variable fit_transform_on : Vectorizer -> list string -> Vectorizer * option Matrix.

Definition text_points_on (user_text event_text : string) : M Vectorizer Q :=
  fun vectorizer =>
    if (truthy_str user_text && truthy_str event_text)%bool then
      match fit_transform_on vectorizer [user_text; event_text] with
      | (vectorizer, Some tfidf_matrix) =>
          (vectorizer, Ok (cosine_similarity tfidf_matrix * 25)%Q)
      | (vectorizer, None) =>
          (vectorizer, Ok (word_overlap_points user_text event_text))
      end
    else (vectorizer, Ok 0%Q).

Definition calculate_similarity_score_on (user_profile : UserProfile.t)
  (event : Event.t) : M Vectorizer Q :=
  (let score := 0%Q in
   let user_categories := UserProfile.favorite_categories user_profile in
   event_category <- lift (lower_of (get (Event.category event) (Some ""))) ;;
   let score := (score + category_points user_categories event_category)%Q in
   let user_tags := UserProfile.favorite_tags user_profile in
   let event_tags := event_tags_of event in
   let score := (score + tag_points user_tags event_tags)%Q in
   let user_text := _build_user_text user_profile in
   event_text <- lift (_build_event_text event) ;;
   similarity_points <- text_points_on user_text event_text ;;
   let score := (score + similarity_points)%Q in
   let score := (score + date_points event)%Q in
   let score := (score + popularity_points event)%Q in
   ret (Py.min 100 (Py.max 0 score)))%py.

End SharedVectorizer.

(** The library of [Runtime] as such an object: a fit that succeeds
    replaces what the vectorizer had learnt, one that raises leaves it. *)
Definition fit_transform_of {R : Runtime} (vectorizer : option Fitted)
  (texts : list string) : option Fitted * option Matrix :=
  match fit_transform texts with
  | Some (fitted, tfidf_matrix) => (Some fitted, Some tfidf_matrix)
  | None => (vectorizer, None)
  end.

(** ** [analytics.py] *)

(** A row of the [events] table as the profile builder selects it. *)
Module EventRow.
Record t : Type := {
  id : string;
  title : string;
  category : option string;
  tags : option (list string)
}.
End EventRow.

(** A row of the [participants] table. *)
Module Participation.
Record t : Type := {
  event_id : option string;
  status : option string
}.
End Participation.

(** What [build_user_profile] reads from the database: the signup
    preferences in the user's metadata, the events the user created, the
    user's participations, and the [events] table queried for the
    participations. *)
Module Records.
Record t : Type := {
  initial_categories : list string;
  initial_tags : list string;
  user_events : list EventRow.t;
  participations : list Participation.t;
  events_table : list EventRow.t
}.
End Records.

(** A dict from labels to weights, in insertion order. *)
Definition weights : Type := list (string * Z).

(** [d[k] = d.get(k, 0) + w] *)
Fixpoint add_weight (k : string) (w : Z) (d : weights) : weights :=
  match d with
  | [] => [(k, 0 + w)]
  | (k', v) :: d' =>
      if String.eqb k k' then (k', v + w) :: d'
      else (k', v) :: add_weight k w d'
  end.

(** [for x in l: if x: d[x] = d.get(x, 0) + w] *)
Definition add_labels (w : Z) (l : list string) (d : weights) : weights :=
  fold_left (fun d x => if truthy_str x then add_weight x w d else d) l d.

(** [if category: categories[category] = categories.get(category, 0) + w] *)
Definition add_category (w : Z) (category : option string) (d : weights) : weights :=
  match category with
  | Some c => if truthy_str c then add_weight c w d else d
  | None => d
  end.

(** [x or ''] *)
Definition or_str (x : option string) : string :=
  match x with
  | Some s => s
  | None => ""
  end.

(** [{e['id']: e for e in rows}[event_id]]: the last row with that id. *)
Definition lookup_event (rows : list EventRow.t) (event_id : string) : option EventRow.t :=
  fold_left (fun found e => if String.eqb (EventRow.id e) event_id then Some e else found)
            rows None.

(** The three accumulators of the extraction loops. *)
Record Extraction : Type := {
  categories : weights;
  tags : weights;
  participation_history : list HistoryItem.t
}.

(** The body of the loop over the created events. *)
Definition from_created (acc : Extraction) (event : EventRow.t) : Extraction :=
  let category := EventRow.category event in
  let event_tags := or_list (EventRow.tags event) [] in
  {| categories := add_category 2 category (categories acc);
     tags := add_labels 2 event_tags (tags acc);
     participation_history := participation_history acc |}.

(** The body of the loop over the participations. *)
Definition from_participation (participation_events : list EventRow.t)
  (acc : Extraction) (participation : Participation.t) : Extraction :=
  match Participation.event_id participation with
  | Some event_id =>
      if truthy_str event_id then
        match lookup_event participation_events event_id with
        | Some event_data =>
            let category := EventRow.category event_data in
            let event_tags := or_list (EventRow.tags event_data) [] in
            {| categories := add_category 2 category (categories acc);
               tags := add_labels 2 event_tags (tags acc);
               participation_history :=
                 List.app (participation_history acc)
                   [{| HistoryItem.title := EventRow.title event_data;
                       HistoryItem.category := or_str category;
                       HistoryItem.tags := event_tags |}] |}
        | None => acc
        end
      else acc
  | None => acc
  end.

(** [sorted(d.items(), key=lambda x: x[1], reverse=True)[:n]], then the
    labels, or [initial[:n]] when the dict was empty. *)
Definition top_labels (n : nat) (d : weights) (initial : list string) : list string :=
  let favorite := firstn n (sorted_reverse snd Z.ltb d) in
  if truthy_list favorite then map fst favorite else firstn n initial.

(** [build_user_profile], from the fetched records on; ids that are falsy
    are not queried, and without ids no query is made.  A query that fails
    makes the source return the empty profile; the records taken here are
    those of queries that succeeded. *)
Definition build_user_profile (r : Records.t) : UserProfile.t :=
  let initial_categories := Records.initial_categories r in
  let initial_tags := Records.initial_tags r in
  let user_events := Records.user_events r in
  let participations := Records.participations r in
  let event_ids :=
    flat_map (fun p => match Participation.event_id p with
                       | Some i => if truthy_str i then [i] else []
                       | None => []
                       end) participations in
  let participation_events :=
    if truthy_list event_ids
    then filter (fun e => mem (EventRow.id e) event_ids) (Records.events_table r)
    else [] in
  let acc := {| categories := add_labels 1 initial_categories [];
                tags := add_labels 1 initial_tags [];
                participation_history := [] |} in
  let acc := fold_left from_created user_events acc in
  let acc := fold_left (from_participation participation_events) participations acc in
  let favorite_categories := top_labels 3 (categories acc) initial_categories in
  let favorite_tags := top_labels 5 (tags acc) initial_tags in
  let no_history :=
    (Nat.eqb (List.length user_events) 0 && Nat.eqb (List.length participations) 0)%bool in
  {| UserProfile.favorite_categories :=
       if no_history
       then (if truthy_list initial_categories then firstn 3 initial_categories else [])
       else favorite_categories;
     UserProfile.favorite_tags :=
       if no_history
       then (if truthy_list initial_tags then firstn 5 initial_tags else [])
       else favorite_tags;
     UserProfile.participation_history := participation_history acc;
     UserProfile.events_created := List.length user_events;
     UserProfile.events_attended :=
       List.length (filter (fun p => match Participation.status p with
                                     | Some s => String.eqb s "attended"
                                     | None => false
                                     end) participations);
     UserProfile.has_initial_preferences :=
       (Nat.ltb 0 (List.length initial_categories)
        || Nat.ltb 0 (List.length initial_tags))%bool |}.

(** An element of the list the endpoint returns: a recommendation of the
    service, or a dict synthesised by the popularity fallback. *)
Inductive Entry : Type :=
| Scored (r : Recommendation.t)
| Popular (event : Event.t) (score confidence : Z) (reason : string)
          (matchFactors : list string).

Section Endpoint.
Context {R : Runtime}.

(** The loop that attaches the participant counts; [count] is the outcome
    of the query on the [participants] table for an event, and a failed
    query counts as 0. *)
Definition with_counts (count : Event.t -> result Z) (event : Event.t) : Event.t :=
  {| Event.id := Event.id event;
     Event.title := Event.title event;
     Event.description := Event.description event;
     Event.category := Event.category event;
     Event.tags := Event.tags event;
     Event.date := Event.date event;
     Event.current_participants :=
       Present (match count event with Ok n => n | Raise _ => 0 end);
     Event.max_participants :=
       Present (or_int (get (Event.max_participants event) (Some 0)) 0) |}.

(** The sort key of the fallback:
    [(current_participants, -(days if e.get('date') else 999))]. *)
Definition popularity_key (e : Event.t) : result (Z * Z) :=
  (current_participants <~
     match get (Event.current_participants e) (Some 0) with
     | Some n => Ok n
     | None => Raise TypeError
     end ;;
   days <~
     match get (Event.date e) None with
     | Some date_str =>
         if truthy_str date_str then
           match fromisoformat date_str with
           | Some d => Ok (d - today)
           | None => Raise ValueError
           end
         else Ok 999
     | None => Ok 999
     end ;;
   Ok (current_participants, - days))%py.

(** [sorted(available_events, key=..., reverse=True)]: the keys are
    computed first, one per event. *)
Definition sorted_by_popularity (available_events : list Event.t) : result (list Event.t) :=
  (keyed <~ traverse (fun e => k <~ popularity_key e ;; Ok (e, k)) available_events ;;
   Ok (map fst (sorted_reverse snd pair_ltb keyed)))%py.

Definition popular_entry (event : Event.t) : Entry :=
  Popular event 50 5 "Popular upcoming event - check it out!"
          ["Popular event"; "Upcoming soon"].

(** The ranking part of [get_personalized_recommendations]: the call of
    the service and the fallback on an empty answer. *)
Definition get_personalized_recommendations (user_profile : UserProfile.t)
  (events : list Event.t) (count : Event.t -> result Z) (top_n : Z)
  : M RecommendationService (list Entry) :=
  (let available_events := map (with_counts count) events in
   recommendations <- get_recommendations user_profile available_events top_n ;;
   if (negb (truthy_list recommendations) && truthy_list available_events)%bool then
     sorted_events <- lift (sorted_by_popularity available_events) ;;
     ret (map popular_entry (slice_to sorted_events top_n))
   else ret (map Scored recommendations))%py.

End Endpoint.

(** ** The rest of the two modules *)

(** [str(n)] for the length of a list. *)
Definition str_of_nat (n : nat) : string :=
  NilEmpty.string_of_uint (Nat.to_uint n).

(** [generate_insights]; of the recommendations only the number is read. *)
Definition generate_insights {A : Type} (user_profile : UserProfile.t)
  (recommendations : list A) : string :=
  if negb (truthy_list recommendations) then
    "No events available for recommendations at this time. Check back later for new events!"
  else if no_preferences user_profile then
    "Welcome! We've found " ++ str_of_nat (List.length recommendations)
    ++ " upcoming event(s) that might interest you. "
    ++ "Explore events from different categories to help us personalize "
    ++ "future recommendations!"
  else
    match UserProfile.favorite_categories user_profile with
    | category_name :: _ =>
        "Based on your interest in " ++ category_name
        ++ " and your event history, we've found "
        ++ str_of_nat (List.length recommendations)
        ++ " personalized recommendations for you."
    | [] =>
        "We've found " ++ str_of_nat (List.length recommendations)
        ++ " events that match your preferences based on your activity and interests."
    end.

(** [s.split(',')]: the pieces between the separators, empty ones kept. *)
Fixpoint split_on (sep : ascii) (s : string) : list string :=
  match s with
  | EmptyString => [EmptyString]
  | String c s' =>
      if Ascii.eqb c sep then EmptyString :: split_on sep s'
      else match split_on sep s' with
           | piece :: pieces => String c piece :: pieces
           | [] => [String c EmptyString]
           end
  end.

(** [s.strip()]: whitespace removed at both ends. *)
Fixpoint lstrip (s : string) : string :=
  match s with
  | EmptyString => EmptyString
  | String c s' => if is_space c then lstrip s' else s
  end.

Fixpoint rstrip (s : string) : string :=
  match s with
  | EmptyString => EmptyString
  | String c s' =>
      let rest := rstrip s' in
      if (is_space c && negb (truthy_str rest))%bool then EmptyString
      else String c rest
  end.

Definition strip (s : string) : string := rstrip (lstrip s).

(** [[x.strip() for x in s.split(',') if x.strip()]] *)
Definition stripped_pieces (s : string) : list string :=
  filter truthy_str (map strip (split_on "," s)).

(** The override of [get_personalized_recommendations]: preferences given
    with the request replace the favorites of a user who created and
    attended nothing. *)
Definition with_request_preferences (user_profile : UserProfile.t)
  (initial_categories initial_tags : option string) : UserProfile.t :=
  let given x := match x with Some s => truthy_str s | None => false end in
  if (Nat.eqb (UserProfile.events_created user_profile) 0
      && Nat.eqb (UserProfile.events_attended user_profile) 0
      && (given initial_categories || given initial_tags))%bool
  then
    let favorite_categories :=
      match initial_categories with
      | Some s =>
          if truthy_str s then
            let cats := stripped_pieces s in
            if truthy_list cats then firstn 3 cats
            else UserProfile.favorite_categories user_profile
          else UserProfile.favorite_categories user_profile
      | None => UserProfile.favorite_categories user_profile
      end in
    let favorite_tags :=
      match initial_tags with
      | Some s =>
          if truthy_str s then
            let tags := stripped_pieces s in
            if truthy_list tags then firstn 5 tags
            else UserProfile.favorite_tags user_profile
          else UserProfile.favorite_tags user_profile
      | None => UserProfile.favorite_tags user_profile
      end in
    {| UserProfile.favorite_categories := favorite_categories;
       UserProfile.favorite_tags := favorite_tags;
       UserProfile.participation_history :=
         UserProfile.participation_history user_profile;
       UserProfile.events_created := UserProfile.events_created user_profile;
       UserProfile.events_attended := UserProfile.events_attended user_profile;
       UserProfile.has_initial_preferences :=
         UserProfile.has_initial_preferences user_profile |}
  else user_profile.

(** The payload of the endpoint. *)
Module Response.
Record t : Type := {
  recommendations : list Entry;
  insights : string;
  favorite_categories : list string;
  favorite_tags : list string;
  total_events_created : nat;
  total_events_attended : nat
}.
End Response.

Section Request.
Context {R : Runtime}.

(** [get_personalized_recommendations] from the built profile and the
    fetched events on: the override, the ranking, the insights and the
    payload. *)
Definition respond (user_profile : UserProfile.t)
  (initial_categories initial_tags : option string) (events : list Event.t)
  (count : Event.t -> result Z) (top_n : Z) : M RecommendationService Response.t :=
  (let user_profile :=
     with_request_preferences user_profile initial_categories initial_tags in
   recommendations <- get_personalized_recommendations user_profile events count top_n ;;
   let insights := generate_insights user_profile recommendations in
   ret {| Response.recommendations := recommendations;
          Response.insights := insights;
          Response.favorite_categories := UserProfile.favorite_categories user_profile;
          Response.favorite_tags := UserProfile.favorite_tags user_profile;
          Response.total_events_created := UserProfile.events_created user_profile;
          Response.total_events_attended := UserProfile.events_attended user_profile |})%py.

End Request.

(** ** The formulas of the specification *)

(** The confidence as the specification words it:
    [clamp(round(score/10), 1, 10)]. *)
Definition spec_confidence (score : Q) : Z :=
  Z.min 10 (Z.max 1 (round_half_even (score / 10)%Q)).





(** The integers a candidate event carries; a count that is not given is
    0, and a capacity of 0 means unknown. *)
Definition participants_of (event : Event.t) : Z :=
  or_int (get (Event.current_participants event) (Some 0)) 0.

Definition capacity_of (event : Event.t) : Z :=
  or_int (get (Event.max_participants event) (Some 0)) 0.

(** Counts for which the binary64 quotient falls on the same side of 0.1,
    0.3 and 0.9 as the exact ratio: up to 2^49, about 5.6e14. *)
Definition modest_counts (event : Event.t) : Prop :=
  Z.abs (participants_of event) <= 2 ^ 49 /\ capacity_of event <= 2 ^ 49.

(** The labels of a weight map in first-seen order, the accumulated weight
    of a label, and the ranking of the specification: a stable sort over
    (weight descending, first-seen index ascending). *)
Fixpoint first_seen (l : list string) : list string :=
  match l with
  | [] => []
  | x :: l' => x :: filter (fun y => negb (String.eqb x y)) (first_seen l')
  end.

Definition total_weight (occurrences : list (string * Z)) (label : string) : Z :=
  fold_right Z.add 0
    (map snd (filter (fun o => String.eqb label (fst o)) occurrences)).

Definition spec_ranking (occurrences : list (string * Z)) : list (string * Z) :=
  sorted_reverse snd Z.ltb
    (map (fun label => (label, total_weight occurrences label))
         (first_seen (map fst occurrences))).

Definition spec_top (n : nat) (occurrences : list (string * Z)) : list string :=
  map fst (firstn n (spec_ranking occurrences)).

(** The weighted label occurrences of a user's records, in the order the
    specification lists them: signup preferences (weight 1), authored
    events (weight 2), resolved participations (weight 2). *)
Definition resolved_in (rows : list EventRow.t) (participations : list Participation.t)
  : list EventRow.t :=
  flat_map (fun p =>
              match Participation.event_id p with
              | Some i =>
                  if truthy_str i then
                    match lookup_event rows i with
                    | Some e => [e]
                    | None => []
                    end
                  else []
              | None => []
              end)
           participations.

Definition resolved (r : Records.t) : list EventRow.t :=
  resolved_in (Records.events_table r) (Records.participations r).

Definition weighted (w : Z) (labels : list string) : list (string * Z) :=
  map (fun l => (l, w)) (filter truthy_str labels).

Definition row_category (e : EventRow.t) : list string :=
  match EventRow.category e with Some c => [c] | None => [] end.

Definition row_tags (e : EventRow.t) : list string :=
  match EventRow.tags e with Some l => l | None => [] end.

Definition category_occurrences (r : Records.t) : list (string * Z) :=
  (weighted 1 (Records.initial_categories r)
   ++ weighted 2 (flat_map row_category (Records.user_events r))
   ++ weighted 2 (flat_map row_category (resolved r)))%list.

Definition tag_occurrences (r : Records.t) : list (string * Z) :=
  (weighted 1 (Records.initial_tags r)
   ++ weighted 2 (flat_map row_tags (Records.user_events r))
   ++ weighted 2 (flat_map row_tags (resolved r)))%list.

(** The dict obtained from [d] by adding weighted occurrences one by one. *)
Definition accumulate (occurrences : list (string * Z)) (d : weights) : weights :=
  fold_left (fun d o => add_weight (fst o) (snd o) d) occurrences d.

(** The weight map with every label at its accumulated weight, in
    first-seen order. *)
Definition weight_map (occurrences : list (string * Z)) : weights :=
  map (fun label => (label, total_weight occurrences label))
      (first_seen (map fst occurrences)).

(** Whether the user authored an event or has a participation record. *)
Definition has_history (r : Records.t) : bool :=
  negb (Nat.eqb (List.length (Records.user_events r)) 0
        && Nat.eqb (List.length (Records.participations r)) 0).

(** ** Inputs of the examples *)

(** A stand-in for the libraries, used by the examples only.  Texts are
    compared by the Jaccard index of their word sets: for texts that share
    no word it is 0, as the tf-idf cosine is.  Fitting fails when the texts
    have no word at all.  Day 0 is 2026-11-04, and the calendar knows the
    dates the examples use; [datetime.fromisoformat] also reads a date
    that is followed by a time, which [strptime] with ['%Y-%m-%d']
    rejects. *)
Definition jaccard (docs : list (list string)) : Q :=
  match docs with
  | [u; e] =>
      let common := intersection (set_of u) (set_of e) in
      let union := set_of (u ++ e) in
      if truthy_list union
      then (inject_Z (Z.of_nat (List.length common))
            / inject_Z (Z.of_nat (List.length union)))%Q
      else 0
  | _ => 0
  end.

Definition calendar (s : string) : option Z :=
  if String.eqb s "2026-11-04" then Some 0
  else if String.eqb s "2026-11-08" then Some 4
  else if String.eqb s "2026-11-20" then Some 16
  else if String.eqb s "2027-03-01" then Some 117
  else None.

Definition iso_calendar (s : string) : option Z :=
  if String.eqb s "2026-11-08 10:00:00" then Some 4
  else if String.eqb s "2026-11-08T10:00:00+00:00" then Some 4
  else calendar s.

#[local] Instance demo : Runtime := {|
  Fitted := list string;
  Matrix := list (list string);
  fit_transform := fun texts =>
    let docs := map split texts in
    if truthy_list (List.concat docs) then Some (texts, docs) else None;
  cosine_similarity := jaccard;
  today := 0;
  fromisoformat := iso_calendar;
  strptime_ymd := calendar
|}.


Definition remembering (vectorizer : list string) (texts : list string)
  : list string * option (list (list string)) :=
  ((vectorizer ++ texts)%list, Some (map split (vectorizer ++ texts))).

Definition candidate (id title category : string) (tags : list string)
  (date : field string) (current_participants max_participants : Z) : Event.t :=
  {| Event.id := Present id;
     Event.title := Present title;
     Event.description := Present "";
     Event.category := Present category;
     Event.tags := Present tags;
     Event.date := date;
     Event.current_participants := Present current_participants;
     Event.max_participants := Present max_participants |}.

Definition profile_of (categories tags : list string) : UserProfile.t :=
  {| UserProfile.favorite_categories := categories;
     UserProfile.favorite_tags := tags;
     UserProfile.participation_history := [];
     UserProfile.events_created := 0;
     UserProfile.events_attended := 0;
     UserProfile.has_initial_preferences := truthy_list (categories ++ tags) |}.

Definition newcomer : UserProfile.t := profile_of [] [].
Definition art_lover : UserProfile.t := profile_of ["Art"] [].
Definition music_fan : UserProfile.t := profile_of ["music"] ["live"].

Definition street_party : Event.t :=
  candidate "e1" "Street party" "Party" [] (Present "2026-11-08") 0 0.

Definition concert : Event.t :=
  candidate "e2" "Jazz night" "Music" ["live"; "outdoor"] (Present "2026-11-08") 40 100.

Definition match5 : Event.t :=
  candidate "m5" "Football derby" "Sports" [] (Present "2027-03-01") 0 1000.
Definition match2 : Event.t :=
  candidate "m2" "Tennis open" "Sports" [] (Present "2027-03-01") 0 1000.
Definition match8 : Event.t :=
  candidate "m8" "Rugby cup" "Sports" [] (Present "2027-03-01") 0 1000.

(** The participant counts the endpoint fetches for the three matches. *)
Definition match_counts (e : Event.t) : result Z :=
  match get (Event.id e) None with
  | Some i =>
      if String.eqb i "m5" then Ok 5
      else if String.eqb i "m2" then Ok 2
      else if String.eqb i "m8" then Ok 8
      else Ok 0
  | None => Raise ValueError
  end.


Definition crowd : Event.t :=
  candidate "g2" "Parade" "City" [] Absent 1800000000000001 2000000000000001.

(** An event whose category is [None]. *)
Definition uncategorised : Event.t :=
  {| Event.id := Present "e9";
     Event.title := Present "Open day";
     Event.description := Present "";
     Event.category := Null;
     Event.tags := Absent;
     Event.date := Absent;
     Event.current_participants := Absent;
     Event.max_participants := Absent |}.

(** A user who picked "Sports" twice at signup and has no history. *)
Definition signup_only : Records.t :=
  {| Records.initial_categories := ["Music"; "Sports"; "Sports"];
     Records.initial_tags := [];
     Records.user_events := [];
     Records.participations := [];
     Records.events_table := [] |}.

(** The same signup with one authored event and one participation. *)
Definition active_user : Records.t :=
  {| Records.initial_categories := ["Music"; "Sports"; "Sports"];
     Records.initial_tags := ["live"];
     Records.user_events :=
       [{| EventRow.id := "u1"; EventRow.title := "Quiz";
           EventRow.category := Some "Games"; EventRow.tags := Some ["indoor"; "live"] |}];
     Records.participations :=
       [{| Participation.event_id := Some "x1"; Participation.status := Some "attended" |}];
     Records.events_table :=
       [{| EventRow.id := "x1"; EventRow.title := "Gig";
           EventRow.category := Some "Music"; EventRow.tags := None |}] |}.

(** A user without signup preferences who created nothing and registered
    for a concert without being marked as having attended it, and a user
    whose only participation names an event that is not in the table. *)
Definition registered_user : Records.t :=
  {| Records.initial_categories := [];
     Records.initial_tags := [];
     Records.user_events := [];
     Records.participations :=
       [{| Participation.event_id := Some "x1"; Participation.status := Some "registered" |}];
     Records.events_table :=
       [{| EventRow.id := "x1"; EventRow.title := "Gig";
           EventRow.category := Some "Music"; EventRow.tags := None |}] |}.

Definition stranded_user : Records.t :=
  {| Records.initial_categories := [];
     Records.initial_tags := [];
     Records.user_events := [];
     Records.participations :=
       [{| Participation.event_id := Some "gone"; Participation.status := Some "attended" |}];
     Records.events_table := [] |}.

(** ** Notions used by the statements *)

(** A key that does not hold [None]. *)
Definition not_null {A : Type} (f : field A) : bool :=
  match f with
  | Null => false
  | _ => true
  end.

(** The events the service can read: no text field holds [None] (a
    missing key is fine), nor does the participant count. *)
Definition readable (event : Event.t) : bool :=
  (not_null (Event.title event) && not_null (Event.description event)
   && not_null (Event.category event))%bool.

Definition well_formed (event : Event.t) : bool :=
  (readable event && not_null (Event.current_participants event))%bool.

(** A list in descending order of its keys. *)
Definition descending {A K : Type} (key : A -> K) (ltb : K -> K -> bool)
  (l : list A) : Prop :=
  StronglySorted (fun a b => ltb (key a) (key b) = false) l.

(** Keys that are neither below nor above each other. *)
Definition same_key {K : Type} (ltb : K -> K -> bool) (a b : K) : bool :=
  (negb (ltb a b) && negb (ltb b a))%bool.

(** [l'] keeps the elements of every key in the order they have in [l]. *)
Definition keeps_order {A K : Type} (key : A -> K) (ltb : K -> K -> bool)
  (l l' : list A) : Prop :=
  forall k, filter (fun a => same_key ltb (key a) k) l'
            = filter (fun a => same_key ltb (key a) k) l.

Section Values.
Context {R : Runtime}.

(** The points [text_points] returns, whatever the vectorizer had learnt. *)
Definition similarity_value (user_text event_text : string) : Q :=
  if (truthy_str user_text && truthy_str event_text)%bool then
    match fit_transform [user_text; event_text] with
    | Some (_, tfidf_matrix) => (cosine_similarity tfidf_matrix * 25)%Q
    | None => word_overlap_points user_text event_text
    end
  else 0.

(** The sum of the five components, before the final clamp. *)
Definition raw_score (user_profile : UserProfile.t) (event : Event.t)
  (event_category event_text : string) : Q :=
  (0 + category_points (UserProfile.favorite_categories user_profile) event_category
   + tag_points (UserProfile.favorite_tags user_profile) (event_tags_of event)
   + similarity_value (_build_user_text user_profile) event_text
   + date_points event
   + popularity_points event)%Q.

(** The element [score_event] appends, whatever the vectorizer had learnt. *)
Definition scored_value (user_profile : UserProfile.t) (event : Event.t)
  : result ScoredEvent.t :=
  (event_category <~ lower_of (get (Event.category event) (Some "")) ;;
   event_text <~ _build_event_text event ;;
   let score := Py.min 100 (Py.max 0 (raw_score user_profile event event_category event_text)) in
   score <~ (if no_preferences user_profile
             then base_score <~ base_score_of event ;; Ok (inject_Z base_score)
             else Ok score) ;;
   Ok {| ScoredEvent.event := event;
         ScoredEvent.score := score;
         ScoredEvent.confidence := confidence_of score |})%py.

(** The days until the event that the override for users without
    preferences reads off the event, if any. *)
Definition days_until (event : Event.t) : option Z :=
  match get (Event.date event) (Some "") with
  | Some date_str => if truthy_str date_str then days_until_of date_str else None
  | None => None
  end.

(** The ranking of [get_recommendations]: the scored events after the sort. *)
Definition ranking (scored_events : list ScoredEvent.t) : list ScoredEvent.t :=
  sorted_reverse ScoredEvent.score Qltb scored_events.

End Values.

(** ** Notions used by the statements on the rest of the code *)

Section Readings.
Context {R : Runtime}.

(** The days from today to the event as the scorer reads them off the
    event, if it has a date that parses. *)
Definition event_days (event : Event.t) : option Z :=
  match get (Event.date event) None with
  | Some event_date => if truthy_str event_date then days_away_of event_date else None
  | None => None
  end.

(** The service a computation leaves behind holds what [self] held, or
    the fit on the user text and the text of one of the events. *)
Definition refitted (p : UserProfile.t) (events : list Event.t)
  (self after : RecommendationService) : Prop :=
  vectorizer after = vectorizer self
  \/ exists e event_text fitted tfidf_matrix,
       In e events
       /\ _build_event_text e = Ok event_text
       /\ fit_transform [_build_user_text p; event_text] = Some (fitted, tfidf_matrix)
       /\ vectorizer after = Some fitted.

End Readings.

(** The candidates the scoring loop gets through for a profile: the
    readable ones, except that the override for users without preferences
    divides the participant count, which must then not be [None] when the
    capacity is positive. *)
Definition scorable (p : UserProfile.t) (e : Event.t) : bool :=
  (readable e
   && (negb (no_preferences p)
       || not_null (Event.current_participants e)
       || negb (0 <? or_int (get (Event.max_participants e) (Some 1)) 1)))%bool.

(** The insight [generate_insights] gives for an empty list. *)
Definition no_events_insight : string :=
  "No events available for recommendations at this time. Check back later for new events!".

(** A text of ASCII characters. *)
Fixpoint ascii_text (s : string) : bool :=
  match s with
  | EmptyString => true
  | String c s' => (Nat.ltb (nat_of_ascii c) 128 && ascii_text s')%bool
  end.

(** A label without a comma, and a label the request parser returns as it
    is: not empty, without a comma, without whitespace at either end. *)
Fixpoint comma_free (s : string) : bool :=
  match s with
  | EmptyString => true
  | String c s' => (negb (Ascii.eqb c ",") && comma_free s')%bool
  end.

Definition clean_label (s : string) : bool :=
  (truthy_str s && comma_free s && String.eqb (strip s) s)%bool.

(** A created event that teaches the profile builder nothing: no category
    and no tag, or empty ones. *)
Definition unlabelled (e : EventRow.t) : bool :=
  negb (existsb truthy_str (row_category e ++ row_tags e)).

(** The two factors [_get_match_factors] builds from the event and the
    profile. *)
Definition category_factor (event : Event.t) : string :=
  "Matches your interest in " ++ str_of (get (Event.category event) None).

Definition tags_factor (user_profile : UserProfile.t) (event : Event.t) : string :=
  "Matches your tags: "
  ++ join ", " (firstn 2 (matching (UserProfile.favorite_tags user_profile)
                            (event_tags_of event))).

(** The base phrase of [_generate_reason] for a score. *)
Definition base_phrase (score : Q) : string :=
  if Qle_bool 70 score then "Highly recommended"
  else if Qle_bool 50 score then "Good match"
  else if Qle_bool 30 score then "May interest you"
  else "Based on your activity".

(** The base phrase of a reason, by the confidence of the recommendation. *)
Definition phrase_of_confidence (confidence : Z) : string :=
  if 7 <=? confidence then "Highly recommended"
  else if 5 <=? confidence then "Good match"
  else if 3 <=? confidence then "May interest you"
  else "Based on your activity".

(** The history item [build_user_profile] records for a resolved
    participation. *)
Definition history_item (event_data : EventRow.t) : HistoryItem.t :=
  {| HistoryItem.title := EventRow.title event_data;
     HistoryItem.category := or_str (EventRow.category event_data);
     HistoryItem.tags := row_tags event_data |}.

(** A profile and an event with every label and text in lower case. *)
Definition lowercase_profile (p : UserProfile.t) : UserProfile.t :=
  {| UserProfile.favorite_categories := map lower (UserProfile.favorite_categories p);
     UserProfile.favorite_tags := map lower (UserProfile.favorite_tags p);
     UserProfile.participation_history :=
       map (fun item =>
              {| HistoryItem.title := lower (HistoryItem.title item);
                 HistoryItem.category := lower (HistoryItem.category item);
                 HistoryItem.tags := map lower (HistoryItem.tags item) |})
           (UserProfile.participation_history p);
     UserProfile.events_created := UserProfile.events_created p;
     UserProfile.events_attended := UserProfile.events_attended p;
     UserProfile.has_initial_preferences := UserProfile.has_initial_preferences p |}.

Definition lowercase_field (f : field string) : field string :=
  match f with
  | Present s => Present (lower s)
  | Absent => Absent
  | Null => Null
  end.

Definition lowercase_event (e : Event.t) : Event.t :=
  {| Event.id := Event.id e;
     Event.title := lowercase_field (Event.title e);
     Event.description := lowercase_field (Event.description e);
     Event.category := lowercase_field (Event.category e);
     Event.tags :=
       match Event.tags e with
       | Present l => Present (map lower l)
       | Absent => Absent
       | Null => Null
       end;
     Event.date := Event.date e;
     Event.current_participants := Event.current_participants e;
     Event.max_participants := Event.max_participants e |}.

(** * Verification *)

(** ** Rationals, clamps and rounding *)

Lemma Qltb_true (x y : Q) : Qltb x y = true <-> (x < y)%Q.
Proof.
  unfold Qltb. rewrite negb_true_iff.
  destruct (Qle_bool y x) eqn:E.
  - apply Qle_bool_iff in E. split; [discriminate | intros H; exfalso; lra].
  - split; [intros _ | reflexivity].
    apply Qnot_le_lt. intros H. apply Qle_bool_iff in H. congruence.
Qed.

Lemma Qltb_false (x y : Q) : Qltb x y = false <-> (y <= x)%Q.
Proof.
  unfold Qltb. rewrite negb_false_iff. apply Qle_bool_iff.
Qed.

Lemma Qle_bool_false (x y : Q) : Qle_bool x y = false <-> (y < x)%Q.
Proof.
  rewrite <- Qltb_true. unfold Qltb. rewrite negb_true_iff. reflexivity.
Qed.

Lemma max_bounds (a b : Q) : (a <= Py.max a b /\ b <= Py.max a b)%Q.
Proof.
  unfold Py.max. destruct (Qltb a b) eqn:E.
  - apply Qltb_true in E. split; lra.
  - apply Qltb_false in E. split; lra.
Qed.

Lemma min_bounds (a b : Q) : (Py.min a b <= a /\ Py.min a b <= b)%Q.
Proof.
  unfold Py.min. destruct (Qltb b a) eqn:E.
  - apply Qltb_true in E. split; lra.
  - apply Qltb_false in E. split; lra.
Qed.

Lemma clamp_bounds (x : Q) : (0 <= Py.min 100 (Py.max 0 x) <= 100)%Q.
Proof.
  split; [| apply min_bounds].
  unfold Py.min. destruct (Qltb (Py.max 0 x) 100); [apply max_bounds | lra].
Qed.

Lemma confidence_of_bounds (score : Q) : 1 <= confidence_of score <= 10.
Proof. unfold confidence_of. lia. Qed.

Lemma round_half_even_bounds (x : Q) :
  Qfloor x <= round_half_even x <= Qfloor x + 1.
Proof.
  unfold round_half_even.
  destruct (x - inject_Z (Qfloor x) ?= 1 # 2)%Q; [destruct (Z.even _) | |]; lia.
Qed.

Lemma round_half_even_eq (x : Q) (z : Z) :
  (x == inject_Z z)%Q -> round_half_even x = z.
Proof.
  intros H. unfold round_half_even.
  assert (F : Qfloor x = z).
  { rewrite (Qfloor_comp _ _ H). apply Qfloor_Z. }
  rewrite F.
  assert (E : (x - inject_Z z ?= 1 # 2)%Q = Lt).
  { apply (proj1 (Qlt_alt _ _)). lra. }
  now rewrite E.
Qed.

Lemma round_half_even_mono (x y : Q) :
  (x <= y)%Q -> round_half_even x <= round_half_even y.
Proof.
  intros H.
  pose proof (Qfloor_resp_le _ _ H) as F.
  pose proof (round_half_even_bounds x) as Bx.
  pose proof (round_half_even_bounds y) as By.
  destruct (Z.eq_dec (Qfloor x) (Qfloor y)) as [E | NE]; [| lia].
  unfold round_half_even in *. rewrite <- E in *.
  destruct (x - inject_Z (Qfloor x) ?= 1 # 2)%Q eqn:Cx;
    destruct (y - inject_Z (Qfloor x) ?= 1 # 2)%Q eqn:Cy;
    try (destruct (Z.even (Qfloor x))); try lia;
    try rewrite <- Qeq_alt in Cx; try rewrite <- Qlt_alt in Cx;
    try rewrite <- Qgt_alt in Cx; try rewrite <- Qeq_alt in Cy;
    try rewrite <- Qlt_alt in Cy; try rewrite <- Qgt_alt in Cy;
    exfalso; lra.
Qed.

Lemma round2_mono (x y : Q) : (x <= y)%Q -> (round2 x <= round2 y)%Q.
Proof.
  intros H. unfold round2.
  assert (M : round_half_even (x * 100) <= round_half_even (y * 100)).
  { apply round_half_even_mono. lra. }
  rewrite Zle_Qle in M.
  unfold Qdiv. apply Qmult_le_compat_r; [exact M | discriminate].
Qed.

Lemma round2_Z (x : Q) (z : Z) : (x == inject_Z z)%Q -> (round2 x == inject_Z z)%Q.
Proof.
  intros H. unfold round2.
  rewrite (round_half_even_eq (x * 100) (z * 100)).
  - rewrite inject_Z_mult. field.
  - rewrite inject_Z_mult, H. reflexivity.
Qed.

Lemma round2_bounds (x : Q) : (0 <= x <= 100)%Q -> (0 <= round2 x <= 100)%Q.
Proof.
  intros [L U]. split.
  - rewrite <- (round2_Z 0 0) by reflexivity. now apply round2_mono.
  - rewrite <- (round2_Z 100 100) by reflexivity. now apply round2_mono.
Qed.


(** ** Binary64 rounding *)

Lemma round_half_even_Z (z : Z) : round_half_even (inject_Z z) = z.
Proof. now apply round_half_even_eq. Qed.

Lemma pow2_pos (k : Z) : (0 < 2 ^ k)%Q.
Proof. apply Qpower_0_lt. reflexivity. Qed.

Lemma pow2_le (a b : Z) : a <= b -> (2 ^ a <= 2 ^ b)%Q.
Proof. intros H. apply Qpower_le_compat_l; [exact H | discriminate]. Qed.

Lemma pow2_add (a b : Z) : (2 ^ (a + b) == 2 ^ a * 2 ^ b)%Q.
Proof. apply Qpower_plus. discriminate. Qed.

Lemma pow2_div (a b : Z) : (2 ^ a / 2 ^ b == 2 ^ (a - b))%Q.
Proof. symmetry. apply Qpower_minus. discriminate. Qed.

Lemma pow2_Z (a : Z) : 0 <= a -> (inject_Z (2 ^ a) == 2 ^ a)%Q.
Proof. intros H. now rewrite Zpower_Qpower. Qed.

(** A positive rational lies in its binade. *)
Lemma binade_spec (x : Q) : (0 < x)%Q -> (2 ^ binade x <= x < 2 ^ (binade x + 1))%Q.
Proof.
  intros Hx. unfold binade.
  destruct x as [n d]. cbn [Qnum Qden].
  assert (Hn : 0 < n) by (unfold Qlt in Hx; cbn in Hx; lia).
  set (a := Z.log2 n). set (b := Z.log2 (Z.pos d)).
  assert (Ha : 2 ^ a <= n < 2 ^ (a + 1)).
  { pose proof (Z.log2_spec n Hn). unfold a. now rewrite <- Z.add_1_r in *. }
  assert (Hb : 2 ^ b <= Z.pos d < 2 ^ (b + 1)).
  { pose proof (Z.log2_spec (Z.pos d) eq_refl). unfold b. now rewrite <- Z.add_1_r in *. }
  assert (Ha0 : 0 <= a) by apply Z.log2_nonneg.
  assert (Hb0 : 0 <= b) by apply Z.log2_nonneg.
  assert (Ex : (n # d == inject_Z n / inject_Z (Z.pos d))%Q) by apply Qmake_Qdiv.
  assert (Qa : (2 ^ a <= inject_Z n)%Q)
    by (rewrite <- pow2_Z by lia; rewrite <- Zle_Qle; lia).
  assert (Qa1 : (inject_Z n < 2 ^ (a + 1))%Q)
    by (rewrite <- pow2_Z by lia; rewrite <- Zlt_Qlt; lia).
  assert (Qb : (2 ^ b <= inject_Z (Z.pos d))%Q)
    by (rewrite <- pow2_Z by lia; rewrite <- Zle_Qle; lia).
  assert (Qb1 : (inject_Z (Z.pos d) < 2 ^ (b + 1))%Q)
    by (rewrite <- pow2_Z by lia; rewrite <- Zlt_Qlt; lia).
  pose proof (pow2_pos a) as Pa. pose proof (pow2_pos b) as Pb.
  pose proof (pow2_pos (a - b)) as Pk.
  assert (Ek : (2 ^ (a - b) * 2 ^ b == 2 ^ a)%Q).
  { rewrite <- pow2_add. now replace (a - b + b) with a by lia. }
  assert (Ek1 : (2 ^ (a - b + 1) == 2 * 2 ^ (a - b))%Q).
  { rewrite pow2_add. change (2 ^ 1)%Q with 2%Q. ring. }
  assert (Ek0 : (2 * 2 ^ (a - b - 1) == 2 ^ (a - b))%Q).
  { replace (a - b) with ((a - b - 1) + 1) at 2 by lia. rewrite pow2_add.
    change (2 ^ 1)%Q with 2%Q. ring. }
  assert (Ea1 : (2 ^ (a + 1) == 2 * 2 ^ a)%Q).
  { rewrite pow2_add. change (2 ^ 1)%Q with 2%Q. ring. }
  assert (Eb1 : (2 ^ (b + 1) == 2 * 2 ^ b)%Q).
  { rewrite pow2_add. change (2 ^ 1)%Q with 2%Q. ring. }
  assert (Dpos : (0 < inject_Z (Z.pos d))%Q) by reflexivity.
  assert (U : (n # d < 2 * 2 ^ (a - b))%Q).
  { rewrite Ex. apply Qlt_shift_div_r; [exact Dpos |]. nra. }
  assert (L : (2 ^ (a - b - 1) < n # d)%Q).
  { rewrite Ex. apply Qlt_shift_div_l; [exact Dpos |].
    pose proof (pow2_pos (a - b - 1)). nra. }
  destruct (Qle_bool (2 ^ (a - b)) (n # d)) eqn:E.
  - apply Qle_bool_iff in E. split; [exact E |]. now rewrite Ek1.
  - assert (E' : (n # d < 2 ^ (a - b))%Q) by now apply Qle_bool_false.
    replace (a - b - 1 + 1) with (a - b) by lia. split; [lra | exact E'].
Qed.

Lemma binade_mono (x y : Q) : (0 < x)%Q -> (x <= y)%Q -> binade x <= binade y.
Proof.
  intros Hx Hxy.
  destruct (binade_spec x Hx) as [Lx _].
  destruct (binade_spec y) as [_ Uy]; [lra |].
  assert (H : (2 ^ binade x < 2 ^ (binade y + 1))%Q) by lra.
  apply Qpower_lt_compat_l_inv in H; [lia | reflexivity].
Qed.

Lemma scaled_le (x y : Q) (e : Z) : (x <= y)%Q -> (x / 2 ^ e <= y / 2 ^ e)%Q.
Proof.
  intros H. unfold Qdiv. apply Qmult_le_compat_r; [exact H |].
  apply Qinv_le_0_compat, Qlt_le_weak, pow2_pos.
Qed.

(** Rounding keeps the order: within a binade by the rounding of the
    significand, across binades because a power of two is a float. *)
Lemma nearest_mono (x y : Q) : (0 < x)%Q -> (x <= y)%Q -> (nearest x <= nearest y)%Q.
Proof.
  intros Hx Hxy. assert (Hy : (0 < y)%Q) by lra.
  pose proof (binade_mono x y Hx Hxy) as Hb.
  unfold nearest.
  set (ex := Z.max (binade x - 52) (-1074)). set (ey := Z.max (binade y - 52) (-1074)).
  destruct (Z.eq_dec ex ey) as [E | NE].
  - rewrite <- E. apply Qmult_le_compat_r; [| apply Qlt_le_weak, pow2_pos].
    rewrite <- Zle_Qle. apply round_half_even_mono. now apply scaled_le.
  - assert (Hlt : ex < ey) by (unfold ex, ey in *; lia).
    assert (Ey : ey = binade y - 52) by (unfold ex, ey in *; lia).
    assert (Ht : 0 <= binade y - ex) by (unfold ex, ey in *; lia).
    destruct (binade_spec x Hx) as [_ Ux]. destruct (binade_spec y Hy) as [Ly _].
    assert (Hxby : (x <= 2 ^ binade y)%Q).
    { assert (H : (2 ^ (binade x + 1) <= 2 ^ binade y)%Q)
        by (apply pow2_le; unfold ex, ey in *; lia).
      lra. }
    apply Qle_trans with (2 ^ binade y)%Q.
    + assert (Rx : round_half_even (x / 2 ^ ex) <= 2 ^ (binade y - ex)).
      { rewrite <- (round_half_even_Z (2 ^ (binade y - ex))).
        apply round_half_even_mono. rewrite pow2_Z by exact Ht.
        rewrite <- pow2_div. now apply scaled_le. }
      rewrite Zle_Qle, pow2_Z in Rx by exact Ht.
      assert (E2 : (2 ^ binade y == 2 ^ (binade y - ex) * 2 ^ ex)%Q).
      { rewrite <- pow2_add. now replace (binade y - ex + ex) with (binade y) by lia. }
      rewrite E2. apply Qmult_le_compat_r; [exact Rx | apply Qlt_le_weak, pow2_pos].
    + assert (Ry : 2 ^ 52 <= round_half_even (y / 2 ^ ey)).
      { rewrite <- (round_half_even_Z (2 ^ 52)) at 1.
        apply round_half_even_mono. rewrite pow2_Z by lia.
        replace 52 with (binade y - ey) by lia.
        rewrite <- pow2_div. now apply scaled_le. }
      rewrite Zle_Qle, pow2_Z in Ry by lia.
      assert (E2 : (2 ^ binade y == 2 ^ 52 * 2 ^ ey)%Q).
      { rewrite <- pow2_add. now replace (52 + ey) with (binade y) by lia. }
      rewrite E2. apply Qmult_le_compat_r; [exact Ry | apply Qlt_le_weak, pow2_pos].
Qed.

Lemma nearest_nonneg (x : Q) : (0 < x)%Q -> (0 <= nearest x)%Q.
Proof.
  intros Hx. unfold nearest.
  set (e := Z.max (binade x - 52) (-1074)).
  apply Qmult_le_0_compat; [| apply Qlt_le_weak, pow2_pos].
  change 0%Q with (inject_Z 0). rewrite <- Zle_Qle.
  rewrite <- (round_half_even_Z 0). apply round_half_even_mono.
  unfold Qdiv. apply Qmult_le_0_compat; [lra |].
  apply Qinv_le_0_compat, Qlt_le_weak, pow2_pos.
Qed.

Lemma float_mono (x y : Q) : (x <= y)%Q -> (float x <= float y)%Q.
Proof.
  intros H. unfold float.
  destruct (0 ?= x)%Q eqn:Cx; destruct (0 ?= y)%Q eqn:Cy;
    try rewrite <- Qeq_alt in Cx; try rewrite <- Qlt_alt in Cx;
    try rewrite <- Qgt_alt in Cx; try rewrite <- Qeq_alt in Cy;
    try rewrite <- Qlt_alt in Cy; try rewrite <- Qgt_alt in Cy;
    try lra.
  - now apply nearest_nonneg.
  - now apply nearest_mono.
  - assert (0 <= nearest (- x))%Q by (apply nearest_nonneg; lra). lra.
  - assert (0 <= nearest (- x))%Q by (apply nearest_nonneg; lra).
    assert (0 <= nearest y)%Q by (apply nearest_nonneg; lra). lra.
  - assert (nearest (- y) <= nearest (- x))%Q by (apply nearest_mono; lra). lra.
Qed.

(** A rational at or below a float [p] that lies below [float t] rounds
    below [float t], and likewise from above. *)
Lemma float_below (x p t : Q) :
  (x <= p)%Q -> (float p <= p)%Q -> (p < float t)%Q -> (float x < float t)%Q.
Proof.
  intros Hx Hp Ht. pose proof (float_mono x p Hx). lra.
Qed.

Lemma float_above (x s t : Q) :
  (s <= x)%Q -> (s <= float s)%Q -> (float t < s)%Q -> (float t < float x)%Q.
Proof.
  intros Hx Hs Ht. pose proof (float_mono s x Hx). lra.
Qed.

Lemma ratio_le (c m : Z) (q : Q) :
  0 < m -> (inject_Z c <= q * inject_Z m)%Q -> (inject_Z c / inject_Z m <= q)%Q.
Proof.
  intros Hm H. apply Qle_shift_div_r; [| exact H].
  change 0%Q with (inject_Z 0). now rewrite <- Zlt_Qlt.
Qed.

Lemma ratio_ge (c m : Z) (q : Q) :
  0 < m -> (q * inject_Z m <= inject_Z c)%Q -> (q <= inject_Z c / inject_Z m)%Q.
Proof.
  intros Hm H. apply Qle_shift_div_l; [| exact H].
  change 0%Q with (inject_Z 0). now rewrite <- Zlt_Qlt.
Qed.

(** For a capacity up to 2^49 the binary64 quotient compares with the
    binary64 numbers 0.1, 0.3 and 0.9 as the counts compare in integers:
    the floats next to 0.1, 0.3 and 0.9 are further from them than two
    ratios with such a denominator can be. *)
Lemma truediv_thresholds (c m : Z) :
  0 < m <= 2 ^ 49 ->
  Qle_bool (float (3 # 10)) (truediv c m) = (3 * m <=? 10 * c)
  /\ Qle_bool (truediv c m) (float (9 # 10)) = (10 * c <=? 9 * m)
  /\ Qle_bool (float (1 # 10)) (truediv c m) = (m <=? 10 * c)
  /\ Qltb (truediv c m) (float (3 # 10)) = (10 * c <? 3 * m).
Proof.
  intros [Hm Hb]. unfold truediv.
  assert (Qm : (0 < inject_Z m)%Q)
    by (change 0%Q with (inject_Z 0); now rewrite <- Zlt_Qlt).
  assert (Qb : (inject_Z m <= 562949953421312)%Q).
  { change 562949953421312%Q with (inject_Z (2 ^ 49)). now rewrite <- Zle_Qle. }
  assert (T3 : forall b : bool, (if b then 3 * m <= 10 * c else 10 * c < 3 * m) ->
               Qle_bool (float (3 # 10)) (float (inject_Z c / inject_Z m)) = b).
  { intros [|] H.
    - apply Qle_bool_iff, float_mono, ratio_ge; [exact Hm |].
      rewrite Zle_Qle, !inject_Z_mult in H.
      change (inject_Z 3) with 3%Q in H. change (inject_Z 10) with 10%Q in H. lra.
    - apply Qle_bool_false.
      apply (float_below _ (5404319552844594 # 18014398509481984)).
      + apply ratio_le; [exact Hm |].
        assert (H' : 10 * c + 1 <= 3 * m) by lia.
        rewrite Zle_Qle in H'.
        rewrite inject_Z_plus, !inject_Z_mult in H'.
        change (inject_Z 3) with 3%Q in H'. change (inject_Z 10) with 10%Q in H'.
        change (inject_Z 1) with 1%Q in H'. lra.
      + vm_compute. discriminate.
      + vm_compute. reflexivity. }
  assert (T9 : forall b : bool, (if b then 10 * c <= 9 * m else 9 * m < 10 * c) ->
               Qle_bool (float (inject_Z c / inject_Z m)) (float (9 # 10)) = b).
  { intros [|] H.
    - apply Qle_bool_iff, float_mono, ratio_le; [exact Hm |].
      rewrite Zle_Qle, !inject_Z_mult in H.
      change (inject_Z 9) with 9%Q in H. change (inject_Z 10) with 10%Q in H. lra.
    - apply Qle_bool_false.
      apply (float_above _ (8106479329266894 # 9007199254740992)).
      + apply ratio_ge; [exact Hm |].
        assert (H' : 9 * m + 1 <= 10 * c) by lia.
        rewrite Zle_Qle in H'.
        rewrite inject_Z_plus, !inject_Z_mult in H'.
        change (inject_Z 9) with 9%Q in H'. change (inject_Z 10) with 10%Q in H'.
        change (inject_Z 1) with 1%Q in H'. lra.
      + vm_compute. discriminate.
      + vm_compute. reflexivity. }
  assert (T1 : forall b : bool, (if b then m <= 10 * c else 10 * c < m) ->
               Qle_bool (float (1 # 10)) (float (inject_Z c / inject_Z m)) = b).
  { intros [|] H.
    - apply Qle_bool_iff, float_mono, ratio_ge; [exact Hm |].
      rewrite Zle_Qle, !inject_Z_mult in H.
      change (inject_Z 10) with 10%Q in H. lra.
    - apply Qle_bool_false.
      apply (float_below _ (7205759403792793 # 72057594037927936)).
      + apply ratio_le; [exact Hm |].
        assert (H' : 10 * c + 1 <= m) by lia.
        rewrite Zle_Qle in H'.
        rewrite inject_Z_plus, !inject_Z_mult in H'.
        change (inject_Z 10) with 10%Q in H'.
        change (inject_Z 1) with 1%Q in H'. lra.
      + vm_compute. discriminate.
      + vm_compute. reflexivity. }
  split; [| split; [| split]].
  - destruct (Z.leb_spec (3 * m) (10 * c)); now apply T3.
  - destruct (Z.leb_spec (10 * c) (9 * m)); now apply T9.
  - destruct (Z.leb_spec m (10 * c)); now apply T1.
  - unfold Qltb. destruct (Z.ltb_spec (10 * c) (3 * m)).
    + now rewrite (T3 false).
    + now rewrite (T3 true).
Qed.






(** ** The stable descending sort *)

Section SortingFacts.
Context {A K : Type} (key : A -> K) (ltb : K -> K -> bool).
Hypothesis ltb_asym : forall a b, ltb a b = true -> ltb b a = false.
Hypothesis geb_trans :
  forall a b c, ltb a b = false -> ltb b c = false -> ltb a c = false.

Lemma insert_desc_perm (x : A) (l : list A) :
  Permutation (x :: l) (insert_desc key ltb x l).
Proof.
  induction l as [| y l IH]; simpl; [reflexivity |].
  destruct (ltb (key x) (key y)); [| reflexivity].
  rewrite perm_swap. now apply perm_skip.
Qed.

Lemma sorted_reverse_perm (l : list A) :
  Permutation l (sorted_reverse key ltb l).
Proof.
  induction l as [| x l IH]; simpl; [reflexivity |].
  rewrite <- insert_desc_perm. now apply perm_skip.
Qed.

Lemma sorted_reverse_length (l : list A) :
  List.length (sorted_reverse key ltb l) = List.length l.
Proof. symmetry. apply Permutation_length, sorted_reverse_perm. Qed.

Lemma insert_desc_descending (x : A) (l : list A) :
  descending key ltb l -> descending key ltb (insert_desc key ltb x l).
Proof.
  unfold descending. induction l as [| y l IH]; intros S; simpl.
  - constructor; [constructor | constructor].
  - inversion S as [| ? ? Sl Fy]; subst.
    destruct (ltb (key x) (key y)) eqn:E.
    + constructor; [now apply IH |].
      apply (Permutation_Forall (insert_desc_perm x l)).
      constructor; [now apply ltb_asym | exact Fy].
    + constructor; [exact S |].
      constructor; [exact E |].
      eapply Forall_impl; [| exact Fy]. intros z Hz. simpl in Hz.
      now apply geb_trans with (key y).
Qed.

Lemma sorted_reverse_descending (l : list A) :
  descending key ltb (sorted_reverse key ltb l).
Proof.
  induction l as [| x l IH]; simpl.
  - constructor.
  - now apply insert_desc_descending.
Qed.

Lemma same_key_not_below (a b k : K) :
  same_key ltb a k = true -> same_key ltb b k = true -> ltb a b = false.
Proof.
  unfold same_key. rewrite !andb_true_iff, !negb_true_iff.
  intros [Hak _] [_ Hkb]. now apply geb_trans with k.
Qed.

Lemma insert_desc_filter (k : K) (x : A) (l : list A) :
  filter (fun a => same_key ltb (key a) k) (insert_desc key ltb x l)
  = filter (fun a => same_key ltb (key a) k) (x :: l).
Proof.
  induction l as [| y l IH]; [reflexivity |].
  simpl insert_desc. destruct (ltb (key x) (key y)) eqn:E; [| reflexivity].
  simpl filter at 1. rewrite IH. simpl.
  destruct (same_key ltb (key x) k) eqn:Ex;
    destruct (same_key ltb (key y) k) eqn:Ey; try reflexivity.
  rewrite (same_key_not_below _ _ _ Ex Ey) in E. discriminate.
Qed.

Lemma sorted_reverse_keeps_order (l : list A) :
  keeps_order key ltb l (sorted_reverse key ltb l).
Proof.
  intros k. induction l as [| x l IH]; [reflexivity |].
  simpl sorted_reverse. rewrite insert_desc_filter. simpl. now rewrite IH.
Qed.

End SortingFacts.

Lemma Qltb_asym (a b : Q) : Qltb a b = true -> Qltb b a = false.
Proof. rewrite Qltb_true, Qltb_false. lra. Qed.

Lemma Qgeb_trans (a b c : Q) :
  Qltb a b = false -> Qltb b c = false -> Qltb a c = false.
Proof. rewrite !Qltb_false. lra. Qed.

Lemma Zltb_asym (a b : Z) : (a <? b) = true -> (b <? a) = false.
Proof. lia. Qed.

Lemma Zgeb_trans (a b c : Z) :
  (a <? b) = false -> (b <? c) = false -> (a <? c) = false.
Proof. lia. Qed.

Lemma pair_ltb_asym (a b : Z * Z) : pair_ltb a b = true -> pair_ltb b a = false.
Proof. unfold pair_ltb. lia. Qed.

Lemma pair_geb_trans (a b c : Z * Z) :
  pair_ltb a b = false -> pair_ltb b c = false -> pair_ltb a c = false.
Proof. unfold pair_ltb. lia. Qed.

(** ** Results of the monadic code *)

Lemma traverse_inv {A B : Type} (f : A -> result B) (l : list A) (bs : list B) :
  traverse f l = Ok bs -> Forall2 (fun a b => f a = Ok b) l bs.
Proof.
  revert bs. induction l as [| a l IH]; simpl; intros bs H.
  - injection H as <-. constructor.
  - destruct (f a) as [b |] eqn:Fa; simpl in H; [| discriminate].
    destruct (traverse f l) as [bs' |]; simpl in H; [| discriminate].
    injection H as <-. constructor; [exact Fa | now apply IH].
Qed.

Lemma traverse_ok {A B : Type} (f : A -> result B) (l : list A) :
  Forall (fun a => exists b, f a = Ok b) l -> exists bs, traverse f l = Ok bs.
Proof.
  induction 1 as [| a l [b Hb] _ [bs Hbs]]; simpl.
  - now exists [].
  - exists (b :: bs). now rewrite Hb, Hbs.
Qed.

Lemma traverse_length {A B : Type} (f : A -> result B) (l : list A) (bs : list B) :
  traverse f l = Ok bs -> List.length bs = List.length l.
Proof.
  intros H. symmetry. eapply Forall2_length, traverse_inv, H.
Qed.

Lemma Forall2_In_r {A B : Type} (P : A -> B -> Prop) (l : list A) (l' : list B) (b : B) :
  Forall2 P l l' -> In b l' -> exists a, In a l /\ P a b.
Proof.
  induction 1 as [| a b' l l' Hab _ IH]; simpl; [contradiction |].
  intros [<- | Hin]; [eauto |].
  destruct (IH Hin) as (a' & Ha' & HP). eauto.
Qed.

Lemma In_firstn {A : Type} (n : nat) (l : list A) (x : A) :
  In x (firstn n l) -> In x l.
Proof.
  intros H. rewrite <- (firstn_skipn n l). apply in_or_app. now left.
Qed.

Section ServiceFacts.
Context {R : Runtime}.

Lemma text_points_value (user_text event_text : string) (self : RecommendationService) :
  snd (text_points user_text event_text self)
  = Ok (similarity_value user_text event_text).
Proof.
  unfold text_points, similarity_value.
  destruct (truthy_str user_text && truthy_str event_text)%bool; [| reflexivity].
  now destruct (fit_transform [user_text; event_text]) as [[fitted m] |].
Qed.

(** What the vectorizer has learnt after [text_points]: the fit on the two
    texts, or what it knew before when no fit took place. *)
Lemma text_points_state (user_text event_text : string) (self : RecommendationService) :
  vectorizer (fst (text_points user_text event_text self))
  = if (truthy_str user_text && truthy_str event_text)%bool then
      match fit_transform [user_text; event_text] with
      | Some (fitted, _) => Some fitted
      | None => vectorizer self
      end
    else vectorizer self.
Proof.
  unfold text_points.
  destruct (truthy_str user_text && truthy_str event_text)%bool; [| reflexivity].
  now destruct (fit_transform [user_text; event_text]) as [[fitted m] |].
Qed.

Lemma calculate_similarity_score_run (p : UserProfile.t) (e : Event.t)
  (self : RecommendationService) :
  calculate_similarity_score p e self
  = match lower_of (get (Event.category e) (Some "")) with
    | Raise x => (self, Raise x)
    | Ok event_category =>
        match _build_event_text e with
        | Raise x => (self, Raise x)
        | Ok event_text =>
            (fst (text_points (_build_user_text p) event_text self),
             Ok (Py.min 100 (Py.max 0 (raw_score p e event_category event_text))))
        end
    end.
Proof.
  unfold calculate_similarity_score, bind, lift, ret.
  destruct (lower_of (get (Event.category e) (Some ""))) as [ec |]; [| reflexivity].
  destruct (_build_event_text e) as [et |]; [| reflexivity].
  pose proof (text_points_value (_build_user_text p) et self) as V.
  destruct (text_points (_build_user_text p) et self) as [self' [t |]];
    simpl in V; [| discriminate].
  injection V as ->. reflexivity.
Qed.

Lemma score_event_value (p : UserProfile.t) (e : Event.t) (self : RecommendationService) :
  snd (score_event p e self) = scored_value p e.
Proof.
  unfold score_event, scored_value, bind.
  rewrite calculate_similarity_score_run.
  destruct (lower_of (get (Event.category e) (Some ""))) as [ec |]; [| reflexivity].
  destruct (_build_event_text e) as [et |]; [| reflexivity].
  simpl. destruct (no_preferences p); [| reflexivity].
  unfold lift. now destruct (base_score_of e).
Qed.

Lemma for_each_score_event_value (p : UserProfile.t) (events : list Event.t)
  (self : RecommendationService) :
  snd (for_each (score_event p) events self) = traverse (scored_value p) events.
Proof.
  revert self. induction events as [| e events IH]; intros self; [reflexivity |].
  simpl. unfold bind at 1.
  pose proof (score_event_value p e self) as V.
  destruct (score_event p e self) as [self' [item |]]; simpl in V; rewrite <- V;
    [| reflexivity].
  simpl. unfold bind. specialize (IH self').
  destruct (for_each (score_event p) events self') as [self'' [items |]];
    simpl in IH; rewrite <- IH; reflexivity.
Qed.

Lemma get_recommendations_value (p : UserProfile.t) (events : list Event.t) (top_n : Z)
  (self : RecommendationService) :
  snd (get_recommendations p events top_n self)
  = and_then (traverse (scored_value p) events)
      (fun scored => traverse (format_item p) (slice_to (ranking scored) top_n)).
Proof.
  unfold get_recommendations.
  destruct events as [| e events].
  { cbn. unfold slice_to, ranking. cbn.
    destruct (0 <=? top_n); rewrite ?firstn_nil; reflexivity. }
  cbn [truthy_list negb]. unfold bind, lift.
  rewrite <- (for_each_score_event_value p (e :: events) self).
  now destruct (for_each (score_event p) (e :: events) self) as [self' [scored |]].
Qed.

End ServiceFacts.

(** ** Scored events and formatted recommendations *)

Section ItemFacts.
Context {R : Runtime}.

Lemma readable_texts (e : Event.t) :
  readable e = true ->
  exists event_category event_text,
    lower_of (get (Event.category e) (Some "")) = Ok event_category
    /\ _build_event_text e = Ok event_text.
Proof.
  unfold readable, _build_event_text. rewrite !andb_true_iff.
  intros [[Ht Hd] Hc].
  destruct (Event.title e); try discriminate;
    destruct (Event.description e); try discriminate;
    destruct (Event.category e); try discriminate; simpl; eauto.
Qed.

Lemma texts_readable (e : Event.t) (event_text : string) :
  _build_event_text e = Ok event_text -> readable e = true.
Proof.
  unfold readable, _build_event_text.
  destruct (Event.title e); simpl; try discriminate;
    destruct (Event.description e); simpl; try discriminate;
    destruct (Event.category e); simpl; try discriminate; reflexivity.
Qed.

Lemma base_score_of_ok (e : Event.t) :
  not_null (Event.current_participants e) = true -> exists b, base_score_of e = Ok b.
Proof.
  intros H. unfold base_score_of, base_popularity_bonus.
  destruct (0 <? or_int (get (Event.max_participants e) (Some 1)) 1); simpl; eauto.
  destruct (Event.current_participants e) as [| | c]; try discriminate; simpl.
  all: repeat match goal with |- context [if ?b then _ else _] => destruct b end;
    simpl; eauto.
Qed.

Lemma base_date_bonus_days (e : Event.t) :
  base_date_bonus e
  = match days_until e with
    | Some d => if ((0 <=? d) && (d <=? 30))%bool then 10 else 0
    | None => 0
    end.
Proof.
  unfold base_date_bonus, days_until.
  destruct (get (Event.date e) (Some "")) as [s |]; [| reflexivity].
  now destruct (truthy_str s).
Qed.

Lemma capacity_positive (e : Event.t) :
  let max_participants := or_int (get (Event.max_participants e) (Some 1)) 1 in
  if 0 <? max_participants
  then Z.max (capacity_of e) 1 = max_participants
  else Z.max (capacity_of e) 1 = 1.
Proof.
  unfold capacity_of.
  destruct (Event.max_participants e) as [| | m]; cbn [get or_int]; try reflexivity.
  destruct (m =? 0) eqn:Em; [reflexivity |].
  apply Z.eqb_neq in Em. destruct (0 <? m) eqn:Lm; lia.
Qed.



Lemma base_popularity_bonus_values (e : Event.t) (k : Z) :
  base_popularity_bonus e = Ok k -> k = 0 \/ k = 10 \/ k = 20.
Proof.
  unfold base_popularity_bonus.
  destruct (0 <? or_int (get (Event.max_participants e) (Some 1)) 1);
    [| intros [= <-]; auto].
  destruct (get (Event.current_participants e) (Some 0)) as [c |]; [| discriminate].
  cbv zeta.
  repeat match goal with
         | |- context [if ?x then _ else _] => destruct x
         end; intros [= <-]; auto.
Qed.





Lemma base_score_of_bounds (e : Event.t) (b : Z) :
  base_score_of e = Ok b -> 40 <= b <= 70.
Proof.
  unfold base_score_of.
  destruct (base_popularity_bonus e) as [k |] eqn:Hk; [| discriminate].
  apply base_popularity_bonus_values in Hk.
  cbn [and_then]. intros H.
  assert (E : b = 40 + k + base_date_bonus e) by congruence.
  rewrite E. clear H E.
  rewrite base_date_bonus_days.
  destruct (days_until e) as [d |]; [destruct ((0 <=? d) && (d <=? 30))%bool |]; lia.
Qed.

End ItemFacts.

Section RankingFacts.
Context {R : Runtime}.

(** What a successfully scored event looks like. *)
Lemma scored_value_inv (p : UserProfile.t) (e : Event.t) (item : ScoredEvent.t) :
  scored_value p e = Ok item ->
  ScoredEvent.event item = e
  /\ ScoredEvent.confidence item = confidence_of (ScoredEvent.score item)
  /\ readable e = true
  /\ (if no_preferences p
      then exists b, base_score_of e = Ok b /\ ScoredEvent.score item = inject_Z b
      else exists event_category event_text,
          lower_of (get (Event.category e) (Some "")) = Ok event_category
          /\ _build_event_text e = Ok event_text
          /\ ScoredEvent.score item
             = Py.min 100 (Py.max 0 (raw_score p e event_category event_text))).
Proof.
  unfold scored_value.
  destruct (lower_of (get (Event.category e) (Some ""))) as [ec |] eqn:Hc;
    [| discriminate].
  destruct (_build_event_text e) as [et |] eqn:Ht; [| discriminate].
  cbn [and_then]. pose proof (texts_readable e et Ht) as Hr.
  destruct (no_preferences p).
  - destruct (base_score_of e) as [b |]; [| discriminate]. cbn [and_then].
    intros [= <-]. repeat split; eauto.
  - cbn [and_then].
    intros [= <-]. repeat split; eauto.
Qed.

Lemma scored_value_ok (p : UserProfile.t) (e : Event.t) :
  well_formed e = true -> exists item, scored_value p e = Ok item.
Proof.
  unfold well_formed. rewrite andb_true_iff. intros [Hr Hc].
  destruct (readable_texts e Hr) as (ec & et & Hec & Het).
  destruct (base_score_of_ok e Hc) as [b Hb].
  unfold scored_value. rewrite Hec, Het. cbn [and_then].
  destruct (no_preferences p); [rewrite Hb |]; cbn [and_then]; eauto.
Qed.

Lemma scored_value_score_bounds (p : UserProfile.t) (e : Event.t) (item : ScoredEvent.t) :
  scored_value p e = Ok item -> (0 <= ScoredEvent.score item <= 100)%Q.
Proof.
  intros H. destruct (scored_value_inv p e item H) as (_ & _ & _ & Hs).
  destruct (no_preferences p).
  - destruct Hs as (b & Hb & ->). apply base_score_of_bounds in Hb.
    rewrite (Zle_Qle 40 b), (Zle_Qle b 70) in Hb.
    change (inject_Z 40) with 40%Q in Hb. change (inject_Z 70) with 70%Q in Hb. lra.
  - destruct Hs as (ec & et & _ & _ & ->). apply clamp_bounds.
Qed.

Lemma _get_match_factors_ok (p : UserProfile.t) (e : Event.t) :
  readable e = true -> exists factors, _get_match_factors p e = Ok factors.
Proof.
  intros Hr. destruct (readable_texts e Hr) as (ec & _ & Hec & _).
  unfold _get_match_factors. rewrite Hec. cbn [and_then]. eauto.
Qed.

Lemma format_item_ok (p : UserProfile.t) (item : ScoredEvent.t) :
  readable (ScoredEvent.event item) = true -> exists r, format_item p item = Ok r.
Proof.
  intros Hr. destruct (_get_match_factors_ok p _ Hr) as [f Hf].
  unfold format_item. rewrite Hf. cbn [and_then]. eauto.
Qed.

Lemma format_item_inv (p : UserProfile.t) (item : ScoredEvent.t) (r : Recommendation.t) :
  format_item p item = Ok r ->
  Recommendation.eventId r = get (Event.id (ScoredEvent.event item)) None
  /\ Recommendation.title r = get (Event.title (ScoredEvent.event item)) None
  /\ Recommendation.confidence r = ScoredEvent.confidence item
  /\ Recommendation.score r = round2 (ScoredEvent.score item).
Proof.
  unfold format_item.
  destruct (_get_match_factors p (ScoredEvent.event item)) as [f |]; [| discriminate].
  cbn [and_then]. intros [= <-]. repeat split.
Qed.

Lemma slice_to_incl {A : Type} (l : list A) (n : Z) (x : A) :
  In x (slice_to l n) -> In x l.
Proof.
  unfold slice_to. destruct (0 <=? n); apply In_firstn.
Qed.

Lemma slice_to_length {A : Type} (l : list A) (n : Z) :
  0 <= n -> List.length (slice_to l n) = Nat.min (Z.to_nat n) (List.length l).
Proof.
  intros H. unfold slice_to. apply Z.leb_le in H. rewrite H. apply length_firstn.
Qed.

Lemma ranking_In (scored : list ScoredEvent.t) (item : ScoredEvent.t) :
  In item (ranking scored) <-> In item scored.
Proof.
  unfold ranking. split; apply Permutation_in;
    [symmetry |]; apply sorted_reverse_perm.
Qed.

(** On well-formed events the service returns: the events are scored one
    by one, ranked, cut and formatted. *)
Lemma get_recommendations_ok (p : UserProfile.t) (events : list Event.t) (top_n : Z)
  (self : RecommendationService) :
  Forall (fun e => well_formed e = true) events ->
  exists scored recs,
    traverse (scored_value p) events = Ok scored
    /\ traverse (format_item p) (slice_to (ranking scored) top_n) = Ok recs
    /\ snd (get_recommendations p events top_n self) = Ok recs.
Proof.
  intros Hwf.
  destruct (traverse_ok (scored_value p) events) as [scored Hs].
  { eapply Forall_impl; [| exact Hwf]. intros e. apply scored_value_ok. }
  destruct (traverse_ok (format_item p) (slice_to (ranking scored) top_n)) as [recs Hr].
  { apply Forall_forall. intros item Hin. apply format_item_ok.
    apply slice_to_incl in Hin. apply (proj1 (ranking_In _ _)) in Hin.
    pose proof (traverse_inv _ _ _ Hs) as F2.
    destruct (Forall2_In_r _ _ _ _ F2 Hin) as (e & _ & He).
    destruct (scored_value_inv p e item He) as (-> & _ & Hre & _). exact Hre. }
  exists scored, recs. rewrite get_recommendations_value, Hs. cbn [and_then].
  auto.
Qed.

(** Whenever the service returns, it went through the same steps. *)
Lemma get_recommendations_inv (p : UserProfile.t) (events : list Event.t) (top_n : Z)
  (self : RecommendationService) (recs : list Recommendation.t) :
  snd (get_recommendations p events top_n self) = Ok recs ->
  exists scored,
    traverse (scored_value p) events = Ok scored
    /\ traverse (format_item p) (slice_to (ranking scored) top_n) = Ok recs.
Proof.
  rewrite get_recommendations_value.
  destruct (traverse (scored_value p) events) as [scored |]; [| discriminate].
  cbn [and_then]. eauto.
Qed.

End RankingFacts.

Section Origins.
Context {R : Runtime}.

(** Every recommendation returned comes from a candidate: the candidate was
    scored, and the scored event was formatted. *)
Lemma recommendation_origin (p : UserProfile.t) (events : list Event.t) (top_n : Z)
  (self : RecommendationService) (recs : list Recommendation.t) (r : Recommendation.t) :
  snd (get_recommendations p events top_n self) = Ok recs ->
  In r recs ->
  exists e item,
    In e events /\ scored_value p e = Ok item /\ format_item p item = Ok r.
Proof.
  intros H Hin.
  destruct (get_recommendations_inv p events top_n self recs H) as (scored & Hs & Hf).
  destruct (Forall2_In_r _ _ _ _ (traverse_inv _ _ _ Hf) Hin) as (item & Hitem & Hr).
  apply slice_to_incl in Hitem. apply (proj1 (ranking_In _ _)) in Hitem.
  destruct (Forall2_In_r _ _ _ _ (traverse_inv _ _ _ Hs) Hitem) as (e & He & Hv).
  eauto.
Qed.

(** The service raises only on a candidate it cannot read. *)
Lemma get_recommendations_raises (p : UserProfile.t) (events : list Event.t) (top_n : Z)
  (self : RecommendationService) (x : exn) :
  snd (get_recommendations p events top_n self) = Raise x ->
  forallb well_formed events = false.
Proof.
  intros H. destruct (forallb well_formed events) eqn:E; [| reflexivity].
  rewrite forallb_forall in E.
  destruct (get_recommendations_ok p events top_n self) as (scored & recs & _ & _ & Hok).
  - now apply Forall_forall.
  - congruence.
Qed.

End Origins.

(** ** C1: scores and confidences stay in range *)

(** C1.  For every profile and every event, [calculate_similarity_score]
    returns a value in [0, 100] (it raises only on an event with a [None]
    text field), and every recommendation of [get_recommendations] carries
    an integer confidence in [1, 10] and a score in [0, 100], the cold-start
    override included (the service raises only on a candidate it cannot
    read). *)
Theorem scores_and_confidences_in_range {R : Runtime} (p : UserProfile.t) :
  (forall (e : Event.t) (self : RecommendationService),
      match snd (calculate_similarity_score p e self) with
      | Ok s => (0 <= s <= 100)%Q
      | Raise _ => readable e = false
      end)
  /\ (forall (events : list Event.t) (top_n : Z) (self : RecommendationService),
         match snd (get_recommendations p events top_n self) with
         | Ok recs =>
             Forall (fun r => 1 <= Recommendation.confidence r <= 10
                              /\ (0 <= Recommendation.score r <= 100)%Q) recs
         | Raise _ => forallb well_formed events = false
         end).
Proof.
  split.
  - intros e self. rewrite calculate_similarity_score_run.
    destruct (readable e) eqn:Hr.
    + destruct (readable_texts e Hr) as (ec & et & -> & ->). apply clamp_bounds.
    + destruct (lower_of (get (Event.category e) (Some ""))); [| reflexivity].
      destruct (_build_event_text e) as [et |] eqn:Ht; [| reflexivity].
      apply texts_readable in Ht. congruence.
  - intros events top_n self.
    destruct (snd (get_recommendations p events top_n self)) as [recs | x] eqn:H.
    + apply Forall_forall. intros r Hin.
      destruct (recommendation_origin p events top_n self recs r H Hin)
        as (e & item & _ & Hv & Hf).
      destruct (format_item_inv p item r Hf) as (_ & _ & -> & ->).
      destruct (scored_value_inv p e item Hv) as (_ & -> & _).
      split; [apply confidence_of_bounds |].
      apply round2_bounds. now apply (scored_value_score_bounds p e).
    + now apply (get_recommendations_raises p events top_n self x).
Qed.

(** ** C4: the confidence truncates the tenth of the score *)

Lemma int_nonneg (x : Q) : (0 <= x)%Q -> int x = Qfloor x.
Proof.
  destruct x as [n d]. unfold Qle, int, Qfloor. simpl. intros H.
  apply Z.quot_div_nonneg; lia.
Qed.

Lemma int_of_zero (x : Q) : (x == 0)%Q -> int (x / 10) = 0.
Proof.
  destruct x as [n d]. unfold Qeq, int. simpl. intros H.
  assert (n = 0) by lia. subst n. reflexivity.
Qed.

(** C4, as the specification states it, fails: for a user who likes "Art"
    the event "Street party" four days ahead scores 15 (partial category
    match) + 13 (date) = 28; the confidence attached is [int(2.8) = 2],
    where [clamp(round(28/10), 1, 10)] is 3. *)
Lemma confidence_is_not_rounded :
  exists r,
    snd (get_recommendations art_lover [street_party] 5 init) = Ok [r]
    /\ (Recommendation.score r == 28)%Q
    /\ Recommendation.confidence r = 2
    /\ spec_confidence (Recommendation.score r) = 3.
Proof.
  eexists. split; [vm_compute; reflexivity |].
  repeat split; vm_compute; reflexivity.
Qed.

(** C4, amended.  Every recommendation of [get_recommendations] comes from
    a candidate whose computed score [s] lies in [0, 100]; the score
    attached is [s] rounded to two decimals, and the confidence attached is
    [min(10, max(1, int(s / 10)))], where [int] truncates: it is the floor
    of [s / 10], not the nearest integer. *)
Theorem confidence_truncates_score {R : Runtime} (p : UserProfile.t)
  (events : list Event.t) (top_n : Z) (self : RecommendationService) :
  match snd (get_recommendations p events top_n self) with
  | Ok recs =>
      Forall (fun r =>
                exists e item,
                  In e events
                  /\ snd (score_event p e self) = Ok item
                  /\ Recommendation.eventId r = get (Event.id e) None
                  /\ Recommendation.score r = round2 (ScoredEvent.score item)
                  /\ Recommendation.confidence r
                     = Z.min 10 (Z.max 1 (int (ScoredEvent.score item / 10)))
                  /\ int (ScoredEvent.score item / 10)
                     = Qfloor (ScoredEvent.score item / 10)) recs
  | Raise _ => forallb well_formed events = false
  end.
Proof.
  destruct (snd (get_recommendations p events top_n self)) as [recs | x] eqn:H.
  - apply Forall_forall. intros r Hin.
    destruct (recommendation_origin p events top_n self recs r H Hin)
      as (e & item & He & Hv & Hf).
    destruct (format_item_inv p item r Hf) as (Hid & _ & Hc & Hs).
    destruct (scored_value_inv p e item Hv) as (Hev & Hconf & _).
    pose proof (scored_value_score_bounds p e item Hv) as [Hlo _].
    exists e, item. rewrite score_event_value, Hid, Hev, Hc, Hconf.
    repeat split; auto.
    apply int_nonneg. unfold Qdiv. apply Qmult_le_0_compat; [exact Hlo | discriminate].
  - now apply (get_recommendations_raises p events top_n self x).
Qed.

(** ** C3: the cold-start override *)




(** ** The length and the order of the answer *)

Lemma slice_to_same_length {A B : Type} (l : list A) (l' : list B) (n : Z) :
  List.length l = List.length l' ->
  List.length (slice_to l n) = List.length (slice_to l' n).
Proof.
  intros H. unfold slice_to. destruct (0 <=? n); rewrite !length_firstn; lia.
Qed.

Lemma descending_firstn {A K : Type} (key : A -> K) (ltb : K -> K -> bool)
  (n : nat) (l : list A) :
  descending key ltb l -> descending key ltb (firstn n l).
Proof.
  unfold descending. revert n.
  induction l as [| a l IH]; intros n S; [now rewrite firstn_nil |].
  destruct n as [| n]; [constructor |]. simpl.
  inversion S as [| ? ? Sl Fa]; subst.
  constructor; [now apply IH |].
  apply Forall_forall. intros x Hx. apply In_firstn in Hx.
  rewrite Forall_forall in Fa. now apply Fa.
Qed.

Lemma descending_slice_to {A K : Type} (key : A -> K) (ltb : K -> K -> bool)
  (n : Z) (l : list A) :
  descending key ltb l -> descending key ltb (slice_to l n).
Proof.
  unfold slice_to. destruct (0 <=? n); apply descending_firstn.
Qed.

Lemma descending_transfer {A B : Type} (P : A -> B -> Prop)
  (before : A -> A -> Prop) (before' : B -> B -> Prop) (l : list A) (l' : list B) :
  (forall a b a' b', P a a' -> P b b' -> before a b -> before' a' b') ->
  Forall2 P l l' -> StronglySorted before l -> StronglySorted before' l'.
Proof.
  intros Hmono F2. induction F2 as [| a a' l l' Ha F2 IH]; intros S; [constructor |].
  inversion S as [| ? ? Sl Fa]; subst.
  constructor; [now apply IH |].
  apply Forall_forall. intros b' Hb'.
  destruct (Forall2_In_r _ _ _ _ F2 Hb') as (b & Hb & Pb).
  rewrite Forall_forall in Fa. eapply Hmono; eauto.
Qed.

Section Totality.
Context {R : Runtime}.

(** On well-formed candidates the service returns, for every [top_n]. *)
Lemma get_recommendations_total (p : UserProfile.t) (events : list Event.t) (top_n : Z)
  (self : RecommendationService) :
  forallb well_formed events = true ->
  exists scored recs,
    Forall2 (fun e item => snd (score_event p e self) = Ok item
                           /\ ScoredEvent.event item = e) events scored
    /\ Forall2 (fun item r => format_item p item = Ok r)
         (slice_to (ranking scored) top_n) recs
    /\ snd (get_recommendations p events top_n self) = Ok recs
    /\ List.length recs = List.length (slice_to events top_n).
Proof.
  intros Hwf. rewrite forallb_forall in Hwf.
  destruct (get_recommendations_ok p events top_n self) as (scored & recs & Hs & Hf & Hok).
  { now apply Forall_forall. }
  exists scored, recs.
  pose proof (traverse_inv _ _ _ Hs) as F2.
  split; [| split; [now apply traverse_inv | split; [exact Hok |]]].
  - eapply Forall2_impl; [| exact F2]. intros e item Hv. cbv beta in Hv.
    rewrite score_event_value. split; [exact Hv |].
    now destruct (scored_value_inv p e item Hv).
  - rewrite (traverse_length _ _ _ Hf). apply slice_to_same_length.
    unfold ranking. rewrite sorted_reverse_length. apply (traverse_length _ _ _ Hs).
Qed.

End Totality.

(** ** C2: length and order of the recommendations *)

(** C2.  For every profile, every non-empty list of well-formed candidates
    and every [top_n >= 0], [get_recommendations] returns
    [min(top_n, number of candidates)] recommendations: the candidates are
    scored in input order, ranked by a permutation that is descending by
    score and keeps candidates of equal score in input order, cut to the
    first [top_n] and formatted one by one; the scores attached are
    descending too. *)
Theorem recommendations_sorted_and_stable {R : Runtime} (p : UserProfile.t)
  (events : list Event.t) (top_n : Z) (self : RecommendationService) :
  events <> [] ->
  0 <= top_n ->
  forallb well_formed events = true ->
  exists scored recs,
    snd (get_recommendations p events top_n self) = Ok recs
    /\ List.length recs = Nat.min (Z.to_nat top_n) (List.length events)
    /\ Forall2 (fun e item => snd (score_event p e self) = Ok item
                              /\ ScoredEvent.event item = e) events scored
    /\ Permutation scored (ranking scored)
    /\ descending ScoredEvent.score Qltb (ranking scored)
    /\ keeps_order ScoredEvent.score Qltb scored (ranking scored)
    /\ Forall2 (fun item r => format_item p item = Ok r)
         (firstn (Z.to_nat top_n) (ranking scored)) recs
    /\ descending Recommendation.score Qltb recs.
Proof.
  intros _ Hn Hwf.
  destruct (get_recommendations_total p events top_n self Hwf)
    as (scored & recs & Hs & Hf & Hok & Hlen).
  exists scored, recs.
  assert (Hsorted : descending ScoredEvent.score Qltb (ranking scored)).
  { apply sorted_reverse_descending; [exact Qltb_asym | exact Qgeb_trans]. }
  rewrite slice_to_length in Hlen by exact Hn.
  repeat split; auto.
  - apply sorted_reverse_perm.
  - apply sorted_reverse_keeps_order. exact Qgeb_trans.
  - unfold slice_to in Hf. apply Z.leb_le in Hn. now rewrite Hn in Hf.
  - unfold descending.
    refine (descending_transfer _ _ _ _ _ _ Hf
              (descending_slice_to ScoredEvent.score Qltb top_n _ Hsorted)).
    intros a b a' b' Ha Hb Hab. cbv beta in Ha, Hb, Hab |- *.
    destruct (format_item_inv p a a' Ha) as (_ & _ & _ & ->).
    destruct (format_item_inv p b b' Hb) as (_ & _ & _ & ->).
    apply Qltb_false. apply Qltb_false in Hab. now apply round2_mono.
Qed.

Lemma recommendations_sorted_and_stable_witness :
  exists scored recs,
    snd (get_recommendations music_fan [street_party; concert] 1 init) = Ok recs
    /\ List.length recs = Nat.min (Z.to_nat 1) (List.length [street_party; concert])
    /\ Forall2 (fun e item => snd (score_event music_fan e init) = Ok item
                              /\ ScoredEvent.event item = e)
         [street_party; concert] scored
    /\ Permutation scored (ranking scored)
    /\ descending ScoredEvent.score Qltb (ranking scored)
    /\ keeps_order ScoredEvent.score Qltb scored (ranking scored)
    /\ Forall2 (fun item r => format_item music_fan item = Ok r)
         (firstn (Z.to_nat 1) (ranking scored)) recs
    /\ descending Recommendation.score Qltb recs.
Proof.
  apply (recommendations_sorted_and_stable music_fan [street_party; concert] 1 init);
    [discriminate | lia | reflexivity].
Defined.

(** ** C10: candidates always yield recommendations *)

(** C10.  For every profile, every non-empty list of well-formed
    candidates and every [top_n >= 1], [get_recommendations] returns a
    non-empty list of [min(top_n, number of candidates)] recommendations;
    a candidate whose computed score is 0 is not dropped: its
    recommendation has score 0 and confidence 1. *)
Theorem candidates_always_recommended {R : Runtime} (p : UserProfile.t)
  (events : list Event.t) (top_n : Z) (self : RecommendationService) :
  events <> [] ->
  1 <= top_n ->
  forallb well_formed events = true ->
  exists recs,
    snd (get_recommendations p events top_n self) = Ok recs
    /\ recs <> []
    /\ List.length recs = Nat.min (Z.to_nat top_n) (List.length events)
    /\ Forall (fun r =>
                 exists e item,
                   In e events
                   /\ snd (score_event p e self) = Ok item
                   /\ Recommendation.eventId r = get (Event.id e) None
                   /\ ((ScoredEvent.score item == 0)%Q ->
                       (Recommendation.score r == 0)%Q
                       /\ Recommendation.confidence r = 1)) recs.
Proof.
  intros Hne Hn Hwf.
  destruct (get_recommendations_total p events top_n self Hwf)
    as (scored & recs & Hs & Hf & Hok & Hlen).
  rewrite slice_to_length in Hlen by lia.
  exists recs. repeat split; auto.
  - intros ->. destruct events as [| e events]; [congruence |].
    simpl in Hlen. lia.
  - apply Forall_forall. intros r Hin.
    destruct (recommendation_origin p events top_n self recs r Hok Hin)
      as (e & item & He & Hv & Hfr).
    destruct (format_item_inv p item r Hfr) as (Hid & _ & Hc & Hsc).
    destruct (scored_value_inv p e item Hv) as (Hev & Hconf & _).
    exists e, item. rewrite score_event_value, Hid, Hev, Hc, Hsc, Hconf.
    repeat split; auto.
    + now apply (round2_Z _ 0).
    + unfold confidence_of. rewrite int_of_zero by assumption. reflexivity.
Qed.

Lemma candidates_always_recommended_witness :
  exists recs,
    snd (get_recommendations music_fan [match5; match2; match8] 5 init) = Ok recs
    /\ recs <> []
    /\ List.length recs = Nat.min (Z.to_nat 5) (List.length [match5; match2; match8])
    /\ Forall (fun r =>
                 exists e item,
                   In e [match5; match2; match8]
                   /\ snd (score_event music_fan e init) = Ok item
                   /\ Recommendation.eventId r = get (Event.id e) None
                   /\ ((ScoredEvent.score item == 0)%Q ->
                       (Recommendation.score r == 0)%Q
                       /\ Recommendation.confidence r = 1)) recs.
Proof.
  apply (candidates_always_recommended music_fan [match5; match2; match8] 5 init);
    [discriminate | lia | reflexivity].
Defined.

(** ** C6: what the service tolerates and what it does not check *)

(** C6, as the specification states it, fails: a negative [top_n] is not
    rejected.  No precondition is checked; [scored_events[:-1]] drops the
    last ranked candidate and the service answers with the rest. *)
Lemma negative_top_n_is_not_rejected :
  exists r,
    snd (get_recommendations music_fan [concert; street_party] (-1) init) = Ok [r]
    /\ Recommendation.eventId r = Some "e2".
Proof.
  eexists. split; vm_compute; reflexivity.
Qed.

(** A candidate whose category is [None] makes the service raise. *)
Example none_category_raises :
  snd (get_recommendations music_fan [uncategorised] 5 init) = Raise AttributeError.
Proof. vm_compute. reflexivity. Qed.

(** C6, amended.  For every profile, every integer [top_n] and every list
    of candidates none of which holds [None] in its title, description,
    category or participant count, [get_recommendations] returns a list
    and does not raise: missing keys, dates that do not parse and texts the
    vectorizer rejects are tolerated.  No [top_n] is rejected: the answer
    has as many entries as [candidates[:top_n]], which for a negative
    [top_n] is all but the last [-top_n] candidates. *)
Theorem service_returns_for_every_top_n {R : Runtime} (p : UserProfile.t)
  (events : list Event.t) (top_n : Z) (self : RecommendationService) :
  forallb well_formed events = true ->
  exists recs,
    snd (get_recommendations p events top_n self) = Ok recs
    /\ List.length recs
       = if 0 <=? top_n
         then Nat.min (Z.to_nat top_n) (List.length events)
         else (List.length events - Z.to_nat (- top_n))%nat.
Proof.
  intros Hwf.
  destruct (get_recommendations_total p events top_n self Hwf)
    as (scored & recs & _ & _ & Hok & Hlen).
  exists recs. split; [exact Hok |].
  rewrite Hlen. unfold slice_to.
  destruct (0 <=? top_n); rewrite length_firstn; lia.
Qed.

Lemma service_returns_for_every_top_n_witness :
  exists recs,
    snd (get_recommendations music_fan [concert; street_party; match8] (-2) init)
    = Ok recs
    /\ List.length recs
       = if 0 <=? -2
         then Nat.min (Z.to_nat (-2)) (List.length [concert; street_party; match8])
         else (List.length [concert; street_party; match8] - Z.to_nat (- -2))%nat.
Proof.
  apply (service_returns_for_every_top_n music_fan [concert; street_party; match8]
           (-2) init).
  reflexivity.
Defined.

(** ** C8: scoring and the shared vectorizer *)

Section SharedVectorizerFacts.
Context {R : Runtime}.
Variable Vectorizer : Type.
Variable fit_transform_on : Vectorizer -> list string -> Vectorizer * option Matrix.

(** The points [text_points_on] returns, by the matrix of the library. *)
Lemma text_points_on_value (user_text event_text : string) (vectorizer : Vectorizer) :
  snd (text_points_on Vectorizer fit_transform_on user_text event_text vectorizer)
  = Ok (if (truthy_str user_text && truthy_str event_text)%bool then
          match snd (fit_transform_on vectorizer [user_text; event_text]) with
          | Some tfidf_matrix => (cosine_similarity tfidf_matrix * 25)%Q
          | None => word_overlap_points user_text event_text
          end
        else 0%Q).
Proof.
  unfold text_points_on.
  destruct (truthy_str user_text && truthy_str event_text)%bool; [| reflexivity].
  now destruct (fit_transform_on vectorizer [user_text; event_text]) as [v' [m |]].
Qed.

Lemma text_points_on_state (user_text event_text : string) (vectorizer : Vectorizer) :
  fst (text_points_on Vectorizer fit_transform_on user_text event_text vectorizer)
  = if (truthy_str user_text && truthy_str event_text)%bool
    then fst (fit_transform_on vectorizer [user_text; event_text])
    else vectorizer.
Proof.
  unfold text_points_on.
  destruct (truthy_str user_text && truthy_str event_text)%bool; [| reflexivity].
  now destruct (fit_transform_on vectorizer [user_text; event_text]) as [v' [m |]].
Qed.

(** The score, by the points of the text component; the vectorizer is
    touched by the text component alone. *)
Lemma calculate_similarity_score_on_run (p : UserProfile.t) (e : Event.t)
  (vectorizer : Vectorizer) :
  calculate_similarity_score_on Vectorizer fit_transform_on p e vectorizer
  = match lower_of (get (Event.category e) (Some "")) with
    | Raise x => (vectorizer, Raise x)
    | Ok event_category =>
        match _build_event_text e with
        | Raise x => (vectorizer, Raise x)
        | Ok event_text =>
            match text_points_on Vectorizer fit_transform_on
                    (_build_user_text p) event_text vectorizer with
            | (vectorizer', Ok similarity_points) =>
                (vectorizer',
                 Ok (Py.min 100
                       (Py.max 0
                          (0 + category_points (UserProfile.favorite_categories p)
                                 event_category
                           + tag_points (UserProfile.favorite_tags p) (event_tags_of e)
                           + similarity_points
                           + date_points e
                           + popularity_points e)%Q)))
            | (vectorizer', Raise x) => (vectorizer', Raise x)
            end
        end
    end.
Proof.
  unfold calculate_similarity_score_on, bind, lift, ret.
  destruct (lower_of (get (Event.category e) (Some ""))) as [ec |]; [| reflexivity].
  destruct (_build_event_text e) as [et |]; reflexivity.
Qed.

End SharedVectorizerFacts.

(** With the library of [Runtime] as the shared object, the score is the
    one [calculate_similarity_score] returns. *)
Lemma calculate_similarity_score_shared {R : Runtime} (p : UserProfile.t) (e : Event.t)
  (self : RecommendationService) :
  snd (calculate_similarity_score p e self)
  = snd (calculate_similarity_score_on (option Fitted) fit_transform_of p e
           (vectorizer self)).
Proof.
  rewrite calculate_similarity_score_run, calculate_similarity_score_on_run.
  destruct (lower_of (get (Event.category e) (Some ""))) as [ec |]; [| reflexivity].
  destruct (_build_event_text e) as [et |]; [| reflexivity].
  pose proof (text_points_on_value (option Fitted) fit_transform_of
                (_build_user_text p) et (vectorizer self)) as V.
  destruct (text_points_on (option Fitted) fit_transform_of (_build_user_text p) et
              (vectorizer self)) as [v' [points |]]; cbn [snd] in V |- *;
    [| discriminate].
  injection V as ->. unfold raw_score, similarity_value, fit_transform_of.
  destruct (truthy_str (_build_user_text p) && truthy_str et)%bool; [| reflexivity].
  now destruct (fit_transform [_build_user_text p; et]) as [[fitted m] |].
Qed.



(** The contract is needed: lines 59-72 do not reset the vectorizer.  With
    a vectorizer that keeps the texts it has seen, the second run of the
    same pair scores differently from the first. *)
Example remembering_vectorizer_is_not_deterministic :
  snd (calculate_similarity_score_on (R := demo) (list string) remembering music_fan concert [])
  <> snd (calculate_similarity_score_on (R := demo) (list string) remembering music_fan concert
            (fst (calculate_similarity_score_on (R := demo) (list string) remembering music_fan
                    concert []))).
Proof. vm_compute. discriminate. Qed.

(** ** C9: an empty event category is a partial match *)

Lemma str_in_empty (s : string) : str_in "" s = true.
Proof. destruct s; reflexivity. Qed.

(** C9.  For a profile with at least one favorite category and an event
    whose category is missing or the empty string, and hence (no favorite
    being empty itself) not an exact match, the category component of
    [calculate_similarity_score] is 15, not 0: the empty string is a
    substring of the first favorite category.  The score returned is the
    clamp of 15 plus the four other components. *)
Theorem empty_category_scores_partial_match {R : Runtime} (p : UserProfile.t)
  (e : Event.t) (self : RecommendationService) :
  UserProfile.favorite_categories p <> [] ->
  Event.category e = Absent \/ Event.category e = Present "" ->
  mem "" (map lower (UserProfile.favorite_categories p)) = false ->
  not_null (Event.title e) = true ->
  not_null (Event.description e) = true ->
  lower_of (get (Event.category e) (Some "")) = Ok ""
  /\ category_points (UserProfile.favorite_categories p) "" = 15%Q
  /\ exists event_text,
      _build_event_text e = Ok event_text
      /\ snd (calculate_similarity_score p e self)
         = Ok (Py.min 100
                 (Py.max 0
                    (0 + 15
                     + tag_points (UserProfile.favorite_tags p) (event_tags_of e)
                     + similarity_value (_build_user_text p) event_text
                     + date_points e
                     + popularity_points e)%Q)).
Proof.
  intros Hne Hcat Hexact Htitle Hdesc.
  assert (Hpoints : category_points (UserProfile.favorite_categories p) "" = 15%Q).
  { unfold category_points. rewrite Hexact.
    destruct (UserProfile.favorite_categories p) as [| cat cats]; [congruence |].
    cbn [truthy_list existsb]. now rewrite str_in_empty, orb_true_r. }
  assert (Hlower : lower_of (get (Event.category e) (Some "")) = Ok "").
  { destruct Hcat as [-> | ->]; reflexivity. }
  assert (Hr : readable e = true).
  { unfold readable. rewrite Htitle, Hdesc. destruct Hcat as [-> | ->]; reflexivity. }
  destruct (readable_texts e Hr) as (ec & et & _ & Het).
  split; [exact Hlower | split; [exact Hpoints |]].
  exists et. split; [exact Het |].
  rewrite calculate_similarity_score_run, Hlower, Het. cbn [snd].
  unfold raw_score. now rewrite Hpoints.
Qed.

Lemma empty_category_scores_partial_match_witness :
  lower_of (get (Event.category (candidate "e0" "Open day" "" [] Absent 0 0))
              (Some "")) = Ok ""
  /\ category_points (UserProfile.favorite_categories music_fan) "" = 15%Q
  /\ exists event_text,
      _build_event_text (candidate "e0" "Open day" "" [] Absent 0 0) = Ok event_text
      /\ snd (calculate_similarity_score music_fan
                (candidate "e0" "Open day" "" [] Absent 0 0) init)
         = Ok (Py.min 100
                 (Py.max 0
                    (0 + 15
                     + tag_points (UserProfile.favorite_tags music_fan)
                         (event_tags_of (candidate "e0" "Open day" "" [] Absent 0 0))
                     + similarity_value (_build_user_text music_fan) event_text
                     + date_points (candidate "e0" "Open day" "" [] Absent 0 0)
                     + popularity_points (candidate "e0" "Open day" "" [] Absent 0 0))%Q)).
Proof.
  apply (empty_category_scores_partial_match music_fan
           (candidate "e0" "Open day" "" [] Absent 0 0) init);
    [discriminate | right; reflexivity | reflexivity | reflexivity | reflexivity].
Defined.

(** ** C5: the popularity fallback of the endpoint *)

Section Fallback.
Context {R : Runtime}.

Lemma well_formed_with_counts (count : Event.t -> result Z) (e : Event.t) :
  well_formed (with_counts count e) = readable e.
Proof.
  unfold well_formed, readable, with_counts. cbn. apply andb_true_r.
Qed.

Lemma forallb_with_counts (count : Event.t -> result Z) (events : list Event.t) :
  forallb well_formed (map (with_counts count) events) = forallb readable events.
Proof.
  induction events as [| e events IH]; [reflexivity |].
  cbn [map forallb]. now rewrite well_formed_with_counts, IH.
Qed.

(** The answer of the endpoint, by the answer of the service. *)
Lemma get_personalized_recommendations_value (p : UserProfile.t) (events : list Event.t)
  (count : Event.t -> result Z) (top_n : Z) (self : RecommendationService) :
  snd (get_personalized_recommendations p events count top_n self)
  = match snd (get_recommendations p (map (with_counts count) events) top_n self) with
    | Ok [] =>
        if truthy_list events
        then and_then (sorted_by_popularity (map (with_counts count) events))
               (fun sorted_events => Ok (map popular_entry (slice_to sorted_events top_n)))
        else Ok []
    | Ok (r :: recs) => Ok (map Scored (r :: recs))
    | Raise x => Raise x
    end.
Proof.
  unfold get_personalized_recommendations, bind.
  destruct (get_recommendations p (map (with_counts count) events) top_n self)
    as [self' [[| r recs] | x]]; cbn [snd]; try reflexivity.
  destruct events as [| e events]; [reflexivity |].
  cbn [truthy_list negb andb map]. unfold lift, ret.
  now destruct (sorted_by_popularity _).
Qed.

Lemma keyed_events (events : list Event.t) (keyed : list (Event.t * (Z * Z))) :
  traverse (fun e => and_then (popularity_key e) (fun k => Ok (e, k))) events = Ok keyed ->
  Forall2 (fun e ek => fst ek = e /\ popularity_key e = Ok (snd ek)) events keyed.
Proof.
  intros H. apply traverse_inv in H.
  eapply Forall2_impl; [| exact H]. intros e ek. cbv beta.
  destruct (popularity_key e) as [k |]; [| discriminate].
  cbn [and_then]. intros [= <-]. auto.
Qed.

(** When the service answers with an empty list, the fallback has nothing
    to add either: both lists are cut by the same [top_n]. *)
Lemma fallback_adds_nothing (p : UserProfile.t) (events : list Event.t)
  (count : Event.t -> result Z) (top_n : Z) (self : RecommendationService)
  (out : list Entry) :
  snd (get_personalized_recommendations p events count top_n self) = Ok out ->
  Forall (fun entry => exists r, entry = Scored r) out.
Proof.
  rewrite get_personalized_recommendations_value.
  destruct (snd (get_recommendations p (map (with_counts count) events) top_n self))
    as [[| r recs] | x] eqn:H; [| | discriminate].
  - destruct (truthy_list events); [| intros [= <-]; constructor].
    unfold sorted_by_popularity.
    destruct (traverse _ (map (with_counts count) events)) as [keyed |] eqn:Hk;
      [| discriminate].
    cbn [and_then]. intros [= <-].
    destruct (get_recommendations_inv _ _ _ _ _ H) as (scored & Hs & Hf).
    apply traverse_length in Hs, Hf, Hk.
    assert (Hnil : slice_to (map fst (sorted_reverse snd pair_ltb keyed)) top_n = []).
    { apply length_zero_iff_nil.
      rewrite (slice_to_same_length _ (ranking scored)); [now rewrite <- Hf |].
      unfold ranking. rewrite length_map, !sorted_reverse_length. congruence. }
    rewrite Hnil. constructor.
  - intros [= <-]. apply Forall_forall. intros entry Hin.
    change (In entry (map Scored (r :: recs))) in Hin.
    apply in_map_iff in Hin. destruct Hin as (r' & <- & _). eauto.
Qed.

End Fallback.

(** C5, as the specification states it, fails: for a user who likes music,
    three sports events in 117 days with 5, 2 and 8 participants out of
    1000 all score 0, and the endpoint returns them as ordinary
    recommendations with score 0 and confidence 1, in input order; the
    fallback entries in the order 8, 5, 2 are not the answer. *)
Lemma zero_scores_do_not_trigger_fallback :
  let available_events := map (with_counts match_counts) [match5; match2; match8] in
  Forall (fun e => exists item,
              snd (score_event music_fan e init) = Ok item
              /\ (ScoredEvent.score item == 0)%Q) available_events
  /\ (exists r5 r2 r8,
         snd (get_personalized_recommendations music_fan [match5; match2; match8]
                match_counts 5 init)
         = Ok [Scored r5; Scored r2; Scored r8]
         /\ map Recommendation.eventId [r5; r2; r8] = [Some "m5"; Some "m2"; Some "m8"]
         /\ map Recommendation.confidence [r5; r2; r8] = [1; 1; 1])
  /\ snd (get_personalized_recommendations music_fan [match5; match2; match8]
            match_counts 5 init)
     <> Ok (map popular_entry
              (map (with_counts match_counts) [match8; match5; match2])).
Proof.
  cbv zeta. split; [| split].
  - repeat constructor; eexists; (split; [vm_compute; reflexivity | reflexivity]).
  - do 3 eexists. split; [vm_compute; reflexivity | split; reflexivity].
  - vm_compute. discriminate.
Qed.

Lemma zero_score_recommendation {R : Runtime} (p : UserProfile.t) (e : Event.t)
  (item : ScoredEvent.t) (r : Recommendation.t) :
  scored_value p e = Ok item ->
  format_item p item = Ok r ->
  (ScoredEvent.score item == 0)%Q ->
  (Recommendation.score r == 0)%Q /\ Recommendation.confidence r = 1.
Proof.
  intros Hv Hf Hz.
  destruct (format_item_inv p item r Hf) as (_ & _ & -> & ->).
  destruct (scored_value_inv p e item Hv) as (_ & -> & _).
  split; [now apply (round2_Z _ 0) |].
  unfold confidence_of. now rewrite int_of_zero.
Qed.

(** C5, amended.  The endpoint replaces the answer of the service by the
    popularity fallback only when that answer is empty although candidates
    exist.  Candidates whose computed score is 0 do not trigger it: with
    candidates present and [top_n >= 1] the service answers with at least
    one recommendation, the endpoint returns this answer as it is, and a
    candidate that scored 0 appears in it with score 0 and confidence 1.
    When the fallback is taken, the candidates are sorted by (current
    participant count, minus the days until the event, 999 days for an
    undated event) descending, equal keys in input order, cut to [top_n],
    and each entry gets score 50, confidence 5, the reason "Popular
    upcoming event - check it out!" and the match factors "Popular event"
    and "Upcoming soon"; for three candidates on the same day with 5, 2
    and 8 participants the sort yields the order 8, 5, 2. *)
Theorem fallback_only_on_empty_answer {R : Runtime} (p : UserProfile.t)
  (events : list Event.t) (count : Event.t -> result Z) (self : RecommendationService) :
  let available_events := map (with_counts count) events in
  (forall top_n,
      events <> [] -> 1 <= top_n -> forallb readable events = true ->
      exists recs,
        snd (get_recommendations p available_events top_n self) = Ok recs
        /\ recs <> []
        /\ snd (get_personalized_recommendations p events count top_n self)
           = Ok (map Scored recs)
        /\ Forall (fun r =>
                     exists e item,
                       In e available_events
                       /\ snd (score_event p e self) = Ok item
                       /\ Recommendation.eventId r = get (Event.id e) None
                       /\ ((ScoredEvent.score item == 0)%Q ->
                           (Recommendation.score r == 0)%Q
                           /\ Recommendation.confidence r = 1)) recs)
  /\ (forall top_n,
         events <> [] ->
         snd (get_recommendations p available_events top_n self) = Ok [] ->
         snd (get_personalized_recommendations p events count top_n self)
         = and_then (sorted_by_popularity available_events)
             (fun sorted_events =>
                Ok (map popular_entry (slice_to sorted_events top_n))))
  /\ (forall sorted_events,
         sorted_by_popularity available_events = Ok sorted_events ->
         exists keyed,
           Forall2 (fun e ek => fst ek = e /\ popularity_key e = Ok (snd ek))
             available_events keyed
           /\ sorted_events = map fst (sorted_reverse snd pair_ltb keyed)
           /\ Permutation keyed (sorted_reverse snd pair_ltb keyed)
           /\ descending snd pair_ltb (sorted_reverse snd pair_ltb keyed)
           /\ keeps_order snd pair_ltb keyed (sorted_reverse snd pair_ltb keyed))
  /\ (forall e,
         popular_entry e
         = Popular e 50 5 "Popular upcoming event - check it out!"
             ["Popular event"; "Upcoming soon"])
  /\ (forall e5 e2 e8 d5 d2 d8,
         popularity_key e5 = Ok (5, d5) ->
         popularity_key e2 = Ok (2, d2) ->
         popularity_key e8 = Ok (8, d8) ->
         sorted_by_popularity [e5; e2; e8] = Ok [e8; e5; e2]).
Proof.
  cbv zeta. split; [| split; [| split; [| split]]].
  - intros top_n Hne Hn Hr.
    assert (Hwf : forallb well_formed (map (with_counts count) events) = true).
    { now rewrite forallb_with_counts. }
    destruct (get_recommendations_total p _ top_n self Hwf)
      as (scored & recs & _ & _ & Hok & Hlen).
    rewrite slice_to_length, length_map in Hlen by lia.
    assert (Hrecs : recs <> []).
    { intros ->. destruct events as [| e events]; [congruence |].
      simpl in Hlen. lia. }
    exists recs. repeat split; auto.
    + rewrite get_personalized_recommendations_value, Hok.
      destruct recs; [congruence | reflexivity].
    + apply Forall_forall. intros r Hin.
      destruct (recommendation_origin p _ top_n self recs r Hok Hin)
        as (e & item & He & Hv & Hf).
      destruct (format_item_inv p item r Hf) as (Hid & _).
      destruct (scored_value_inv p e item Hv) as (Hev & _).
      exists e, item. rewrite score_event_value, Hid, Hev.
      repeat split; auto; now apply (zero_score_recommendation p e item r).
  - intros top_n Hne Hempty. rewrite get_personalized_recommendations_value, Hempty.
    destruct events; [congruence | reflexivity].
  - intros sorted_events. unfold sorted_by_popularity.
    destruct (traverse _ (map (with_counts count) events)) as [keyed |] eqn:Hk;
      [| discriminate].
    cbn [and_then]. intros [= <-]. exists keyed.
    split; [now apply keyed_events |]. split; [reflexivity |].
    split; [apply sorted_reverse_perm |].
    split; [apply sorted_reverse_descending;
            [exact pair_ltb_asym | exact pair_geb_trans] |].
    apply sorted_reverse_keeps_order. exact pair_geb_trans.
  - reflexivity.
  - intros e5 e2 e8 d5 d2 d8 H5 H2 H8. unfold sorted_by_popularity.
    cbn [traverse]. rewrite H5, H2, H8. reflexivity.
Qed.

Lemma fallback_only_on_empty_answer_witness :
  (exists recs,
      snd (get_recommendations music_fan
             (map (with_counts match_counts) [match5; match2; match8]) 5 init) = Ok recs
      /\ recs <> []
      /\ snd (get_personalized_recommendations music_fan [match5; match2; match8]
                match_counts 5 init)
         = Ok (map Scored recs))
  /\ snd (get_personalized_recommendations music_fan [match5; match2; match8]
            match_counts 0 init)
     = and_then (sorted_by_popularity
                   (map (with_counts match_counts) [match5; match2; match8]))
         (fun sorted_events => Ok (map popular_entry (slice_to sorted_events 0)))
  /\ sorted_by_popularity (map (with_counts match_counts) [match5; match2; match8])
     = Ok (map (with_counts match_counts) [match8; match5; match2])
  /\ exists keyed,
      map (with_counts match_counts) [match8; match5; match2]
      = map fst (sorted_reverse snd pair_ltb keyed)
      /\ descending snd pair_ltb (sorted_reverse snd pair_ltb keyed).
Proof.
  destruct (fallback_only_on_empty_answer music_fan [match5; match2; match8]
              match_counts init) as (Hanswer & Hfallback & Hsort & _ & Horder).
  assert (Hmatches :
    sorted_by_popularity (map (with_counts match_counts) [match5; match2; match8])
    = Ok (map (with_counts match_counts) [match8; match5; match2])).
  { apply (Horder _ _ _ (-117) (-117) (-117)); reflexivity. }
  split; [| split; [| split]].
  - destruct (Hanswer 5) as (recs & H1 & H2 & H3 & _);
      [discriminate | lia | reflexivity |].
    exists recs. auto.
  - apply (Hfallback 0); [discriminate | vm_compute; reflexivity].
  - exact Hmatches.
  - destruct (Hsort _ Hmatches) as (keyed & _ & H1 & _ & H2 & _).
    exists keyed. auto.
Defined.

(** ** C7: the profile builder *)

(** *** Labels in first-seen order *)

Lemma first_seen_In (l : list string) (x : string) :
  In x (first_seen l) <-> In x l.
Proof.
  induction l as [| a l IH]; [reflexivity |]. cbn [first_seen].
  split.
  - intros [<- | H]; [now left |].
    apply filter_In in H. right. now apply IH.
  - intros [<- | H]; [now left |].
    destruct (String.eqb a x) eqn:E.
    + apply String.eqb_eq in E. now left.
    + right. apply filter_In. split; [now apply IH | now rewrite E].
Qed.

Lemma mem_In (x : string) (l : list string) : mem x l = true <-> In x l.
Proof.
  unfold mem. rewrite existsb_exists. split.
  - intros (y & Hy & E). apply String.eqb_eq in E. now subst.
  - intros H. exists x. split; [exact H | apply String.eqb_refl].
Qed.

Lemma first_seen_snoc (l : list string) (k : string) :
  first_seen (l ++ [k])
  = if mem k l then first_seen l else (first_seen l ++ [k])%list.
Proof.
  induction l as [| a l IH]; [reflexivity |].
  cbn [app first_seen]. rewrite IH. unfold mem. cbn [existsb].
  fold (mem k l). rewrite String.eqb_sym.
  destruct (mem k l) eqn:M.
  - now rewrite orb_true_r.
  - rewrite orb_false_r, filter_app. cbn [filter].
    destruct (String.eqb a k); [now rewrite app_nil_r | reflexivity].
Qed.

(** *** Accumulated weights *)

Lemma total_weight_snoc (occ : list (string * Z)) (k : string) (w : Z) (label : string) :
  total_weight (occ ++ [(k, w)]) label
  = total_weight occ label + (if String.eqb label k then w else 0).
Proof.
  unfold total_weight. rewrite filter_app, map_app, fold_right_app. cbn [filter fst].
  assert (Hshift : forall (l : list Z) (z : Z),
             fold_right Z.add z l = fold_right Z.add 0 l + z).
  { induction l as [| a l IH]; intros z; cbn [fold_right]; [lia |].
    rewrite IH. lia. }
  rewrite Hshift. destruct (String.eqb label k); cbn; lia.
Qed.

Lemma total_weight_absent (occ : list (string * Z)) (label : string) :
  ~ In label (map fst occ) -> total_weight occ label = 0.
Proof.
  unfold total_weight. induction occ as [| [k w] occ IH]; [reflexivity |].
  cbn [map fst In filter]. intros H.
  destruct (String.eqb label k) eqn:E.
  - apply String.eqb_eq in E. subst. tauto.
  - apply IH. tauto.
Qed.

Lemma add_weight_present (f : string -> Z) (k : string) (w : Z) (labels : list string) :
  In k labels ->
  NoDup labels ->
  add_weight k w (map (fun l => (l, f l)) labels)
  = map (fun l => (l, f l + (if String.eqb l k then w else 0))) labels.
Proof.
  induction labels as [| a labels IH]; [contradiction |].
  intros Hin Hnd. inversion Hnd as [| ? ? Ha Hnd']; subst.
  cbn [map add_weight]. rewrite (String.eqb_sym k a).
  destruct (String.eqb a k) eqn:E.
  - apply String.eqb_eq in E. subst a. f_equal.
    apply map_ext_in. intros l Hl.
    destruct (String.eqb l k) eqn:E'; [| now rewrite Z.add_0_r].
    apply String.eqb_eq in E'. subst. contradiction.
  - rewrite Z.add_0_r. f_equal. apply IH; [| exact Hnd'].
    destruct Hin as [-> | H]; [| exact H].
    rewrite String.eqb_refl in E. discriminate.
Qed.

Lemma add_weight_absent (f : string -> Z) (k : string) (w : Z) (labels : list string) :
  ~ In k labels ->
  add_weight k w (map (fun l => (l, f l)) labels)
  = (map (fun l => (l, f l + (if String.eqb l k then w else 0))) labels
     ++ [(k, 0 + w)])%list.
Proof.
  induction labels as [| a labels IH]; [reflexivity |].
  intros Hin. cbn [map add_weight app]. rewrite (String.eqb_sym k a).
  destruct (String.eqb a k) eqn:E.
  - apply String.eqb_eq in E. subst a. exfalso. apply Hin. now left.
  - rewrite Z.add_0_r. f_equal. apply IH. intros H. apply Hin. now right.
Qed.

Lemma first_seen_NoDup (l : list string) : NoDup (first_seen l).
Proof.
  induction l as [| a l IH]; [constructor |]. cbn [first_seen].
  constructor.
  - intros H. apply filter_In in H. destruct H as [_ H].
    rewrite String.eqb_refl in H. discriminate.
  - now apply NoDup_filter.
Qed.

(** Adding the occurrences one by one yields every label once, in
    first-seen order, at its total weight. *)
Lemma accumulate_weight_map (occ : list (string * Z)) :
  accumulate occ [] = weight_map occ.
Proof.
  unfold accumulate, weight_map.
  induction occ as [| [k w] occ IH] using rev_ind; [reflexivity |].
  rewrite fold_left_app, IH, map_app. cbn [fold_left map fst snd].
  rewrite first_seen_snoc.
  destruct (mem k (map fst occ)) eqn:M.
  - rewrite add_weight_present.
    + apply map_ext. intros l. now rewrite total_weight_snoc.
    + apply first_seen_In. now apply mem_In.
    + apply first_seen_NoDup.
  - assert (Hk : ~ In k (map fst occ)).
    { intros H. apply mem_In in H. congruence. }
    rewrite add_weight_absent.
    + rewrite map_app. cbn [map]. f_equal.
      * apply map_ext. intros l. now rewrite total_weight_snoc.
      * rewrite total_weight_snoc, String.eqb_refl.
        now rewrite (total_weight_absent occ k Hk).
    + intros H. apply Hk. now apply first_seen_In.
Qed.

(** *** The loops of [build_user_profile] as accumulations *)

Lemma accumulate_app (a b : list (string * Z)) (d : weights) :
  accumulate (a ++ b) d = accumulate b (accumulate a d).
Proof. apply fold_left_app. Qed.

Lemma weighted_app (w : Z) (a b : list string) :
  weighted w (a ++ b) = (weighted w a ++ weighted w b)%list.
Proof. unfold weighted. now rewrite filter_app, map_app. Qed.

Lemma add_labels_accumulate (w : Z) (labels : list string) (d : weights) :
  add_labels w labels d = accumulate (weighted w labels) d.
Proof.
  unfold add_labels, accumulate, weighted. revert d.
  induction labels as [| x labels IH]; intros d; [reflexivity |].
  cbn [fold_left filter]. rewrite IH. now destruct (truthy_str x).
Qed.

Lemma add_category_accumulate (w : Z) (e : EventRow.t) (d : weights) :
  add_category w (EventRow.category e) d = accumulate (weighted w (row_category e)) d.
Proof.
  unfold add_category, row_category, accumulate, weighted.
  destruct (EventRow.category e) as [c |]; [| reflexivity].
  cbn [filter]. now destruct (truthy_str c).
Qed.

Lemma or_list_row_tags (e : EventRow.t) : or_list (EventRow.tags e) [] = row_tags e.
Proof. unfold row_tags. now destruct (EventRow.tags e) as [[| t l] |]. Qed.

Lemma from_created_accumulate (events : list EventRow.t) (acc : Extraction) :
  categories (fold_left from_created events acc)
  = accumulate (weighted 2 (flat_map row_category events)) (categories acc)
  /\ tags (fold_left from_created events acc)
     = accumulate (weighted 2 (flat_map row_tags events)) (tags acc).
Proof.
  revert acc. induction events as [| e events IH]; intros acc; [split; reflexivity |].
  cbn [fold_left flat_map]. rewrite !weighted_app, !accumulate_app.
  destruct (IH (from_created acc e)) as [-> ->]. cbn [from_created categories tags].
  now rewrite add_category_accumulate, add_labels_accumulate, or_list_row_tags.
Qed.

Lemma from_participation_accumulate (rows : list EventRow.t)
  (participations : list Participation.t) (acc : Extraction) :
  categories (fold_left (from_participation rows) participations acc)
  = accumulate (weighted 2 (flat_map row_category (resolved_in rows participations)))
      (categories acc)
  /\ tags (fold_left (from_participation rows) participations acc)
     = accumulate (weighted 2 (flat_map row_tags (resolved_in rows participations)))
         (tags acc).
Proof.
  revert acc. induction participations as [| q participations IH]; intros acc;
    [split; reflexivity |].
  cbn [fold_left]. unfold resolved_in in *. cbn [flat_map].
  rewrite !flat_map_app, !weighted_app, !accumulate_app.
  destruct (IH (from_participation rows acc q)) as [-> ->].
  unfold from_participation.
  destruct (Participation.event_id q) as [i |]; [| split; reflexivity].
  destruct (truthy_str i); [| split; reflexivity].
  destruct (lookup_event rows i) as [e |]; [| split; reflexivity].
  cbn [categories tags flat_map]. rewrite !app_nil_r.
  now rewrite add_category_accumulate, add_labels_accumulate, or_list_row_tags.
Qed.

(** The rows fetched for the participations resolve every participation as
    the whole table does. *)
Lemma lookup_event_filter (keep : EventRow.t -> bool) (rows : list EventRow.t)
  (i : string) :
  (forall e, EventRow.id e = i -> keep e = true) ->
  lookup_event (filter keep rows) i = lookup_event rows i.
Proof.
  intros Hkeep. unfold lookup_event. generalize (@None EventRow.t).
  induction rows as [| e rows IH]; intros found; [reflexivity |].
  cbn [filter fold_left]. destruct (keep e) eqn:K.
  - cbn [fold_left]. apply IH.
  - destruct (String.eqb (EventRow.id e) i) eqn:E; [| apply IH].
    apply String.eqb_eq in E. rewrite (Hkeep e E) in K. discriminate.
Qed.

Lemma resolved_in_fetched (table : list EventRow.t) (event_ids : list string)
  (participations : list Participation.t) :
  (forall q i, In q participations -> Participation.event_id q = Some i ->
               truthy_str i = true -> In i event_ids) ->
  resolved_in
    (if truthy_list event_ids
     then filter (fun e => mem (EventRow.id e) event_ids) table
     else []) participations
  = resolved_in table participations.
Proof.
  unfold resolved_in. induction participations as [| q participations IH];
    intros Hids; [reflexivity |].
  cbn [flat_map]. rewrite IH by (intros q' i Hq; apply Hids; now right). f_equal.
  destruct (Participation.event_id q) as [i |] eqn:Hi; [| reflexivity].
  destruct (truthy_str i) eqn:Ti; [| reflexivity].
  assert (Hin : In i event_ids) by (apply (Hids q i); [now left | assumption..]).
  destruct event_ids as [| j event_ids]; [contradiction |]. cbn [truthy_list].
  rewrite lookup_event_filter; [reflexivity |].
  intros e <-. now apply mem_In.
Qed.

(** The two weight maps [build_user_profile] ranks. *)
Lemma build_user_profile_favorites (r : Records.t) :
  UserProfile.favorite_categories (build_user_profile r)
  = (if has_history r
     then top_labels 3 (weight_map (category_occurrences r)) (Records.initial_categories r)
     else firstn 3 (Records.initial_categories r))
  /\ UserProfile.favorite_tags (build_user_profile r)
     = (if has_history r
        then top_labels 5 (weight_map (tag_occurrences r)) (Records.initial_tags r)
        else firstn 5 (Records.initial_tags r)).
Proof.
  unfold build_user_profile, has_history.
  cbn [UserProfile.favorite_categories UserProfile.favorite_tags].
  set (event_ids := flat_map _ (Records.participations r)).
  set (fetched := if truthy_list event_ids then _ else _).
  destruct (from_participation_accumulate fetched (Records.participations r)
              (fold_left from_created (Records.user_events r)
                 {| categories := add_labels 1 (Records.initial_categories r) [];
                    tags := add_labels 1 (Records.initial_tags r) [];
                    participation_history := [] |})) as [Hc Ht].
  rewrite Hc, Ht. clear Hc Ht.
  destruct (from_created_accumulate (Records.user_events r)
              {| categories := add_labels 1 (Records.initial_categories r) [];
                 tags := add_labels 1 (Records.initial_tags r) [];
                 participation_history := [] |}) as [Hc Ht].
  rewrite Hc, Ht. clear Hc Ht. cbn [categories tags].
  rewrite !add_labels_accumulate, <- !accumulate_app, !accumulate_weight_map.
  assert (Hres : resolved_in fetched (Records.participations r) = resolved r).
  { apply resolved_in_fetched. intros q i Hq Hi Ti. unfold event_ids.
    apply in_flat_map. exists q. split; [exact Hq |]. rewrite Hi, Ti. now left. }
  rewrite Hres. fold (category_occurrences r). fold (tag_occurrences r).
  destruct (Nat.eqb (List.length (Records.user_events r)) 0
            && Nat.eqb (List.length (Records.participations r)) 0)%bool;
    cbn [negb]; [| split; reflexivity].
  split.
  - now destruct (Records.initial_categories r).
  - now destruct (Records.initial_tags r).
Qed.

(** *** The ranking of the labels *)

Lemma truthy_list_length {A : Type} (l : list A) :
  truthy_list l = negb (Nat.eqb (List.length l) 0).
Proof. now destruct l. Qed.

Lemma top_labels_spec (n : nat) (occ : list (string * Z)) (initial : list string) :
  top_labels (S n) (weight_map occ) initial
  = if truthy_list occ then spec_top (S n) occ else firstn (S n) initial.
Proof.
  unfold top_labels, spec_top, spec_ranking. fold (weight_map occ).
  assert (E : truthy_list (firstn (S n) (sorted_reverse snd Z.ltb (weight_map occ)))
              = truthy_list occ).
  { rewrite !truthy_list_length, length_firstn, sorted_reverse_length.
    unfold weight_map. rewrite length_map.
    destruct occ as [| o occ]; [reflexivity |]. cbn [map first_seen List.length].
    reflexivity. }
  now rewrite E.
Qed.

Lemma total_weight_app (a b : list (string * Z)) (label : string) :
  total_weight (a ++ b) label = total_weight a label + total_weight b label.
Proof.
  unfold total_weight. rewrite filter_app, map_app, fold_right_app.
  generalize (fold_right Z.add 0
                (map snd (filter (fun o => String.eqb label (fst o)) b))).
  induction (map snd (filter (fun o => String.eqb label (fst o)) a)) as [| z l IH];
    intros t; cbn [fold_right]; [lia | rewrite IH; lia].
Qed.

(** A label weighs [w] for each of its occurrences in a list weighted [w]. *)
Lemma total_weight_weighted (w : Z) (labels : list string) (label : string) :
  truthy_str label = true ->
  total_weight (weighted w labels) label
  = w * Z.of_nat (count_occ string_dec labels label).
Proof.
  intros Hl. unfold total_weight, weighted.
  induction labels as [| x labels IH]; [cbn; lia |].
  cbn [filter count_occ]. destruct (string_dec x label) as [-> | Hx].
  - rewrite Hl. cbn [map filter fst]. rewrite String.eqb_refl.
    cbn [map snd fold_right]. rewrite IH. lia.
  - destruct (truthy_str x); [| exact IH].
    cbn [map filter fst]. destruct (String.eqb label x) eqn:E; [| exact IH].
    apply String.eqb_eq in E. congruence.
Qed.

(** C7, as the specification states it, fails: a user without authored
    events or participations who picked "Music", "Sports", "Sports" at
    signup gets these three entries verbatim as favorite categories, where
    the ranking of the accumulated weights (Sports 2, Music 1) is
    "Sports", "Music". *)
Lemma signup_preferences_returned_verbatim :
  UserProfile.favorite_categories (build_user_profile signup_only)
  = ["Music"; "Sports"; "Sports"]
  /\ weight_map (category_occurrences signup_only) = [("Music", 1); ("Sports", 2)]
  /\ spec_top 3 (category_occurrences signup_only) = ["Sports"; "Music"]
  /\ UserProfile.favorite_categories (build_user_profile signup_only)
     <> spec_top 3 (category_occurrences signup_only).
Proof.
  repeat split; try reflexivity. vm_compute. discriminate.
Qed.

(** C7, amended.  [build_user_profile] accumulates weight 1 per occurrence
    of a non-empty label in the signup preferences and weight 2 for the
    category and each tag of every authored event and of every resolved
    participation.  When the user has an authored event or a participation
    record and some label carries weight, the favorite categories are the 3
    labels of highest weight in descending order (the favorite tags the 5
    highest), labels of equal weight in the order they entered the weight
    map; otherwise the favorites are the first 3 signup categories and the
    first 5 signup tags as they were given. *)
Theorem favorites_rank_accumulated_weights (r : Records.t) :
  let category_weights := category_occurrences r in
  let tag_weights := tag_occurrences r in
  UserProfile.favorite_categories (build_user_profile r)
  = (if (has_history r && truthy_list category_weights)%bool
     then spec_top 3 category_weights
     else firstn 3 (Records.initial_categories r))
  /\ UserProfile.favorite_tags (build_user_profile r)
     = (if (has_history r && truthy_list tag_weights)%bool
        then spec_top 5 tag_weights
        else firstn 5 (Records.initial_tags r))
  /\ (forall label,
         truthy_str label = true ->
         total_weight category_weights label
         = 1 * Z.of_nat (count_occ string_dec (Records.initial_categories r) label)
           + 2 * Z.of_nat (count_occ string_dec
                             (flat_map row_category (Records.user_events r)) label)
           + 2 * Z.of_nat (count_occ string_dec
                             (flat_map row_category (resolved r)) label))
  /\ (forall label,
         truthy_str label = true ->
         total_weight tag_weights label
         = 1 * Z.of_nat (count_occ string_dec (Records.initial_tags r) label)
           + 2 * Z.of_nat (count_occ string_dec
                             (flat_map row_tags (Records.user_events r)) label)
           + 2 * Z.of_nat (count_occ string_dec
                             (flat_map row_tags (resolved r)) label))
  /\ (forall occurrences,
         Permutation (weight_map occurrences) (spec_ranking occurrences)
         /\ descending snd Z.ltb (spec_ranking occurrences)
         /\ keeps_order snd Z.ltb (weight_map occurrences) (spec_ranking occurrences)
         /\ NoDup (map fst (weight_map occurrences))).
Proof.
  cbv zeta. destruct (build_user_profile_favorites r) as [Hc Ht].
  split; [| split; [| split; [| split]]].
  - rewrite Hc, top_labels_spec. destruct (has_history r); reflexivity.
  - rewrite Ht, top_labels_spec. destruct (has_history r); reflexivity.
  - intros label Hl. unfold category_occurrences.
    rewrite !total_weight_app, !total_weight_weighted by exact Hl. lia.
  - intros label Hl. unfold tag_occurrences.
    rewrite !total_weight_app, !total_weight_weighted by exact Hl. lia.
  - intros occ. unfold spec_ranking. fold (weight_map occ).
    split; [apply sorted_reverse_perm |].
    split; [apply sorted_reverse_descending; [exact Zltb_asym | exact Zgeb_trans] |].
    split; [apply sorted_reverse_keeps_order; exact Zgeb_trans |].
    unfold weight_map. rewrite map_map. cbn [fst]. rewrite map_id.
    apply first_seen_NoDup.
Qed.

Lemma favorites_rank_accumulated_weights_witness :
  UserProfile.favorite_categories (build_user_profile active_user)
  = ["Music"; "Sports"; "Games"]
  /\ UserProfile.favorite_tags (build_user_profile active_user) = ["live"; "indoor"]
  /\ total_weight (category_occurrences active_user) "Music" = 3
  /\ total_weight (tag_occurrences active_user) "live" = 3.
Proof.
  destruct (favorites_rank_accumulated_weights active_user) as (Hc & Ht & Hwc & Hwt & _).
  split; [rewrite Hc; reflexivity |].
  split; [rewrite Ht; reflexivity |].
  split; [rewrite (Hwc "Music") by reflexivity; reflexivity |].
  rewrite (Hwt "live") by reflexivity; reflexivity.
Defined.

(** * Further properties of the two modules *)

(** ** The components of the score *)

Lemma popularity_points_counts (e : Event.t) :
  capacity_of e <= 2 ^ 49 ->
  popularity_points e
  = (if ((0 <? capacity_of e) && (3 * capacity_of e <=? 10 * participants_of e)
         && (10 * participants_of e <=? 9 * capacity_of e))%bool then 10%Q
     else if ((0 <? capacity_of e) && (capacity_of e <=? 10 * participants_of e)
              && (10 * participants_of e <? 3 * capacity_of e))%bool then 5%Q
     else 0%Q).
Proof.
  intros Hbound. unfold popularity_points. fold (participants_of e).
  pose proof (capacity_positive e) as Hcap. cbv zeta in Hcap.
  destruct (0 <? or_int (get (Event.max_participants e) (Some 1)) 1) eqn:Hpos.
  - rewrite <- Hcap. destruct (0 <? capacity_of e) eqn:Hm.
    + apply Z.ltb_lt in Hm.
      replace (Z.max (capacity_of e) 1) with (capacity_of e) by lia.
      destruct (truediv_thresholds (participants_of e) (capacity_of e))
        as (-> & -> & -> & ->); [lia | reflexivity].
    + apply Z.ltb_ge in Hm. replace (Z.max (capacity_of e) 1) with 1 by lia.
      destruct (truediv_thresholds (participants_of e) 1) as (-> & -> & -> & ->);
        [lia |].
      replace ((3 * 1 <=? 10 * participants_of e)
               && (10 * participants_of e <=? 9 * 1))%bool with false
        by (symmetry; lia).
      replace ((1 <=? 10 * participants_of e)
               && (10 * participants_of e <? 3 * 1))%bool with false
        by (symmetry; lia).
      reflexivity.
  - destruct (0 <? capacity_of e) eqn:Hm; [| reflexivity].
    apply Z.ltb_lt in Hm. apply Z.ltb_ge in Hpos. unfold capacity_of in Hm.
    destruct (Event.max_participants e) as [| | n]; cbn in Hm, Hpos;
      [lia | lia |].
    destruct (Z.eqb_spec n 0); lia.
Qed.

Lemma popularity_points_range (e : Event.t) : (0 <= popularity_points e <= 10)%Q.
Proof.
  unfold popularity_points.
  repeat match goal with |- context [if ?b then _ else _] => destruct b end; lra.
Qed.

(** X1.  The popularity bonus in integers, for counts up to 2^49: with [c]
    participants and a capacity [m], the bonus is 10 when
    [3 m <= 10 c <= 9 m], 5 when [m <= 10 c < 3 m], and 0 otherwise,
    although the code compares the binary64 quotient [c / m] with the
    floats 0.3, 0.9 and 0.1.  So an event whose capacity is 0, [None],
    missing or negative never gets a bonus, nor does an event filled
    beyond 90 percent. *)
Theorem popularity_bonus_by_counts (e : Event.t) :
  let c := participants_of e in
  let m := capacity_of e in
  modest_counts e ->
  popularity_points e
  = (if ((0 <? m) && (3 * m <=? 10 * c) && (10 * c <=? 9 * m))%bool then 10%Q
     else if ((0 <? m) && (m <=? 10 * c) && (10 * c <? 3 * m))%bool then 5%Q
     else 0%Q)
  /\ (m <= 0 -> popularity_points e = 0%Q)
  /\ (0 < m -> 9 * m < 10 * c -> popularity_points e = 0%Q).
Proof.
  cbv zeta. intros [_ Hbound].
  pose proof (popularity_points_counts e Hbound) as Hmain.
  split; [exact Hmain | split].
  - intros Hm. rewrite Hmain.
    replace (0 <? capacity_of e) with false by (symmetry; apply Z.ltb_ge; lia).
    reflexivity.
  - intros Hm Hfull. rewrite Hmain.
    replace (10 * participants_of e <=? 9 * capacity_of e) with false
      by (symmetry; apply Z.leb_gt; lia).
    replace (10 * participants_of e <? 3 * capacity_of e) with false
      by (symmetry; apply Z.ltb_ge; lia).
    now rewrite !andb_false_r.
Qed.

Lemma popularity_bonus_by_counts_witness :
  popularity_points (candidate "a" "A" "x" [] Absent 10 10) = 0%Q
  /\ popularity_points (candidate "b" "B" "x" [] Absent 7 0) = 0%Q.
Proof.
  destruct (popularity_bonus_by_counts (candidate "a" "A" "x" [] Absent 10 10))
    as (_ & _ & Hfull); [split; vm_compute; discriminate |].
  destruct (popularity_bonus_by_counts (candidate "b" "B" "x" [] Absent 7 0))
    as (_ & Hunknown & _); [split; vm_compute; discriminate |].
  split; [apply Hfull; reflexivity | apply Hunknown; discriminate].
Defined.

(** Beyond that bound the quotient can round onto a threshold: the parade
    is filled beyond 90 percent and gets the bonus. *)
Example large_counts_round_into_the_band :
  9 * capacity_of crowd < 10 * participants_of crowd
  /\ popularity_points crowd = 10%Q.
Proof. split; vm_compute; reflexivity. Qed.

Section Components.
Context {R : Runtime}.

Lemma date_points_days (e : Event.t) :
  date_points e
  = match event_days e with
    | Some d =>
        if ((0 <=? d) && (d <=? 30))%bool then Py.max 0 (15 - inject_Z d / 2)%Q
        else 0%Q
    | None => 0%Q
    end.
Proof.
  unfold date_points, event_days.
  destruct (get (Event.date e) None) as [s |]; [| reflexivity].
  now destruct (truthy_str s).
Qed.

Lemma max_zero_nonneg (x : Q) : (0 <= x)%Q -> (Py.max 0 x == x)%Q.
Proof.
  intros H. unfold Py.max. destruct (Qltb 0 x) eqn:E; [reflexivity |].
  apply Qltb_false in E. lra.
Qed.

Lemma date_points_in_window (e : Event.t) (d : Z) :
  event_days e = Some d -> 0 <= d <= 30 ->
  (date_points e == 15 - inject_Z d / 2)%Q /\ (0 <= date_points e <= 15)%Q.
Proof.
  intros Hd Hw. rewrite date_points_days, Hd.
  replace ((0 <=? d) && (d <=? 30))%bool with true by (symmetry; lia).
  assert (H0 : (inject_Z 0 <= inject_Z d)%Q) by (rewrite <- Zle_Qle; lia).
  assert (H30 : (inject_Z d <= inject_Z 30)%Q) by (rewrite <- Zle_Qle; lia).
  change (inject_Z 0) with 0%Q in H0. change (inject_Z 30) with 30%Q in H30.
  assert (Ehalf : (inject_Z d / 2 == inject_Z d * (1 # 2))%Q) by field.
  assert (E : (Py.max 0 (15 - inject_Z d / 2) == 15 - inject_Z d / 2)%Q)
    by (apply max_zero_nonneg; lra).
  split; [exact E | lra].
Qed.

Lemma date_points_outside_window (e : Event.t) :
  (forall d, event_days e = Some d -> 0 <= d <= 30 -> False) ->
  date_points e = 0%Q.
Proof.
  intros H. rewrite date_points_days.
  destruct (event_days e) as [d |]; [| reflexivity].
  destruct ((0 <=? d) && (d <=? 30))%bool eqn:E; [| reflexivity].
  exfalso. apply (H d); [reflexivity | lia].
Qed.

Lemma date_points_range (e : Event.t) : (0 <= date_points e <= 15)%Q.
Proof.
  destruct (event_days e) as [d |] eqn:Hd.
  - destruct (Z_le_dec 0 d) as [H0 |]; [destruct (Z_le_dec d 30) as [H30 |] |].
    + now apply (date_points_in_window e d).
    + rewrite date_points_outside_window; [lra |].
      intros d' Hd' Hw. assert (d' = d) by congruence. lia.
    + rewrite date_points_outside_window; [lra |].
      intros d' Hd' Hw. assert (d' = d) by congruence. lia.
  - rewrite date_points_outside_window; [lra |]. intros d' Hd'. congruence.
Qed.

(** X2.  The date component lies in [0, 15]; an event [d] days ahead with
    [0 <= d <= 30] gets [15 - d / 2], an event in the past, more than 30
    days ahead, undated or with a date that does not parse gets 0; so of
    two events the one that is closer (and not in the past) never gets
    less. *)
Theorem closer_events_score_higher (e : Event.t) :
  (0 <= date_points e <= 15)%Q
  /\ (forall d, event_days e = Some d -> 0 <= d <= 30 ->
                (date_points e == 15 - inject_Z d / 2)%Q)
  /\ (forall d, event_days e = Some d -> d < 0 \/ 30 < d -> date_points e = 0%Q)
  /\ (event_days e = None -> date_points e = 0%Q)
  /\ (forall e' d d',
         event_days e = Some d -> event_days e' = Some d' -> 0 <= d <= d' ->
         (date_points e' <= date_points e)%Q).
Proof.
  split; [apply date_points_range | split; [| split; [| split]]].
  - intros d Hd Hw. now apply date_points_in_window.
  - intros d Hd Hout. apply date_points_outside_window.
    intros d' Hd' Hw. assert (d' = d) by congruence. lia.
  - intros Hd. apply date_points_outside_window. intros d' Hd'. congruence.
  - intros e' d d' Hd Hd' Hord.
    destruct (Z_le_dec d' 30) as [H30 |].
    + destruct (date_points_in_window e d Hd) as [-> _]; [lia |].
      destruct (date_points_in_window e' d' Hd') as [-> _]; [lia |].
      assert (H : (inject_Z d <= inject_Z d')%Q) by (rewrite <- Zle_Qle; lia).
      assert (Ed : (inject_Z d / 2 == inject_Z d * (1 # 2))%Q) by field.
      assert (Ed' : (inject_Z d' / 2 == inject_Z d' * (1 # 2))%Q) by field.
      lra.
    + rewrite (date_points_outside_window e'); [apply date_points_range |].
      intros x Hx Hw. assert (x = d') by congruence. lia.
Qed.

End Components.

Lemma closer_events_score_higher_witness :
  (date_points street_party == 15 - inject_Z 4 / 2)%Q
  /\ date_points match5 = 0%Q
  /\ date_points uncategorised = 0%Q
  /\ (date_points (candidate "l" "Later" "x" [] (Present "2026-11-20") 0 0)
      <= date_points street_party)%Q.
Proof.
  destruct (closer_events_score_higher street_party) as (_ & Hin & _ & _ & Hcloser).
  destruct (closer_events_score_higher match5) as (_ & _ & Hout & _).
  destruct (closer_events_score_higher uncategorised) as (_ & _ & _ & Hnone & _).
  split; [apply Hin; [reflexivity | lia] |].
  split; [apply (Hout 117); [reflexivity | lia] |].
  split; [apply Hnone; reflexivity |].
  apply (Hcloser _ 4 16); [reflexivity | reflexivity | lia].
Defined.

Lemma category_points_values (cats : list string) (ec : string) :
  (mem ec (map lower cats) = true -> category_points cats ec = 30%Q)
  /\ (cats = [] -> category_points cats ec = 0%Q)
  /\ (category_points cats ec = 0%Q \/ category_points cats ec = 15%Q
      \/ category_points cats ec = 30%Q).
Proof.
  unfold category_points. split; [| split].
  - now intros ->.
  - now intros ->.
  - destruct (mem ec (map lower cats)); [auto |].
    destruct (truthy_list cats); [| auto].
    destruct (existsb _ cats); auto.
Qed.

Lemma tag_points_values (user_tags event_tags : list string) :
  tag_points user_tags event_tags
  = inject_Z (Z.min 20 (5 * Z.of_nat (List.length (matching user_tags event_tags))))
  /\ (0 <= tag_points user_tags event_tags <= 20)%Q.
Proof.
  assert (Hnil : matching user_tags [] = []).
  { unfold matching. induction user_tags as [| t l IH]; [reflexivity |].
    cbn [filter mem existsb orb]. exact IH. }
  assert (E : tag_points user_tags event_tags
              = inject_Z (Z.min 20
                            (5 * Z.of_nat (List.length (matching user_tags event_tags))))).
  { unfold tag_points. destruct event_tags as [| et ets].
    - rewrite Hnil. reflexivity.
    - cbn [truthy_list].
      destruct (0 <? Z.of_nat (List.length (matching user_tags (et :: ets)))) eqn:Hk.
      + now rewrite Z.mul_comm.
      + apply Z.ltb_ge in Hk.
        replace (Z.of_nat (List.length (matching user_tags (et :: ets)))) with 0 by lia.
        reflexivity. }
  split; [exact E |]. rewrite E.
  change 0%Q with (inject_Z 0). change 20%Q with (inject_Z 20).
  rewrite <- !Zle_Qle. lia.
Qed.

(** X3.  The four components computed without the vectorizer are worth at
    most 30 + 20 + 15 + 10 points, so whenever the text similarity
    contributes between 0 and 25 points the final clamp changes nothing:
    the score returned is the plain sum of the five components. *)
Theorem score_is_the_sum_of_its_components {R : Runtime} (p : UserProfile.t)
  (e : Event.t) (self : RecommendationService) (s : Q) :
  snd (calculate_similarity_score p e self) = Ok s ->
  exists event_category event_text,
    lower_of (get (Event.category e) (Some "")) = Ok event_category
    /\ _build_event_text e = Ok event_text
    /\ (0 <= category_points (UserProfile.favorite_categories p) event_category <= 30)%Q
    /\ (0 <= tag_points (UserProfile.favorite_tags p) (event_tags_of e) <= 20)%Q
    /\ (0 <= date_points e <= 15)%Q
    /\ (0 <= popularity_points e <= 10)%Q
    /\ ((0 <= similarity_value (_build_user_text p) event_text <= 25)%Q ->
        (s == category_points (UserProfile.favorite_categories p) event_category
              + tag_points (UserProfile.favorite_tags p) (event_tags_of e)
              + similarity_value (_build_user_text p) event_text
              + date_points e
              + popularity_points e)%Q).
Proof.
  rewrite calculate_similarity_score_run.
  destruct (lower_of (get (Event.category e) (Some ""))) as [ec |] eqn:Hc;
    [| discriminate].
  destruct (_build_event_text e) as [et |] eqn:Ht; [| discriminate].
  cbn [snd]. intros [= <-]. exists ec, et.
  assert (Hcat : (0 <= category_points (UserProfile.favorite_categories p) ec <= 30)%Q).
  { destruct (category_points_values (UserProfile.favorite_categories p) ec)
      as (_ & _ & [-> | [-> | ->]]); lra. }
  pose proof (tag_points_values (UserProfile.favorite_tags p) (event_tags_of e))
    as [_ Htag].
  pose proof (date_points_range e) as Hdate.
  pose proof (popularity_points_range e) as Hpop.
  repeat split; try tauto.
  intros Hsim. unfold raw_score.
  set (x := (0 + category_points (UserProfile.favorite_categories p) ec
             + tag_points (UserProfile.favorite_tags p) (event_tags_of e)
             + similarity_value (_build_user_text p) et
             + date_points e + popularity_points e)%Q).
  assert (Hx : (0 <= x <= 100)%Q) by (unfold x; lra).
  assert (E1 : (Py.max 0 x == x)%Q) by (apply max_zero_nonneg; lra).
  assert (E2 : (Py.min 100 (Py.max 0 x) == Py.max 0 x)%Q).
  { unfold Py.min. destruct (Qltb (Py.max 0 x) 100) eqn:E; [reflexivity |].
    apply Qltb_false in E. lra. }
  rewrite E2, E1. unfold x. ring.
Qed.

Lemma score_is_the_sum_of_its_components_witness :
  exists s event_text,
    snd (calculate_similarity_score music_fan concert init) = Ok s
    /\ _build_event_text concert = Ok event_text
    /\ (s == category_points (UserProfile.favorite_categories music_fan) "music"
             + tag_points (UserProfile.favorite_tags music_fan) (event_tags_of concert)
             + similarity_value (_build_user_text music_fan) event_text
             + date_points concert
             + popularity_points concert)%Q.
Proof.
  destruct (snd (calculate_similarity_score music_fan concert init)) as [s | x] eqn:H;
    [| vm_compute in H; discriminate].
  destruct (score_is_the_sum_of_its_components music_fan concert init s H)
    as (ec & et & Hc & Ht & _ & _ & _ & _ & Hsum).
  assert (Hec : ec = "music") by (vm_compute in Hc; congruence).
  assert (Het : et = "jazz night  music live outdoor") by (vm_compute in Ht; congruence).
  subst ec et. exists s, "jazz night  music live outdoor".
  split; [reflexivity | split; [exact Ht |]].
  apply Hsum. vm_compute. split; discriminate.
Defined.

(** ** Match factors and reasons *)

Section Factors.
Context {R : Runtime}.

(** The factors before the placeholder is considered. *)
Lemma _get_match_factors_shape (p : UserProfile.t) (e : Event.t) (factors : list string) :
  _get_match_factors p e = Ok factors ->
  exists event_category,
    lower_of (get (Event.category e) (Some "")) = Ok event_category
    /\ let found :=
         ((if mem event_category (map lower (UserProfile.favorite_categories p))
           then [category_factor e] else [])
          ++ (if truthy_list (matching (UserProfile.favorite_tags p) (event_tags_of e))
              then [tags_factor p e] else [])
          ++ match event_days e with
             | Some d =>
                 if ((0 <=? d) && (d <=? 7))%bool then ["Happening soon"]
                 else if ((8 <=? d) && (d <=? 30))%bool then ["Upcoming event"]
                 else []
             | None => []
             end)%list in
       factors = if truthy_list found then found else ["Based on your preferences"].
Proof.
  unfold _get_match_factors, event_days.
  destruct (lower_of (get (Event.category e) (Some ""))) as [ec |]; [| discriminate].
  cbn [and_then]. intros [= <-]. exists ec. split; [reflexivity |]. cbv zeta.
  fold (category_factor e). fold (tags_factor p e).
  destruct (mem ec (map lower (UserProfile.favorite_categories p)));
    destruct (truthy_list (matching (UserProfile.favorite_tags p) (event_tags_of e)));
    destruct (get (Event.date e) None) as [s |]; try reflexivity;
    destruct (truthy_str s); try reflexivity;
    destruct (days_away_of s) as [d |]; try reflexivity;
    destruct ((0 <=? d) && (d <=? 7))%bool; try reflexivity;
    destruct ((8 <=? d) && (d <=? 30))%bool; reflexivity.
Qed.

Lemma category_points_30_iff (cats : list string) (ec : string) :
  category_points cats ec = 30%Q <-> mem ec (map lower cats) = true.
Proof.
  unfold category_points. destruct (mem ec (map lower cats)); [tauto |].
  destruct (truthy_list cats); [destruct (existsb _ cats) |];
    split; intros H; discriminate H.
Qed.

Lemma tag_points_positive_iff (user_tags event_tags : list string) :
  (0 < tag_points user_tags event_tags)%Q
  <-> truthy_list (matching user_tags event_tags) = true.
Proof.
  destruct (tag_points_values user_tags event_tags) as [-> _].
  change 0%Q with (inject_Z 0). rewrite <- Zlt_Qlt.
  destruct (matching user_tags event_tags) as [| t l]; cbn [truthy_list List.length].
  - split; [cbn; lia | discriminate].
  - split; [reflexivity | intros _; lia].
Qed.

End Factors.

Lemma factors_distinct (p : UserProfile.t) (e : Event.t) :
  category_factor e <> tags_factor p e
  /\ category_factor e <> "Happening soon"
  /\ category_factor e <> "Upcoming event"
  /\ category_factor e <> "Based on your preferences"
  /\ tags_factor p e <> "Happening soon"
  /\ tags_factor p e <> "Upcoming event"
  /\ tags_factor p e <> "Based on your preferences".
Proof.
  unfold category_factor, tags_factor. cbn [append].
  repeat split; intros H; discriminate H.
Qed.

(** X4.  The factors [_get_match_factors] returns are never empty and at
    most three.  The category factor is there exactly when the category
    component is 30 (a partial match, worth 15 points, names no factor),
    the tag factor exactly when the tag component is positive, "Happening
    soon" exactly for an event 0 to 7 days ahead and "Upcoming event"
    exactly for one 8 to 30 days ahead; the placeholder "Based on your
    preferences" stands alone, when nothing else was found. *)
Theorem match_factors_reflect_components {R : Runtime} (p : UserProfile.t)
  (e : Event.t) (factors : list string) :
  _get_match_factors p e = Ok factors ->
  exists event_category,
    lower_of (get (Event.category e) (Some "")) = Ok event_category
    /\ factors <> []
    /\ (List.length factors <= 3)%nat
    /\ (In (category_factor e) factors
        <-> category_points (UserProfile.favorite_categories p) event_category = 30%Q)
    /\ (In (tags_factor p e) factors
        <-> (0 < tag_points (UserProfile.favorite_tags p) (event_tags_of e))%Q)
    /\ (In "Happening soon" factors
        <-> exists d, event_days e = Some d /\ 0 <= d <= 7)
    /\ (In "Upcoming event" factors
        <-> exists d, event_days e = Some d /\ 8 <= d <= 30)
    /\ (In "Based on your preferences" factors
        <-> factors = ["Based on your preferences"]).
Proof.
  intros H. destruct (_get_match_factors_shape p e factors H) as (ec & Hec & Hshape).
  exists ec. split; [exact Hec |]. cbv zeta in Hshape.
  rewrite category_points_30_iff, tag_points_positive_iff.
  destruct (factors_distinct p e) as (D1 & D2 & D3 & D4 & D5 & D6 & D7).
  assert (Hdays : forall d, event_days e = Some d ->
             forall d', Some d = Some d' -> d' = d) by (intros; congruence).
  destruct (mem ec (map lower (UserProfile.favorite_categories p)));
    destruct (truthy_list (matching (UserProfile.favorite_tags p) (event_tags_of e)));
    destruct (event_days e) as [d |];
    try destruct ((0 <=? d) && (d <=? 7))%bool eqn:Hsoon;
    try destruct ((8 <=? d) && (d <=? 30))%bool eqn:Hlater;
    cbn [app truthy_list] in Hshape; subst factors; cbn [In List.length];
    (split; [discriminate |]); (split; [lia |]);
    repeat split;
    try (intros [d' [[= <-] Hd']]; lia);
    try (intros _; exists d; split; [reflexivity | lia]);
    try (intros [d' [[=] _]]);
    try (intros [= ]);
    try tauto;
    try (intros Hin; repeat destruct Hin as [Hin | Hin];
         try contradiction; try discriminate Hin; try congruence;
         exfalso; eauto using eq_sym);
    auto.
Qed.

Lemma match_factors_reflect_components_witness :
  exists factors event_category,
    _get_match_factors art_lover street_party = Ok factors
    /\ lower_of (get (Event.category street_party) (Some "")) = Ok event_category
    /\ factors = ["Happening soon"]
    /\ category_points (UserProfile.favorite_categories art_lover) event_category
       = 15%Q
    /\ ~ In (category_factor street_party) factors.
Proof.
  destruct (_get_match_factors art_lover street_party) as [factors | x] eqn:H;
    [| vm_compute in H; discriminate].
  destruct (match_factors_reflect_components art_lover street_party factors H)
    as (ec & Hec & _ & _ & Hcat & _).
  exists factors, ec. split; [reflexivity | split; [exact Hec |]].
  assert (E : ec = "party") by (vm_compute in Hec; congruence). subst ec.
  split; [vm_compute in H; congruence |].
  split; [reflexivity |].
  rewrite Hcat. vm_compute. discriminate.
Defined.

Lemma confidence_threshold (s : Q) (k : Z) :
  (0 <= s)%Q -> 2 <= k <= 10 ->
  (k <= confidence_of s <-> (inject_Z (10 * k) <= s)%Q).
Proof.
  intros Hs Hk. unfold confidence_of.
  assert (Hpos : (0 <= s / 10)%Q).
  { unfold Qdiv. apply Qmult_le_0_compat; [exact Hs | discriminate]. }
  rewrite (int_nonneg _ Hpos).
  assert (Hten : (inject_Z (10 * k) == 10 * inject_Z k)%Q).
  { rewrite inject_Z_mult. reflexivity. }
  assert (Hdiv : (s / 10 == s * (1 # 10))%Q) by field.
  split.
  - intros H. assert (Hf : k <= Qfloor (s / 10)) by lia.
    pose proof (Qfloor_le (s / 10)) as Hfl.
    rewrite Zle_Qle in Hf. rewrite Hten. lra.
  - intros H. assert (Hf : k <= Qfloor (s / 10)).
    { rewrite <- (Qfloor_Z k). apply Qfloor_resp_le. rewrite Hten in H. lra. }
    lia.
Qed.

Lemma base_phrase_by_confidence (s : Q) :
  (0 <= s)%Q -> base_phrase s = phrase_of_confidence (confidence_of s).
Proof.
  intros Hs. unfold base_phrase, phrase_of_confidence.
  assert (T : forall k, 2 <= k <= 10 ->
                Qle_bool (inject_Z (10 * k)) s = (k <=? confidence_of s)).
  { intros k Hk. apply eq_true_iff_eq. rewrite Qle_bool_iff, Z.leb_le.
    symmetry. now apply confidence_threshold. }
  change 70%Q with (inject_Z (10 * 7)). change 50%Q with (inject_Z (10 * 5)).
  change 30%Q with (inject_Z (10 * 3)).
  rewrite !T by lia. reflexivity.
Qed.

Section Reasons.
Context {R : Runtime}.

Lemma _get_match_factors_nonempty (p : UserProfile.t) (e : Event.t)
  (factors : list string) :
  _get_match_factors p e = Ok factors -> factors <> [].
Proof.
  unfold _get_match_factors.
  destruct (lower_of (get (Event.category e) (Some ""))) as [ec |]; [| discriminate].
  cbn [and_then]. intros [= <-].
  match goal with |- (if truthy_list ?l then _ else _) <> [] => destruct l end;
    discriminate.
Qed.

Lemma format_item_reason (p : UserProfile.t) (item : ScoredEvent.t)
  (r : Recommendation.t) :
  format_item p item = Ok r ->
  _get_match_factors p (ScoredEvent.event item) = Ok (Recommendation.matchFactors r)
  /\ Recommendation.reason r
     = _generate_reason (ScoredEvent.score item) (Recommendation.matchFactors r)
         (ScoredEvent.event item).
Proof.
  unfold format_item.
  destruct (_get_match_factors p (ScoredEvent.event item)) as [f |]; [| discriminate].
  cbn [and_then]. intros [= <-]. split; reflexivity.
Qed.

End Reasons.

(** X5.  The reason of a recommendation is worded by its confidence and its
    first match factor: "Highly recommended" from confidence 7 on, "Good
    match" for 5 and 6, "May interest you" for 3 and 4, "Based on your
    activity" below, followed by a colon and the first factor.  The match
    factors are never empty, so the closing clause [_generate_reason] keeps
    for a recommendation without factors is never used. *)
Theorem reason_follows_confidence {R : Runtime} (p : UserProfile.t)
  (events : list Event.t) (top_n : Z) (self : RecommendationService) :
  match snd (get_recommendations p events top_n self) with
  | Ok recs =>
      Forall (fun r =>
                exists factor others,
                  Recommendation.matchFactors r = factor :: others
                  /\ Recommendation.reason r
                     = phrase_of_confidence (Recommendation.confidence r)
                       ++ ": " ++ factor) recs
  | Raise _ => forallb well_formed events = false
  end.
Proof.
  destruct (snd (get_recommendations p events top_n self)) as [recs | x] eqn:H.
  - apply Forall_forall. intros r Hin.
    destruct (recommendation_origin p events top_n self recs r H Hin)
      as (e & item & _ & Hv & Hf).
    destruct (format_item_inv p item r Hf) as (_ & _ & Hc & _).
    destruct (format_item_reason p item r Hf) as (Hfactors & Hreason).
    destruct (scored_value_inv p e item Hv) as (_ & Hconf & _).
    pose proof (scored_value_score_bounds p e item Hv) as [Hlo _].
    apply _get_match_factors_nonempty in Hfactors.
    destruct (Recommendation.matchFactors r) as [| factor others]; [congruence |].
    exists factor, others. split; [reflexivity |].
    rewrite Hreason, Hc, Hconf, <- base_phrase_by_confidence by exact Hlo.
    reflexivity.
  - now apply (get_recommendations_raises p events top_n self x).
Qed.

(** ** What is returned and what is cut *)

Lemma sorted_split {A : Type} (before : A -> A -> Prop) (n : nat) (l : list A) (a b : A) :
  StronglySorted before l -> In a (firstn n l) -> In b (skipn n l) -> before a b.
Proof.
  revert n. induction l as [| x l IH]; intros n S Ha Hb.
  - rewrite firstn_nil in Ha. contradiction.
  - destruct n as [| n]; [contradiction |].
    inversion S as [| ? ? Sl Fx]; subst. cbn [firstn skipn] in Ha, Hb.
    destruct Ha as [<- | Ha]; [| now apply (IH n)].
    rewrite Forall_forall in Fx. apply Fx.
    rewrite <- (firstn_skipn n l). apply in_or_app. now right.
Qed.

Lemma slice_to_firstn {A : Type} (l : list A) (n : Z) :
  exists k, slice_to l n = firstn k l
            /\ (Z.of_nat (List.length l) <= n -> (List.length l <= k)%nat).
Proof.
  unfold slice_to. destruct (0 <=? n) eqn:E.
  - exists (Z.to_nat n). split; [reflexivity | lia].
  - exists (List.length l - Z.to_nat (- n))%nat. split; [reflexivity | lia].
Qed.

Lemma Forall2_map_eq {A B C : Type} (f : A -> C) (g : B -> C) (l : list A) (l' : list B) :
  Forall2 (fun a b => f a = g b) l l' -> map f l = map g l'.
Proof.
  induction 1 as [| a b l l' Hab _ IH]; [reflexivity |].
  cbn [map]. now rewrite Hab, IH.
Qed.

(** X6.  The answer is the best part of the candidates.  The scored
    candidates split into those that are returned, formatted one by one in
    this order, and those that are cut; no candidate that is cut has a
    higher computed score than one that is returned, whatever [top_n] is.
    When [top_n] is at least the number of candidates nothing is cut: the
    event ids of the answer are those of the candidates, rearranged. *)
Theorem answer_is_the_best_part {R : Runtime} (p : UserProfile.t)
  (events : list Event.t) (top_n : Z) (self : RecommendationService) :
  match snd (get_recommendations p events top_n self) with
  | Ok recs =>
      exists scored kept dropped,
        Forall2 (fun e item => snd (score_event p e self) = Ok item
                               /\ ScoredEvent.event item = e) events scored
        /\ Permutation scored (kept ++ dropped)
        /\ Forall2 (fun item r => format_item p item = Ok r) kept recs
        /\ (forall a b, In a kept -> In b dropped ->
                        (ScoredEvent.score b <= ScoredEvent.score a)%Q)
        /\ (Z.of_nat (List.length events) <= top_n ->
            dropped = []
            /\ Permutation (map Recommendation.eventId recs)
                 (map (fun e => get (Event.id e) None) events))
  | Raise _ => forallb well_formed events = false
  end.
Proof.
  destruct (snd (get_recommendations p events top_n self)) as [recs | x] eqn:H;
    [| now apply (get_recommendations_raises p events top_n self x)].
  destruct (get_recommendations_inv p events top_n self recs H) as (scored & Hs & Hf).
  destruct (slice_to_firstn (ranking scored) top_n) as (k & Hk & Hall).
  rewrite Hk in Hf. apply traverse_inv in Hf.
  assert (F2 : Forall2 (fun e item => snd (score_event p e self) = Ok item
                                      /\ ScoredEvent.event item = e) events scored).
  { eapply Forall2_impl; [| exact (traverse_inv _ _ _ Hs)].
    intros e item Hv. cbv beta in Hv. rewrite score_event_value. split; [exact Hv |].
    now destruct (scored_value_inv p e item Hv). }
  assert (Hperm : Permutation scored (firstn k (ranking scored) ++ skipn k (ranking scored))).
  { rewrite firstn_skipn. apply sorted_reverse_perm. }
  exists scored, (firstn k (ranking scored)), (skipn k (ranking scored)).
  split; [exact F2 | split; [exact Hperm | split; [exact Hf | split]]].
  - intros a b Ha Hb. apply Qltb_false.
    refine (sorted_split (fun a b => Qltb (ScoredEvent.score a) (ScoredEvent.score b) = false)
              k (ranking scored) a b _ Ha Hb).
    apply sorted_reverse_descending; [exact Qltb_asym | exact Qgeb_trans].
  - intros Hn.
    assert (Hlen : List.length (ranking scored) = List.length events).
    { unfold ranking. rewrite sorted_reverse_length. apply (traverse_length _ _ _ Hs). }
    assert (Hdrop : skipn k (ranking scored) = []).
    { apply skipn_all2. apply Hall. rewrite Hlen. exact Hn. }
    split; [exact Hdrop |].
    rewrite Hdrop, app_nil_r in Hperm.
    assert (E1 : map (fun item => get (Event.id (ScoredEvent.event item)) None)
                   (firstn k (ranking scored))
                 = map Recommendation.eventId recs).
    { apply Forall2_map_eq. eapply Forall2_impl; [| exact Hf].
      intros item r Hr. cbv beta in Hr.
      now destruct (format_item_inv p item r Hr) as (-> & _). }
    assert (E2 : map (fun e => get (Event.id e) None) events
                 = map (fun item => get (Event.id (ScoredEvent.event item)) None) scored).
    { apply Forall2_map_eq. eapply Forall2_impl; [| exact F2].
      intros e item [_ ->]. reflexivity. }
    rewrite <- E1, E2. symmetry. now apply Permutation_map.
Qed.

Lemma answer_is_the_best_part_witness :
  exists recs,
    snd (get_recommendations music_fan [street_party; concert] 2 init) = Ok recs
    /\ Permutation (map Recommendation.eventId recs) [Some "e1"; Some "e2"].
Proof.
  pose proof (answer_is_the_best_part music_fan [street_party; concert] 2 init) as H.
  destruct (snd (get_recommendations music_fan [street_party; concert] 2 init))
    as [recs | x]; [| discriminate H].
  destruct H as (scored & kept & dropped & _ & _ & _ & _ & Hall).
  exists recs. split; [reflexivity |].
  apply Hall. vm_compute. discriminate.
Defined.

(** ** The vectorizer after a ranking *)

Section VectorizerState.
Context {R : Runtime}.

Lemma refitted_refl (p : UserProfile.t) (events : list Event.t)
  (self : RecommendationService) : refitted p events self self.
Proof. now left. Qed.

Lemma refitted_step (p : UserProfile.t) (e : Event.t) (events : list Event.t)
  (self s1 s2 : RecommendationService) :
  refitted p [e] self s1 -> refitted p events s1 s2 -> refitted p (e :: events) self s2.
Proof.
  intros H1 [H2 | (e' & et & f & m & Hin & Het & Hfit & Hv)].
  - destruct H1 as [H1 | (e' & et & f & m & Hin & Het & Hfit & Hv)].
    + left. congruence.
    + right. exists e', et, f, m. destruct Hin as [<- | []].
      repeat split; auto; [now left | congruence].
  - right. exists e', et, f, m. repeat split; auto. now right.
Qed.

Lemma score_event_state (p : UserProfile.t) (e : Event.t) (self : RecommendationService) :
  fst (score_event p e self)
  = match _build_event_text e with
    | Ok event_text => fst (text_points (_build_user_text p) event_text self)
    | Raise _ => self
    end.
Proof.
  unfold score_event, bind. rewrite calculate_similarity_score_run.
  destruct (lower_of (get (Event.category e) (Some ""))) as [ec |] eqn:Hc.
  - destruct (_build_event_text e) as [et |]; [| reflexivity].
    destruct (no_preferences p); [| reflexivity].
    unfold lift, ret. now destruct (base_score_of e).
  - unfold _build_event_text. rewrite Hc.
    destruct (lower_of (get (Event.title e) (Some ""))); [| reflexivity].
    now destruct (lower_of (get (Event.description e) (Some ""))).
Qed.

Lemma score_event_refitted (p : UserProfile.t) (e : Event.t)
  (self : RecommendationService) :
  refitted p [e] self (fst (score_event p e self)).
Proof.
  rewrite score_event_state.
  destruct (_build_event_text e) as [et |] eqn:Het; [| apply refitted_refl].
  pose proof (text_points_state (_build_user_text p) et self) as Hs.
  destruct (truthy_str (_build_user_text p) && truthy_str et)%bool; [| now left].
  destruct (fit_transform [_build_user_text p; et]) as [[fitted m] |] eqn:Hfit;
    [| now left].
  right. exists e, et, fitted, m. repeat split; auto. now left.
Qed.

Lemma for_each_refitted (p : UserProfile.t) (events : list Event.t)
  (self : RecommendationService) :
  refitted p events self (fst (for_each (score_event p) events self)).
Proof.
  revert self. induction events as [| e events IH]; intros self; [apply refitted_refl |].
  cbn [for_each]. unfold bind at 1.
  pose proof (score_event_refitted p e self) as H1.
  destruct (score_event p e self) as [s1 [item |]]; cbn [fst] in H1.
  - unfold bind. specialize (IH s1).
    destruct (for_each (score_event p) events s1) as [s2 [items |]]; cbn [fst] in IH |- *;
      now apply (refitted_step p e events self s1 s2).
  - cbn [fst]. apply (refitted_step p e events self s1 s1 H1). apply refitted_refl.
Qed.

Lemma get_recommendations_state (p : UserProfile.t) (events : list Event.t) (top_n : Z)
  (self : RecommendationService) :
  fst (get_recommendations p events top_n self)
  = fst (for_each (score_event p) events self).
Proof.
  unfold get_recommendations. destruct events as [| e events]; [reflexivity |].
  cbn [truthy_list negb]. unfold bind, lift.
  now destruct (for_each (score_event p) (e :: events) self) as [s [scored |]].
Qed.

Lemma score_event_untouched (p : UserProfile.t) (e : Event.t)
  (self : RecommendationService) :
  _build_user_text p = "" -> fst (score_event p e self) = self.
Proof.
  intros Hu. rewrite score_event_state, Hu.
  now destruct (_build_event_text e).
Qed.

Lemma get_recommendations_untouched (p : UserProfile.t) (events : list Event.t)
  (top_n : Z) (self : RecommendationService) :
  _build_user_text p = "" -> fst (get_recommendations p events top_n self) = self.
Proof.
  intros Hu. rewrite get_recommendations_state.
  revert self. induction events as [| e events IH]; intros self; [reflexivity |].
  cbn [for_each]. unfold bind at 1.
  pose proof (score_event_untouched p e self Hu) as H1.
  destruct (score_event p e self) as [s1 [item |]]; cbn [fst] in H1; subst s1;
    [| reflexivity].
  unfold bind. specialize (IH self).
  now destruct (for_each (score_event p) events self) as [s2 [items |]].
Qed.

Lemma cold_user_text (p : UserProfile.t) :
  no_preferences p = true -> _build_user_text p = "".
Proof.
  unfold no_preferences, _build_user_text. rewrite !andb_true_iff, !negb_true_iff.
  intros [[Hc Ht] Hh].
  destruct (UserProfile.favorite_categories p); [| discriminate].
  destruct (UserProfile.favorite_tags p); [| discriminate].
  now destruct (UserProfile.participation_history p).
Qed.

End VectorizerState.

(** X7.  A ranking changes the service only by refitting its vectorizer:
    after [get_recommendations], whether it returned or raised, the
    vectorizer holds what it held before or the fit on the user text and
    the text of one of the candidates.  For a user text that is empty, as
    that of a user without preferences is, the service is left as it was. *)
Theorem ranking_only_refits_the_vectorizer {R : Runtime} (p : UserProfile.t)
  (events : list Event.t) (top_n : Z) (self : RecommendationService) :
  let after := fst (get_recommendations p events top_n self) in
  (vectorizer after = vectorizer self
   \/ exists e event_text fitted tfidf_matrix,
        In e events
        /\ _build_event_text e = Ok event_text
        /\ fit_transform [_build_user_text p; event_text] = Some (fitted, tfidf_matrix)
        /\ vectorizer after = Some fitted)
  /\ (_build_user_text p = "" -> after = self)
  /\ (no_preferences p = true -> after = self).
Proof.
  cbv zeta. split; [| split].
  - rewrite get_recommendations_state. apply for_each_refitted.
  - apply get_recommendations_untouched.
  - intros Hcold. apply get_recommendations_untouched. now apply cold_user_text.
Qed.

Lemma ranking_only_refits_the_vectorizer_witness :
  fst (get_recommendations newcomer [concert; street_party] 5 init) = init.
Proof.
  destruct (ranking_only_refits_the_vectorizer newcomer [concert; street_party] 5 init)
    as (_ & _ & Hcold).
  apply Hcold. reflexivity.
Defined.

(** ** Users without preferences *)

Section ColdStart.
Context {R : Runtime}.

Lemma base_score_of_values (e : Event.t) (b : Z) :
  base_score_of e = Ok b -> b = 40 \/ b = 50 \/ b = 60 \/ b = 70.
Proof.
  unfold base_score_of.
  destruct (base_popularity_bonus e) as [k |] eqn:Hk; [| discriminate].
  apply base_popularity_bonus_values in Hk.
  cbn [and_then]. intros H.
  assert (E : b = 40 + k + base_date_bonus e) by congruence.
  rewrite E, base_date_bonus_days. clear H E.
  destruct (days_until e) as [d |]; [destruct ((0 <=? d) && (d <=? 30))%bool |]; lia.
Qed.

Lemma cold_factors (p : UserProfile.t) (e : Event.t) (factors : list string) :
  no_preferences p = true ->
  _get_match_factors p e = Ok factors ->
  factors = ["Happening soon"] \/ factors = ["Upcoming event"]
  \/ factors = ["Based on your preferences"].
Proof.
  unfold no_preferences. rewrite !andb_true_iff, !negb_true_iff.
  intros [[Hc Ht] _] H.
  destruct (_get_match_factors_shape p e factors H) as (ec & _ & Hshape).
  cbv zeta in Hshape.
  destruct (UserProfile.favorite_categories p); [| discriminate].
  destruct (UserProfile.favorite_tags p); [| discriminate].
  cbn in Hshape. subst factors.
  destruct (event_days e) as [d |]; [| auto].
  destruct ((0 <=? d) && (d <=? 7))%bool; [auto |].
  destruct ((8 <=? d) && (d <=? 30))%bool; auto.
Qed.

End ColdStart.

(** X8.  For a user without preferences every recommendation carries one
    of the scores 40, 50, 60 and 70, the confidence is the tenth of the
    score (4 to 7), and the only match factor is the one read off the
    date, "Happening soon" or "Upcoming event", or else the placeholder
    "Based on your preferences". *)
Theorem cold_start_answers {R : Runtime} (p : UserProfile.t)
  (events : list Event.t) (top_n : Z) (self : RecommendationService) :
  no_preferences p = true ->
  match snd (get_recommendations p events top_n self) with
  | Ok recs =>
      Forall (fun r =>
                exists b,
                  (b = 40 \/ b = 50 \/ b = 60 \/ b = 70)
                  /\ (Recommendation.score r == inject_Z b)%Q
                  /\ 10 * Recommendation.confidence r = b
                  /\ (Recommendation.matchFactors r = ["Happening soon"]
                      \/ Recommendation.matchFactors r = ["Upcoming event"]
                      \/ Recommendation.matchFactors r = ["Based on your preferences"]))
             recs
  | Raise _ => forallb well_formed events = false
  end.
Proof.
  intros Hcold.
  destruct (snd (get_recommendations p events top_n self)) as [recs | x] eqn:H;
    [| now apply (get_recommendations_raises p events top_n self x)].
  apply Forall_forall. intros r Hin.
  destruct (recommendation_origin p events top_n self recs r H Hin)
    as (e & item & _ & Hv & Hf).
  destruct (format_item_inv p item r Hf) as (_ & _ & Hc & Hs).
  destruct (format_item_reason p item r Hf) as (Hfactors & _).
  destruct (scored_value_inv p e item Hv) as (_ & Hconf & _ & Hscore).
  rewrite Hcold in Hscore. destruct Hscore as (b & Hb & Hsb).
  exists b. pose proof (base_score_of_values e b Hb) as Hvals.
  split; [exact Hvals | split; [| split]].
  - rewrite Hs, Hsb. now apply round2_Z.
  - rewrite Hc, Hconf, Hsb.
    destruct Hvals as [-> | [-> | [-> | ->]]]; reflexivity.
  - now apply (cold_factors p (ScoredEvent.event item)).
Qed.

Lemma cold_start_answers_witness :
  match snd (get_recommendations newcomer [concert; match5] 5 init) with
  | Ok recs =>
      Forall (fun r =>
                exists b,
                  (b = 40 \/ b = 50 \/ b = 60 \/ b = 70)
                  /\ (Recommendation.score r == inject_Z b)%Q
                  /\ 10 * Recommendation.confidence r = b
                  /\ (Recommendation.matchFactors r = ["Happening soon"]
                      \/ Recommendation.matchFactors r = ["Upcoming event"]
                      \/ Recommendation.matchFactors r = ["Based on your preferences"]))
             recs
  | Raise _ => forallb well_formed [concert; match5] = false
  end.
Proof.
  apply (cold_start_answers newcomer [concert; match5] 5 init). reflexivity.
Defined.

(** ** When the service raises *)

Lemma traverse_raises {A B : Type} (f : A -> result B) (l : list A) (x : exn) :
  traverse f l = Raise x ->
  exists before a after,
    l = (before ++ a :: after)%list
    /\ Forall (fun a' => exists b, f a' = Ok b) before
    /\ f a = Raise x.
Proof.
  induction l as [| a l IH]; [discriminate |]. cbn [traverse].
  destruct (f a) as [b |] eqn:Fa; cbn [and_then].
  - destruct (traverse f l) as [bs |]; cbn [and_then]; [discriminate |].
    intros [= <-]. destruct (IH eq_refl) as (before & a' & after & -> & Hb & Ha').
    exists (a :: before), a', after. repeat split; eauto.
  - intros [= <-]. exists [], a, l. repeat split; auto.
Qed.

Lemma Forall2_In_l {A B : Type} (P : A -> B -> Prop) (l : list A) (l' : list B) (a : A) :
  Forall2 P l l' -> In a l -> exists b, In b l' /\ P a b.
Proof.
  induction 1 as [| a' b l l' Hab _ IH]; simpl; [contradiction |].
  intros [<- | Hin]; [eauto |].
  destruct (IH Hin) as (b' & Hb' & HP). eauto.
Qed.

Section Outcome.
Context {R : Runtime}.

Lemma lower_of_raises (x : option string) (e : exn) :
  lower_of x = Raise e -> x = None /\ e = AttributeError.
Proof. destruct x; [discriminate |]. intros [= <-]. auto. Qed.

Lemma unreadable_raises (e : Event.t) (x : exn) :
  and_then (lower_of (get (Event.category e) (Some "")))
    (fun _ => _build_event_text e) = Raise x ->
  readable e = false /\ x = AttributeError.
Proof.
  unfold readable, _build_event_text.
  destruct (Event.category e); cbn; try (intros [= <-]; rewrite ?andb_false_r; now auto);
    destruct (Event.title e); cbn; try (intros [= <-]; now auto);
    destruct (Event.description e); cbn; try (intros [= <-]; now auto);
    discriminate.
Qed.

Lemma base_score_of_outcome (e : Event.t) :
  match base_score_of e with
  | Ok _ =>
      (not_null (Event.current_participants e)
       || negb (0 <? or_int (get (Event.max_participants e) (Some 1)) 1))%bool = true
  | Raise x =>
      (not_null (Event.current_participants e)
       || negb (0 <? or_int (get (Event.max_participants e) (Some 1)) 1))%bool = false
      /\ x = TypeError
  end.
Proof.
  unfold base_score_of, base_popularity_bonus.
  destruct (0 <? or_int (get (Event.max_participants e) (Some 1)) 1);
    [| cbn; apply orb_true_r].
  destruct (Event.current_participants e) as [| | c]; cbn [get not_null orb negb];
    try (cbn; now auto).
  all: repeat match goal with |- context [if ?b then _ else _] => destruct b end;
    reflexivity.
Qed.

Lemma scored_value_outcome (p : UserProfile.t) (e : Event.t) :
  match scored_value p e with
  | Ok _ => scorable p e = true
  | Raise x =>
      scorable p e = false /\ x = if readable e then TypeError else AttributeError
  end.
Proof.
  unfold scored_value, scorable.
  pose proof (unreadable_raises e) as Hun.
  destruct (lower_of (get (Event.category e) (Some ""))) as [ec |]; cbn [and_then] in *.
  - destruct (_build_event_text e) as [et |] eqn:Het; cbn [and_then].
    + rewrite (texts_readable e et Het). cbn [andb].
      destruct (no_preferences p); cbn [negb orb and_then]; [| reflexivity].
      pose proof (base_score_of_outcome e) as Hb.
      destruct (base_score_of e) as [b | x]; cbn [and_then]; [exact Hb |].
      destruct Hb as [-> ->]. auto.
    + destruct (Hun e0 eq_refl) as [-> ->]. auto.
  - destruct (Hun e0 eq_refl) as [-> ->]. auto.
Qed.

Lemma formatting_succeeds (p : UserProfile.t) (events : list Event.t)
  (scored : list ScoredEvent.t) (top_n : Z) :
  traverse (scored_value p) events = Ok scored ->
  exists recs, traverse (format_item p) (slice_to (ranking scored) top_n) = Ok recs.
Proof.
  intros Hs. apply traverse_ok, Forall_forall. intros item Hin.
  apply format_item_ok.
  apply slice_to_incl in Hin. apply (proj1 (ranking_In _ _)) in Hin.
  destruct (Forall2_In_r _ _ _ _ (traverse_inv _ _ _ Hs) Hin) as (e & _ & He).
  now destruct (scored_value_inv p e item He) as (-> & _ & Hre & _).
Qed.

End Outcome.

(** X9.  [get_recommendations] returns exactly when the scoring loop gets
    through every candidate, whatever [top_n] is: a candidate stops it by
    a [None] title, description or category ([AttributeError]) or, for a
    user without preferences only, by a [None] participant count beside a
    positive capacity ([TypeError]).  The exception raised is that of the
    first such candidate; formatting never raises. *)
Theorem service_raises_exactly_when {R : Runtime} (p : UserProfile.t)
  (events : list Event.t) (top_n : Z) (self : RecommendationService) :
  match snd (get_recommendations p events top_n self) with
  | Ok _ => forallb (scorable p) events = true
  | Raise x =>
      exists before e after,
        events = (before ++ e :: after)%list
        /\ forallb (scorable p) before = true
        /\ scorable p e = false
        /\ x = if readable e then TypeError else AttributeError
  end.
Proof.
  rewrite get_recommendations_value.
  destruct (traverse (scored_value p) events) as [scored | x] eqn:Hs; cbn [and_then].
  - destruct (formatting_succeeds p events scored top_n Hs) as [recs ->].
    apply forallb_forall. intros e He.
    destruct (Forall2_In_l _ _ _ _ (traverse_inv _ _ _ Hs) He) as (item & _ & Hv).
    pose proof (scored_value_outcome p e) as Ho. now rewrite Hv in Ho.
  - destruct (traverse_raises _ _ _ Hs) as (before & e & after & -> & Hb & He).
    exists before, e, after. split; [reflexivity |].
    pose proof (scored_value_outcome p e) as Ho. rewrite He in Ho.
    destruct Ho as [Hsc Hx]. repeat split; auto.
    apply forallb_forall. intros e' He'. rewrite Forall_forall in Hb.
    destruct (Hb e' He') as [item Hv].
    pose proof (scored_value_outcome p e') as Ho. now rewrite Hv in Ho.
Qed.

(** ** Upper and lower case *)

Lemma lower_ascii_idem (c : ascii) : lower_ascii (lower_ascii c) = lower_ascii c.
Proof.
  destruct c as [[] [] [] [] [] [] [] []]; reflexivity.
Qed.

Lemma lower_idem (s : string) : lower (lower s) = lower s.
Proof.
  induction s as [| c s IH]; [reflexivity |].
  cbn [lower]. now rewrite lower_ascii_idem, IH.
Qed.

Lemma map_lower_idem (l : list string) : map lower (map lower l) = map lower l.
Proof.
  rewrite map_map. apply map_ext. intros s. apply lower_idem.
Qed.

Lemma existsb_map_lower (f : string -> bool) (l : list string) :
  existsb (fun x => f (lower x)) (map lower l) = existsb (fun x => f (lower x)) l.
Proof.
  induction l as [| x l IH]; [reflexivity |].
  cbn [map existsb]. now rewrite lower_idem, IH.
Qed.

Lemma category_points_lowercase (cats : list string) (ec : string) :
  category_points (map lower cats) ec = category_points cats ec.
Proof.
  unfold category_points. rewrite map_lower_idem.
  rewrite (existsb_map_lower (fun c => str_in c ec || str_in ec c)%bool).
  now replace (truthy_list (map lower cats)) with (truthy_list cats) by now destruct cats.
Qed.

Lemma matching_lowercase (user_tags event_tags : list string) :
  matching (map lower user_tags) event_tags = map lower (matching user_tags event_tags).
Proof.
  unfold matching. induction user_tags as [| t l IH]; [reflexivity |].
  cbn [map filter]. rewrite lower_idem, IH.
  now destruct (mem (lower t) event_tags || existsb _ event_tags)%bool.
Qed.

Lemma tag_points_lowercase (user_tags event_tags : list string) :
  tag_points (map lower user_tags) event_tags = tag_points user_tags event_tags.
Proof.
  unfold tag_points. now rewrite matching_lowercase, length_map.
Qed.

Lemma event_tags_of_lowercase (e : Event.t) :
  event_tags_of (lowercase_event e) = event_tags_of e.
Proof.
  unfold event_tags_of, lowercase_event. cbn [Event.tags].
  destruct (Event.tags e) as [| | [| t l]]; try reflexivity.
  cbn [get map or_list]. now rewrite lower_idem, map_lower_idem.
Qed.

Lemma _build_user_text_lowercase (p : UserProfile.t) :
  _build_user_text (lowercase_profile p) = _build_user_text p.
Proof.
  unfold _build_user_text, lowercase_profile.
  cbn [UserProfile.favorite_categories UserProfile.favorite_tags
       UserProfile.participation_history].
  rewrite !map_lower_idem. do 3 f_equal.
  induction (UserProfile.participation_history p) as [| item l IH]; [reflexivity |].
  cbn [map flat_map HistoryItem.title HistoryItem.category HistoryItem.tags].
  now rewrite !lower_idem, map_lower_idem, IH.
Qed.

Lemma lower_of_lowercase (f : field string) :
  lower_of (get (lowercase_field f) (Some "")) = lower_of (get f (Some "")).
Proof.
  destruct f as [| | s]; try reflexivity. cbn. now rewrite lower_idem.
Qed.

Lemma no_preferences_lowercase (p : UserProfile.t) :
  no_preferences (lowercase_profile p) = no_preferences p.
Proof.
  unfold no_preferences, lowercase_profile.
  cbn [UserProfile.favorite_categories UserProfile.favorite_tags
       UserProfile.participation_history].
  destruct (UserProfile.favorite_categories p), (UserProfile.favorite_tags p),
    (UserProfile.participation_history p); reflexivity.
Qed.

Section Case.
Context {R : Runtime}.

Lemma _build_event_text_lowercase (e : Event.t) :
  _build_event_text (lowercase_event e) = _build_event_text e.
Proof.
  unfold _build_event_text. rewrite event_tags_of_lowercase.
  unfold lowercase_event at 1 2 3.
  cbn [Event.title Event.description Event.category].
  now rewrite !lower_of_lowercase.
Qed.

Lemma raw_score_lowercase (p : UserProfile.t) (e : Event.t)
  (event_category event_text : string) :
  raw_score (lowercase_profile p) (lowercase_event e) event_category event_text
  = raw_score p e event_category event_text.
Proof.
  unfold raw_score. rewrite _build_user_text_lowercase, event_tags_of_lowercase.
  unfold lowercase_profile at 1 2.
  cbn [UserProfile.favorite_categories UserProfile.favorite_tags].
  now rewrite category_points_lowercase, tag_points_lowercase.
Qed.

Lemma calculate_similarity_score_lowercase (p : UserProfile.t) (e : Event.t)
  (self other : RecommendationService) :
  snd (calculate_similarity_score (lowercase_profile p) (lowercase_event e) other)
  = snd (calculate_similarity_score p e self).
Proof.
  rewrite !calculate_similarity_score_run, _build_event_text_lowercase.
  replace (lower_of (get (Event.category (lowercase_event e)) (Some "")))
    with (lower_of (get (Event.category e) (Some "")))
    by (symmetry; apply lower_of_lowercase).
  destruct (lower_of (get (Event.category e) (Some ""))) as [ec |]; [| reflexivity].
  destruct (_build_event_text e) as [et |]; [| reflexivity].
  cbn [snd]. now rewrite raw_score_lowercase.
Qed.

(** The score and the confidence of a scored event, or the exception. *)
Lemma scored_value_lowercase (p : UserProfile.t) (e : Event.t) :
  match scored_value p e, scored_value (lowercase_profile p) (lowercase_event e) with
  | Ok a, Ok b =>
      ScoredEvent.score a = ScoredEvent.score b
      /\ ScoredEvent.confidence a = ScoredEvent.confidence b
  | Raise x, Raise y => x = y
  | _, _ => False
  end.
Proof.
  unfold scored_value. rewrite _build_event_text_lowercase, no_preferences_lowercase.
  replace (lower_of (get (Event.category (lowercase_event e)) (Some "")))
    with (lower_of (get (Event.category e) (Some "")))
    by (symmetry; apply lower_of_lowercase).
  destruct (lower_of (get (Event.category e) (Some ""))) as [ec |]; [| reflexivity].
  destruct (_build_event_text e) as [et |]; [| reflexivity].
  cbn [and_then]. rewrite raw_score_lowercase.
  destruct (no_preferences p); cbn [and_then]; [| split; reflexivity].
  change (base_score_of (lowercase_event e)) with (base_score_of e).
  destruct (base_score_of e); cbn [and_then]; [split; reflexivity | reflexivity].
Qed.

End Case.

(** X10.  Scoring ignores the case of letters: two profiles that agree
    once their categories, tags and history are lower-cased, and two
    events that agree once their title, description, category and tags
    are, get the same similarity score, and the scoring loop attaches the
    same score and confidence to them or raises the same exception. *)
Theorem scoring_ignores_case {R : Runtime} (p p' : UserProfile.t) (e e' : Event.t)
  (self other : RecommendationService) :
  lowercase_profile p = lowercase_profile p' ->
  lowercase_event e = lowercase_event e' ->
  snd (calculate_similarity_score p e self)
  = snd (calculate_similarity_score p' e' other)
  /\ match snd (score_event p e self), snd (score_event p' e' other) with
     | Ok a, Ok b =>
         ScoredEvent.score a = ScoredEvent.score b
         /\ ScoredEvent.confidence a = ScoredEvent.confidence b
     | Raise x, Raise y => x = y
     | _, _ => False
     end.
Proof.
  intros Hp He. split.
  - rewrite <- (calculate_similarity_score_lowercase p e self self).
    rewrite <- (calculate_similarity_score_lowercase p' e' other self).
    now rewrite Hp, He.
  - rewrite !score_event_value.
    pose proof (scored_value_lowercase p e) as H1.
    pose proof (scored_value_lowercase p' e') as H2.
    rewrite <- Hp, <- He in H2.
    destruct (scored_value p e) as [a | x], (scored_value p' e') as [b | y],
      (scored_value (lowercase_profile p) (lowercase_event e)) as [c | z];
      try contradiction; try (destruct H1, H2; split; congruence); congruence.
Qed.

Lemma scoring_ignores_case_witness :
  snd (calculate_similarity_score (profile_of ["MUSIC"] ["Live"]) concert init)
  = snd (calculate_similarity_score music_fan
           (candidate "e2" "JAZZ Night" "music" ["LIVE"; "Outdoor"]
              (Present "2026-11-08") 40 100) init).
Proof.
  apply (scoring_ignores_case (profile_of ["MUSIC"] ["Live"]) music_fan concert
           (candidate "e2" "JAZZ Night" "music" ["LIVE"; "Outdoor"]
              (Present "2026-11-08") 40 100) init init); reflexivity.
Defined.

(** ** The word overlap that stands in for the vectorizer *)

Lemma share_bounds (c n : nat) :
  (c <= n)%nat -> (0 < n)%nat ->
  (0 <= inject_Z (Z.of_nat c) / inject_Z (Z.of_nat n) * 25 <= 25)%Q.
Proof.
  intros Hc Hn.
  assert (Hn' : (0 < inject_Z (Z.of_nat n))%Q).
  { change 0%Q with (inject_Z 0). rewrite <- Zlt_Qlt. lia. }
  assert (Hc0 : (0 <= inject_Z (Z.of_nat c))%Q).
  { change 0%Q with (inject_Z 0). rewrite <- Zle_Qle. lia. }
  assert (Hcn : (inject_Z (Z.of_nat c) <= inject_Z (Z.of_nat n))%Q).
  { rewrite <- Zle_Qle. lia. }
  assert (L : (0 <= inject_Z (Z.of_nat c) / inject_Z (Z.of_nat n))%Q).
  { apply Qle_shift_div_l; [exact Hn' | lra]. }
  assert (U : (inject_Z (Z.of_nat c) / inject_Z (Z.of_nat n) <= 1)%Q).
  { apply Qle_shift_div_r; [exact Hn' | lra]. }
  lra.
Qed.

Lemma intersection_all (a b : list string) : incl a b -> intersection a b = a.
Proof.
  unfold intersection. induction a as [| x a IH]; intros H; [reflexivity |].
  cbn [filter]. replace (mem x b) with true.
  - f_equal. apply IH. intros y Hy. apply H. now right.
  - symmetry. apply mem_In, H. now left.
Qed.

Lemma intersection_none (a b : list string) :
  (forall w, In w a -> ~ In w b) -> intersection a b = [].
Proof.
  unfold intersection. induction a as [| x a IH]; intros H; [reflexivity |].
  cbn [filter]. destruct (mem x b) eqn:E.
  - apply mem_In in E. exfalso. apply (H x); [now left | exact E].
  - apply IH. intros w Hw. apply H. now right.
Qed.

Lemma word_overlap_points_range (user_text event_text : string) :
  (0 <= word_overlap_points user_text event_text <= 25)%Q.
Proof.
  unfold word_overlap_points.
  destruct (set_of (split (lower user_text))) as [| w ws] eqn:Hw; cbn [truthy_list];
    [lra |].
  apply share_bounds; [| cbn; lia].
  unfold intersection. apply filter_length_le.
Qed.

(** X11.  When the vectorizer rejects the two texts, the text component is
    the share of the user's distinct words that occur in the event text,
    times 25, so it stays within the 25 points of the component.  For
    ASCII texts, whose words the model reads as [str.lower] and
    [str.split] do, it is 25 when every word of the user occurs in the
    event text and 0 when none does. *)
Theorem word_overlap_is_a_share {R : Runtime} (user_text event_text : string) :
  let user_words := set_of (split (lower user_text)) in
  let event_words := set_of (split (lower event_text)) in
  (0 <= word_overlap_points user_text event_text <= 25)%Q
  /\ (ascii_text user_text = true -> ascii_text event_text = true ->
      user_words <> [] -> incl user_words event_words ->
      (word_overlap_points user_text event_text == 25)%Q)
  /\ (ascii_text user_text = true -> ascii_text event_text = true ->
      (forall w, In w user_words -> ~ In w event_words) ->
      (word_overlap_points user_text event_text == 0)%Q)
  /\ (fit_transform [user_text; event_text] = None ->
      (0 <= similarity_value user_text event_text <= 25)%Q).
Proof.
  cbv zeta. split; [apply word_overlap_points_range | split; [| split]].
  - intros _ _ Hne Hincl. unfold word_overlap_points.
    rewrite (intersection_all _ _ Hincl).
    destruct (set_of (split (lower user_text))) as [| w ws]; [congruence |].
    cbn [truthy_list]. field.
    change 0%Q with (inject_Z 0). rewrite inject_Z_injective. cbn [List.length]. lia.
  - intros _ _ Hnone. unfold word_overlap_points.
    rewrite (intersection_none _ _ Hnone).
    destruct (set_of (split (lower user_text))) as [| w ws]; [reflexivity |].
    cbn [truthy_list List.length]. change (inject_Z (Z.of_nat 0)) with 0%Q.
    unfold Qdiv. rewrite !Qmult_0_l. reflexivity.
  - intros Hfit. unfold similarity_value. rewrite Hfit.
    destruct (truthy_str user_text && truthy_str event_text)%bool;
      [apply word_overlap_points_range | lra].
Qed.

Lemma word_overlap_is_a_share_witness :
  (word_overlap_points "Live MUSIC" "live music tonight" == 25)%Q
  /\ (word_overlap_points "chess" "live music tonight" == 0)%Q.
Proof.
  destruct (word_overlap_is_a_share "Live MUSIC" "live music tonight")
    as (_ & Hall & _ & _).
  destruct (word_overlap_is_a_share "chess" "live music tonight")
    as (_ & _ & Hnone & _).
  split.
  - apply Hall; [reflexivity | reflexivity | discriminate |].
    intros w Hw. vm_compute in Hw. vm_compute. tauto.
  - apply Hnone; [reflexivity | reflexivity |]. intros w Hw Hw'.
    vm_compute in Hw, Hw'.
    destruct Hw as [<- | []]. repeat destruct Hw' as [Hw' | Hw']; try discriminate Hw'.
    exact Hw'.
Defined.

(** ** The endpoint *)

Section EndpointFacts.
Context {R : Runtime}.

Lemma scorable_with_counts (p : UserProfile.t) (count : Event.t -> result Z)
  (e : Event.t) :
  scorable p (with_counts count e) = readable e.
Proof.
  unfold scorable, readable, with_counts. cbn.
  rewrite orb_true_r. apply andb_true_r.
Qed.

(** With the counts the endpoint attaches, the service raises only on a
    [None] text field. *)
Lemma service_on_counted_raises (p : UserProfile.t) (events : list Event.t)
  (count : Event.t -> result Z) (top_n : Z) (self : RecommendationService) (x : exn) :
  snd (get_recommendations p (map (with_counts count) events) top_n self) = Raise x ->
  x = AttributeError.
Proof.
  rewrite get_recommendations_value.
  destruct (traverse (scored_value p) (map (with_counts count) events))
    as [scored | y] eqn:Hs; cbn [and_then].
  - destruct (formatting_succeeds p _ scored top_n Hs) as [recs ->]. discriminate.
  - intros [= ->].
    destruct (traverse_raises _ _ _ Hs) as (before & e & after & Hsplit & _ & He).
    assert (Hin : In e (map (with_counts count) events)).
    { rewrite Hsplit. apply in_or_app. right. now left. }
    apply in_map_iff in Hin. destruct Hin as (e0 & <- & _).
    pose proof (scored_value_outcome p (with_counts count e0)) as Ho.
    rewrite He, scorable_with_counts in Ho. destruct Ho as [Hr ->].
    unfold well_formed, readable in *. cbn in *. now rewrite Hr.
Qed.

Lemma popularity_key_counted (count : Event.t -> result Z) (e : Event.t) (x : exn) :
  popularity_key (with_counts count e) = Raise x ->
  x = ValueError
  /\ exists date_str,
       get (Event.date e) None = Some date_str
       /\ truthy_str date_str = true
       /\ fromisoformat date_str = None.
Proof.
  unfold popularity_key, with_counts. cbn [Event.current_participants Event.date get and_then].
  destruct (get (Event.date e) None) as [s |]; cbn [and_then]; [| discriminate].
  destruct (truthy_str s) eqn:Hs; cbn [and_then]; [| discriminate].
  destruct (fromisoformat s) eqn:Hd; cbn [and_then]; [discriminate |].
  intros [= <-]. eauto.
Qed.

Lemma sorted_by_popularity_raises (count : Event.t -> result Z)
  (events : list Event.t) (x : exn) :
  sorted_by_popularity (map (with_counts count) events) = Raise x ->
  x = ValueError
  /\ exists e date_str,
       In e events
       /\ get (Event.date e) None = Some date_str
       /\ truthy_str date_str = true
       /\ fromisoformat date_str = None.
Proof.
  unfold sorted_by_popularity.
  destruct (traverse _ (map (with_counts count) events)) as [keyed | y] eqn:Hk;
    cbn [and_then]; [discriminate |].
  intros [= ->].
  destruct (traverse_raises _ _ _ Hk) as (before & e & after & Hsplit & _ & He).
  assert (Hin : In e (map (with_counts count) events)).
  { rewrite Hsplit. apply in_or_app. right. now left. }
  apply in_map_iff in Hin. destruct Hin as (e0 & <- & Hin0).
  destruct (popularity_key (with_counts count e0)) as [k | y] eqn:Hkey;
    cbn [and_then] in He; [discriminate |].
  injection He as ->.
  destruct (popularity_key_counted count e0 x Hkey) as (-> & s & Hs).
  split; [reflexivity |]. exists e0, s. tauto.
Qed.

(** The fallback cuts its list as the service cut its own. *)
Lemma fallback_slice_empty (p : UserProfile.t) (events sorted_events : list Event.t)
  (top_n : Z) (self : RecommendationService) :
  snd (get_recommendations p events top_n self) = Ok [] ->
  sorted_by_popularity events = Ok sorted_events ->
  slice_to sorted_events top_n = [].
Proof.
  intros H. unfold sorted_by_popularity.
  destruct (traverse _ events) as [keyed |] eqn:Hk; [| discriminate].
  cbn [and_then]. intros [= <-].
  destruct (get_recommendations_inv _ _ _ _ _ H) as (scored & Hs & Hf).
  apply traverse_length in Hs, Hf, Hk.
  apply length_zero_iff_nil.
  rewrite (slice_to_same_length _ (ranking scored)); [now rewrite <- Hf |].
  unfold ranking. rewrite length_map, !sorted_reverse_length. congruence.
Qed.

(** The answer of the endpoint, by that of the service. *)
Lemma endpoint_answer_shape (p : UserProfile.t) (events : list Event.t)
  (count : Event.t -> result Z) (top_n : Z) (self : RecommendationService) :
  match snd (get_personalized_recommendations p events count top_n self) with
  | Ok out =>
      exists recs,
        snd (get_recommendations p (map (with_counts count) events) top_n self) = Ok recs
        /\ out = map Scored recs
  | Raise x =>
      (snd (get_recommendations p (map (with_counts count) events) top_n self) = Raise x
       /\ x = AttributeError)
      \/ (snd (get_recommendations p (map (with_counts count) events) top_n self) = Ok []
          /\ x = ValueError
          /\ exists e date_str,
               In e events
               /\ get (Event.date e) None = Some date_str
               /\ truthy_str date_str = true
               /\ fromisoformat date_str = None)
  end.
Proof.
  rewrite get_personalized_recommendations_value.
  destruct (snd (get_recommendations p (map (with_counts count) events) top_n self))
    as [[| r recs] | x] eqn:H.
  - destruct (truthy_list events); [| exists []; split; reflexivity].
    destruct (sorted_by_popularity (map (with_counts count) events))
      as [sorted_events | x] eqn:Hsort; cbn [and_then].
    + rewrite (fallback_slice_empty p _ sorted_events top_n self H Hsort).
      exists []. split; reflexivity.
    + right. destruct (sorted_by_popularity_raises count events x Hsort) as [-> He].
      auto.
  - exists (r :: recs). split; reflexivity.
  - left. split; [reflexivity |].
    now apply (service_on_counted_raises p events count top_n self).
Qed.

End EndpointFacts.

(** X12.  What the endpoint returns is the answer of the service on the
    candidates with their participant counts attached, entry by entry:
    the popularity fallback never contributes an entry, since it cuts its
    list by the same [top_n] that left the service's answer empty.  The
    endpoint raises when the service does, which with the counts attached
    is an [AttributeError] for a [None] text field, and besides only in
    the fallback: when the service's answer is empty and the date of a
    candidate does not parse, the sort key raises [ValueError]. *)
Theorem endpoint_returns_the_service_answer {R : Runtime} (p : UserProfile.t)
  (events : list Event.t) (count : Event.t -> result Z) (top_n : Z)
  (self : RecommendationService) :
  let answer := snd (get_recommendations p (map (with_counts count) events) top_n self) in
  match snd (get_personalized_recommendations p events count top_n self) with
  | Ok out => exists recs, answer = Ok recs /\ out = map Scored recs
  | Raise x =>
      (answer = Raise x /\ x = AttributeError)
      \/ (answer = Ok [] /\ x = ValueError
          /\ exists e date_str,
               In e events
               /\ get (Event.date e) None = Some date_str
               /\ truthy_str date_str = true
               /\ fromisoformat date_str = None)
  end.
Proof.
  cbv zeta. apply endpoint_answer_shape.
Qed.

(** The second case occurs: asked for no recommendation at all, the
    endpoint fails on a candidate whose date does not parse, which the
    service had scored without complaint. *)
Example fallback_raises_on_a_bad_date :
  snd (get_recommendations music_fan
         (map (with_counts match_counts) [candidate "b" "Ball" "Dance" [] (Present "soon") 0 0])
         0 init) = Ok []
  /\ snd (get_personalized_recommendations music_fan
            [candidate "b" "Ball" "Dance" [] (Present "soon") 0 0] match_counts 0 init)
     = Raise ValueError.
Proof. split; vm_compute; reflexivity. Qed.

Lemma generate_insights_empty {A : Type} (p : UserProfile.t) (recommendations : list A) :
  generate_insights p recommendations = no_events_insight <-> recommendations = [].
Proof.
  unfold generate_insights, no_events_insight.
  destruct recommendations as [| r l]; cbn [truthy_list negb].
  - split; reflexivity.
  - split; [| discriminate].
    destruct (no_preferences p); [cbn [append]; discriminate |].
    destruct (UserProfile.favorite_categories p); cbn [append]; discriminate.
Qed.

(** X13.  Once the profile is built and the candidates are fetched, the
    rest of the endpoint (the preferences of the request, the ranking and
    the insight) does this: when it answers, its recommendations are those
    of the service for the profile with the preferences of the request
    applied, there are as many of them as [candidates[:top_n]] has
    elements, and the insight is the "No events available" message exactly
    when that slice is empty: without candidates, but also for a [top_n]
    of 0 or below minus the number of candidates.  This part raises
    nothing but [AttributeError] and [ValueError]; the queries before it
    are not part of the statement. *)
Theorem no_events_insight_exactly_when {R : Runtime} (p : UserProfile.t)
  (initial_categories initial_tags : option string) (events : list Event.t)
  (count : Event.t -> result Z) (top_n : Z) (self : RecommendationService) :
  let user_profile := with_request_preferences p initial_categories initial_tags in
  match snd (respond p initial_categories initial_tags events count top_n self) with
  | Ok response =>
      exists recs,
        snd (get_recommendations user_profile (map (with_counts count) events) top_n self)
        = Ok recs
        /\ Response.recommendations response = map Scored recs
        /\ List.length recs = List.length (slice_to events top_n)
        /\ Response.insights response = generate_insights user_profile recs
        /\ (Response.insights response = no_events_insight
            <-> slice_to events top_n = [])
  | Raise x => x = AttributeError \/ x = ValueError
  end.
Proof.
  cbv zeta. unfold respond, bind.
  pose proof (endpoint_answer_shape
                (with_request_preferences p initial_categories initial_tags)
                events count top_n self) as H.
  destruct (get_personalized_recommendations
              (with_request_preferences p initial_categories initial_tags)
              events count top_n self) as [self' [out | x]]; cbn [snd] in H |- *.
  - destruct H as (recs & Hrecs & ->). exists recs.
    cbn [Response.recommendations Response.insights].
    assert (Hlen : List.length recs = List.length (slice_to events top_n)).
    { destruct (get_recommendations_inv _ _ _ _ _ Hrecs) as (scored & Hs & Hf).
      rewrite (traverse_length _ _ _ Hf). apply slice_to_same_length.
      unfold ranking. rewrite sorted_reverse_length, (traverse_length _ _ _ Hs).
      apply length_map. }
    assert (Hins : generate_insights
                     (with_request_preferences p initial_categories initial_tags)
                     (map Scored recs)
                   = generate_insights
                       (with_request_preferences p initial_categories initial_tags) recs).
    { unfold generate_insights. rewrite length_map. now destruct recs. }
    repeat split; auto.
    + rewrite Hins. intros Hi. apply generate_insights_empty in Hi. subst recs.
      now apply length_zero_iff_nil.
    + intros Hnil. rewrite Hins. apply generate_insights_empty.
      apply length_zero_iff_nil. now rewrite Hlen, Hnil.
  - destruct H as [[_ ->] | (_ & -> & _)]; auto.
Qed.

(** ** The preferences given with the request *)

Lemma split_on_nonempty (sep : ascii) (s : string) : split_on sep s <> [].
Proof.
  destruct s as [| c s]; cbn [split_on]; [discriminate |].
  destruct (Ascii.eqb c sep); [discriminate |].
  destruct (split_on sep s); discriminate.
Qed.

Lemma split_on_comma_free (s : string) :
  comma_free s = true -> split_on "," s = [s].
Proof.
  induction s as [| c s IH]; [reflexivity |].
  cbn [comma_free split_on]. rewrite andb_true_iff, negb_true_iff.
  intros [-> Hs]. now rewrite (IH Hs).
Qed.

Lemma split_on_app (x rest : string) :
  comma_free x = true ->
  split_on "," (x ++ String "," rest) = x :: split_on "," rest.
Proof.
  induction x as [| c x IH]; [reflexivity |].
  cbn [comma_free append split_on]. rewrite andb_true_iff, negb_true_iff.
  intros [-> Hx]. now rewrite (IH Hx).
Qed.

Lemma split_on_join (l : list string) :
  l <> [] -> Forall (fun x => comma_free x = true) l ->
  split_on "," (join "," l) = l.
Proof.
  intros Hne H. induction H as [| x l Hx Hl IH]; [congruence |].
  destruct l as [| y l].
  - cbn [join String.concat]. now apply split_on_comma_free.
  - unfold join in *.
    assert (E : String.concat "," (x :: y :: l)
                = x ++ String "," (String.concat "," (y :: l))) by reflexivity.
    rewrite E, (split_on_app _ _ Hx). f_equal. apply IH. discriminate.
Qed.

Lemma split_on_pieces_comma_free (s : string) :
  Forall (fun x => comma_free x = true) (split_on "," s).
Proof.
  induction s as [| c s IH]; [repeat constructor |].
  cbn [split_on]. destruct (Ascii.eqb c ",") eqn:E; [now constructor |].
  destruct (split_on "," s) as [| piece pieces]; [repeat constructor; cbn; now rewrite E |].
  inversion IH as [| ? ? Hp Hps]; subst.
  constructor; [| exact Hps]. cbn [comma_free]. now rewrite E, Hp.
Qed.

Lemma lstrip_comma_free (s : string) : comma_free s = true -> comma_free (lstrip s) = true.
Proof.
  induction s as [| c s IH]; [reflexivity |].
  cbn [lstrip]. destruct (is_space c); [| easy].
  cbn [comma_free]. rewrite andb_true_iff. intros [_ Hs]. now apply IH.
Qed.

Lemma rstrip_comma_free (s : string) : comma_free s = true -> comma_free (rstrip s) = true.
Proof.
  induction s as [| c s IH]; [reflexivity |].
  cbn [rstrip comma_free]. rewrite andb_true_iff. intros [Hc Hs].
  destruct (is_space c && negb (truthy_str (rstrip s)))%bool; [reflexivity |].
  cbn [comma_free]. now rewrite Hc, IH.
Qed.

Lemma lstrip_idem (s : string) : lstrip (lstrip s) = lstrip s.
Proof.
  induction s as [| c s IH]; [reflexivity |].
  cbn [lstrip]. destruct (is_space c) eqn:E; [exact IH |].
  cbn [lstrip]. now rewrite E.
Qed.

Lemma rstrip_idem (s : string) : rstrip (rstrip s) = rstrip s.
Proof.
  induction s as [| c s IH]; [reflexivity |].
  cbn [rstrip].
  destruct (is_space c && negb (truthy_str (rstrip s)))%bool eqn:E; [reflexivity |].
  cbn [rstrip]. now rewrite IH, E.
Qed.

Lemma lstrip_rstrip (s : string) : lstrip s = s -> lstrip (rstrip s) = rstrip s.
Proof.
  destruct s as [| c s]; [reflexivity |].
  cbn [lstrip]. destruct (is_space c) eqn:E.
  - intros H. exfalso.
    assert (L : forall t, (String.length (lstrip t) <= String.length t)%nat).
    { induction t as [| a t IHt]; [apply le_n |].
      cbn [lstrip]. destruct (is_space a); cbn [String.length]; [| apply le_n].
      now apply Nat.le_le_succ_r. }
    specialize (L s). rewrite H in L. cbn [String.length] in L.
    exact (Nat.nle_succ_diag_l _ L).
  - intros _. cbn [rstrip]. rewrite E. cbn [andb lstrip]. now rewrite E.
Qed.

Lemma strip_idem (s : string) : strip (strip s) = strip s.
Proof.
  unfold strip.
  rewrite (lstrip_rstrip (lstrip s)) by apply lstrip_idem.
  apply rstrip_idem.
Qed.

Lemma strip_comma_free (s : string) : comma_free s = true -> comma_free (strip s) = true.
Proof.
  intros H. unfold strip. now apply rstrip_comma_free, lstrip_comma_free.
Qed.

Lemma stripped_pieces_clean (s : string) :
  Forall (fun x => clean_label x = true) (stripped_pieces s).
Proof.
  unfold stripped_pieces. apply Forall_forall. intros x Hx.
  apply filter_In in Hx. destruct Hx as [Hx Ht].
  apply in_map_iff in Hx. destruct Hx as (piece & <- & Hp).
  pose proof (split_on_pieces_comma_free s) as Hc. rewrite Forall_forall in Hc.
  unfold clean_label. rewrite Ht, (strip_comma_free _ (Hc _ Hp)), strip_idem.
  now rewrite String.eqb_refl.
Qed.

Lemma stripped_pieces_join (l : list string) :
  Forall (fun x => clean_label x = true) l -> stripped_pieces (join "," l) = l.
Proof.
  intros H. destruct l as [| x l]; [reflexivity |].
  unfold stripped_pieces. rewrite split_on_join.
  - induction H as [| y l' Hy Hl IH]; [reflexivity |].
    unfold clean_label in Hy. rewrite !andb_true_iff in Hy.
    destruct Hy as [[Ht Hc] He]. apply String.eqb_eq in He.
    cbn [map filter]. rewrite He, Ht. now f_equal.
  - discriminate.
  - eapply Forall_impl; [| exact H]. intros y. unfold clean_label.
    rewrite !andb_true_iff. tauto.
Qed.

(** X14.  For a request parameter of ASCII characters, the labels the
    endpoint reads off it as a comma-separated list are never empty, hold
    no comma and carry no whitespace at either end; and a list of such
    labels, joined by commas, is read back as it was.  So reading is
    idempotent: joining what was read and reading again changes nothing. *)
Theorem request_labels_round_trip (s : string) (labels : list string) :
  (ascii_text s = true ->
   Forall (fun x => clean_label x = true) (stripped_pieces s))
  /\ (Forall (fun x => ascii_text x = true) labels ->
      Forall (fun x => clean_label x = true) labels ->
      stripped_pieces (join "," labels) = labels)
  /\ (ascii_text s = true ->
      stripped_pieces (join "," (stripped_pieces s)) = stripped_pieces s).
Proof.
  split; [intros _; apply stripped_pieces_clean | split].
  - intros _. apply stripped_pieces_join.
  - intros _. apply stripped_pieces_join, stripped_pieces_clean.
Qed.

Lemma request_labels_round_trip_witness :
  Forall (fun x => clean_label x = true) (stripped_pieces " Music , ,Board games,")
  /\ stripped_pieces (join "," ["Music"; "Board games"]) = ["Music"; "Board games"].
Proof.
  destruct (request_labels_round_trip " Music , ,Board games," ["Music"; "Board games"])
    as (Hclean & Hback & _).
  split; [apply Hclean; reflexivity |].
  apply Hback; repeat constructor.
Defined.

Lemma firstn_Forall {A : Type} (P : A -> Prop) (n : nat) (l : list A) :
  Forall P l -> Forall P (firstn n l).
Proof.
  intros H. apply Forall_forall. intros x Hx. apply In_firstn in Hx.
  rewrite Forall_forall in H. now apply H.
Qed.

Lemma firstn_truthy {A : Type} (n : nat) (l : list A) :
  truthy_list l = true -> firstn (S n) l <> [].
Proof. destruct l; [discriminate |]. intros _. discriminate. Qed.

Lemma with_request_preferences_categories (p : UserProfile.t)
  (initial_categories initial_tags : option string) :
  let p' := with_request_preferences p initial_categories initial_tags in
  UserProfile.favorite_categories p' = UserProfile.favorite_categories p
  \/ (exists s, initial_categories = Some s
                /\ stripped_pieces s <> []
                /\ UserProfile.events_created p = 0%nat
                /\ UserProfile.events_attended p = 0%nat
                /\ UserProfile.favorite_categories p' = firstn 3 (stripped_pieces s)).
Proof.
  cbv zeta. unfold with_request_preferences.
  destruct (Nat.eqb_spec (UserProfile.events_created p) 0) as [Hc |]; [| now left].
  destruct (Nat.eqb_spec (UserProfile.events_attended p) 0) as [Ha |]; [| now left].
  cbn [andb].
  match goal with |- context [if ?b then _ else _] => destruct b end; [| now left].
  cbn [UserProfile.favorite_categories].
  destruct initial_categories as [s |]; [| now left].
  destruct (truthy_str s); [| now left].
  destruct (stripped_pieces s) as [| c cs] eqn:Hp; [now left |].
  right. exists s. rewrite Hp. cbn [truthy_list]. repeat split; auto. discriminate.
Qed.

Lemma with_request_preferences_tags (p : UserProfile.t)
  (initial_categories initial_tags : option string) :
  let p' := with_request_preferences p initial_categories initial_tags in
  UserProfile.favorite_tags p' = UserProfile.favorite_tags p
  \/ (exists s, initial_tags = Some s
                /\ stripped_pieces s <> []
                /\ UserProfile.events_created p = 0%nat
                /\ UserProfile.events_attended p = 0%nat
                /\ UserProfile.favorite_tags p' = firstn 5 (stripped_pieces s)).
Proof.
  cbv zeta. unfold with_request_preferences.
  destruct (Nat.eqb_spec (UserProfile.events_created p) 0) as [Hc |]; [| now left].
  destruct (Nat.eqb_spec (UserProfile.events_attended p) 0) as [Ha |]; [| now left].
  cbn [andb].
  match goal with |- context [if ?b then _ else _] => destruct b end; [| now left].
  cbn [UserProfile.favorite_tags].
  destruct initial_tags as [s |]; [| now left].
  destruct (truthy_str s); [| now left].
  destruct (stripped_pieces s) as [| c cs] eqn:Hp; [now left |].
  right. exists s. rewrite Hp. cbn [truthy_list]. repeat split; auto. discriminate.
Qed.

Lemma with_request_preferences_history (p : UserProfile.t)
  (initial_categories initial_tags : option string) :
  UserProfile.participation_history
    (with_request_preferences p initial_categories initial_tags)
  = UserProfile.participation_history p.
Proof.
  unfold with_request_preferences.
  match goal with |- context [if ?b then _ else _] => destruct b end; reflexivity.
Qed.

Lemma join_truthy (x : string) (l : list string) :
  truthy_str x = true -> truthy_str (join "," (x :: l)) = true.
Proof.
  destruct x as [| c x]; [discriminate |]. intros _.
  unfold join. destruct l; reflexivity.
Qed.

Lemma with_request_preferences_newcomer (p : UserProfile.t) (cats : list string)
  (initial_tags : option string) :
  UserProfile.events_created p = 0%nat ->
  UserProfile.events_attended p = 0%nat ->
  cats <> [] ->
  Forall (fun x => clean_label x = true) cats ->
  UserProfile.favorite_categories
    (with_request_preferences p (Some (join "," cats)) initial_tags)
  = firstn 3 cats.
Proof.
  intros Hc Ha Hne Hclean. unfold with_request_preferences. rewrite Hc, Ha.
  destruct cats as [| x cats]; [congruence |].
  assert (Ht : truthy_str (join "," (x :: cats)) = true).
  { apply join_truthy. inversion Hclean as [| ? ? Hx _]; subst.
    unfold clean_label in Hx. rewrite !andb_true_iff in Hx. tauto. }
  cbn [Nat.eqb andb]. rewrite Ht. cbn [orb UserProfile.favorite_categories].
  now rewrite (stripped_pieces_join _ Hclean).
Qed.

Lemma build_user_profile_counts (r : Records.t) :
  UserProfile.events_created (build_user_profile r) = List.length (Records.user_events r)
  /\ UserProfile.events_attended (build_user_profile r)
     = List.length (filter (fun part => match Participation.status part with
                                        | Some s => String.eqb s "attended"
                                        | None => false
                                        end) (Records.participations r)).
Proof. split; reflexivity. Qed.

Lemma none_attended (l : list Participation.t) :
  Forall (fun part => Participation.status part <> Some "attended") l ->
  filter (fun part => match Participation.status part with
                      | Some s => String.eqb s "attended"
                      | None => false
                      end) l = [].
Proof.
  induction 1 as [| part l Hpart _ IH]; [reflexivity |].
  cbn [filter]. destruct (Participation.status part) as [s |]; [| exact IH].
  destruct (String.eqb_spec s "attended") as [-> | _]; [congruence | exact IH].
Qed.

(** X15.  The preferences of the request are applied only to a profile
    that counts no created and no attended event, and they replace a list
    of favorites only by a non-empty one: any other profile is returned as
    it is, a parameter without a label leaves the favorites in place, and
    a profile that had preferences keeps some.  Three categories and five
    tags are kept at most, each one clean.  What counts is the attended
    events: for a user who created nothing and whose participations are
    not marked attended, the categories of the request, clean labels of
    ASCII characters, replace the favorites the profile builder learnt
    from these participations. *)
Theorem request_preferences_are_for_newcomers (p : UserProfile.t)
  (initial_categories initial_tags : option string) :
  let p' := with_request_preferences p initial_categories initial_tags in
  (UserProfile.events_created p <> 0%nat \/ UserProfile.events_attended p <> 0%nat ->
   p' = p)
  /\ UserProfile.participation_history p' = UserProfile.participation_history p
  /\ (UserProfile.favorite_categories p' = UserProfile.favorite_categories p
      \/ (UserProfile.favorite_categories p' <> []
          /\ (List.length (UserProfile.favorite_categories p') <= 3)%nat
          /\ Forall (fun x => clean_label x = true) (UserProfile.favorite_categories p')))
  /\ (UserProfile.favorite_tags p' = UserProfile.favorite_tags p
      \/ (UserProfile.favorite_tags p' <> []
          /\ (List.length (UserProfile.favorite_tags p') <= 5)%nat
          /\ Forall (fun x => clean_label x = true) (UserProfile.favorite_tags p')))
  /\ (no_preferences p = false -> no_preferences p' = false)
  /\ (forall (r : Records.t) (cats : list string),
         Records.user_events r = [] ->
         Forall (fun part => Participation.status part <> Some "attended")
           (Records.participations r) ->
         cats <> [] ->
         Forall (fun x => ascii_text x = true) cats ->
         Forall (fun x => clean_label x = true) cats ->
         UserProfile.favorite_categories
           (with_request_preferences (build_user_profile r) (Some (join "," cats))
              initial_tags)
         = firstn 3 cats).
Proof.
  cbv zeta.
  pose proof (with_request_preferences_categories p initial_categories initial_tags) as Hcat.
  pose proof (with_request_preferences_tags p initial_categories initial_tags) as Htag.
  pose proof (with_request_preferences_history p initial_categories initial_tags) as Hhist.
  cbv zeta in Hcat, Htag.
  assert (Hcat' :
    UserProfile.favorite_categories
      (with_request_preferences p initial_categories initial_tags)
    = UserProfile.favorite_categories p
    \/ (UserProfile.favorite_categories
          (with_request_preferences p initial_categories initial_tags) <> []
        /\ (List.length (UserProfile.favorite_categories
                           (with_request_preferences p initial_categories initial_tags))
            <= 3)%nat
        /\ Forall (fun x => clean_label x = true)
             (UserProfile.favorite_categories
                (with_request_preferences p initial_categories initial_tags)))).
  { destruct Hcat as [E | (s & _ & Hne & _ & _ & E)]; [now left | right].
    rewrite E. split; [| split].
    - apply firstn_truthy. now destruct (stripped_pieces s).
    - apply firstn_le_length.
    - apply firstn_Forall, stripped_pieces_clean. }
  assert (Htag' :
    UserProfile.favorite_tags
      (with_request_preferences p initial_categories initial_tags)
    = UserProfile.favorite_tags p
    \/ (UserProfile.favorite_tags
          (with_request_preferences p initial_categories initial_tags) <> []
        /\ (List.length (UserProfile.favorite_tags
                           (with_request_preferences p initial_categories initial_tags))
            <= 5)%nat
        /\ Forall (fun x => clean_label x = true)
             (UserProfile.favorite_tags
                (with_request_preferences p initial_categories initial_tags)))).
  { destruct Htag as [E | (s & _ & Hne & _ & _ & E)]; [now left | right].
    rewrite E. split; [| split].
    - apply firstn_truthy. now destruct (stripped_pieces s).
    - apply firstn_le_length.
    - apply firstn_Forall, stripped_pieces_clean. }
  split; [| split; [exact Hhist | split; [exact Hcat' | split; [exact Htag' | split]]]].
  - unfold with_request_preferences.
    destruct (Nat.eqb_spec (UserProfile.events_created p) 0);
      destruct (Nat.eqb_spec (UserProfile.events_attended p) 0); cbn [andb];
      try reflexivity.
    intros [H | H]; contradiction.
  - unfold no_preferences. rewrite Hhist.
    destruct Hcat' as [-> | (Hne & _)]; destruct Htag' as [-> | (Hne' & _)];
      try (intros H; exact H).
    + destruct (UserProfile.favorite_tags _); [congruence |].
      intros _. cbn. now rewrite andb_false_r.
    + destruct (UserProfile.favorite_categories _); [congruence |]. reflexivity.
    + destruct (UserProfile.favorite_categories _); [congruence |]. reflexivity.
  - intros r cats Hev Hst Hne _ Hclean.
    destruct (build_user_profile_counts r) as [Hc Ha].
    apply with_request_preferences_newcomer; auto.
    + now rewrite Hc, Hev.
    + rewrite Ha. now rewrite none_attended.
Qed.

Lemma request_preferences_are_for_newcomers_witness :
  UserProfile.favorite_categories (build_user_profile registered_user) = ["Music"]
  /\ UserProfile.favorite_categories
       (with_request_preferences (build_user_profile registered_user)
          (Some (join "," ["Chess"; "Go"])) None)
     = ["Chess"; "Go"].
Proof.
  split; [reflexivity |].
  destruct (request_preferences_are_for_newcomers (build_user_profile registered_user)
              None None) as (_ & _ & _ & _ & _ & H).
  apply (H registered_user ["Chess"; "Go"]).
  - reflexivity.
  - repeat constructor. discriminate.
  - discriminate.
  - repeat constructor.
  - repeat constructor.
Defined.

(** ** The profile the endpoint builds *)

Lemma from_created_history (events : list EventRow.t) (acc : Extraction) :
  participation_history (fold_left from_created events acc) = participation_history acc.
Proof.
  revert acc. induction events as [| e events IH]; intros acc; [reflexivity |].
  cbn [fold_left]. now rewrite IH.
Qed.

Lemma from_participation_history (rows : list EventRow.t)
  (participations : list Participation.t) (acc : Extraction) :
  participation_history (fold_left (from_participation rows) participations acc)
  = (participation_history acc
     ++ map history_item (resolved_in rows participations))%list.
Proof.
  revert acc. induction participations as [| q participations IH]; intros acc.
  - cbn. now rewrite app_nil_r.
  - cbn [fold_left]. rewrite IH. unfold resolved_in. cbn [flat_map].
    rewrite map_app, app_assoc. f_equal.
    unfold from_participation.
    destruct (Participation.event_id q) as [i |]; [| now rewrite app_nil_r].
    destruct (truthy_str i); [| now rewrite app_nil_r].
    destruct (lookup_event rows i) as [e |]; [| now rewrite app_nil_r].
    cbn [participation_history map]. unfold history_item.
    now rewrite or_list_row_tags.
Qed.

Lemma build_user_profile_history (r : Records.t) :
  UserProfile.participation_history (build_user_profile r)
  = map history_item (resolved r).
Proof.
  unfold build_user_profile. cbn [UserProfile.participation_history].
  set (event_ids := flat_map _ (Records.participations r)).
  set (fetched := if truthy_list event_ids then _ else _).
  rewrite from_participation_history, from_created_history.
  cbn [participation_history app]. f_equal.
  apply resolved_in_fetched. intros q i Hq Hi Ti. unfold event_ids.
  apply in_flat_map. exists q. split; [exact Hq |]. rewrite Hi, Ti. now left.
Qed.

Lemma lookup_event_found (rows : list EventRow.t) (i : string) (e : EventRow.t) :
  lookup_event rows i = Some e -> In e rows /\ EventRow.id e = i.
Proof.
  unfold lookup_event.
  assert (G : forall found,
             fold_left (fun found e' => if String.eqb (EventRow.id e') i
                                        then Some e' else found) rows found = Some e ->
             (In e rows /\ EventRow.id e = i) \/ found = Some e).
  { induction rows as [| a rows IH]; intros found H; [now right |].
    cbn [fold_left] in H. destruct (IH _ H) as [[Hin Hid] | Hf].
    - left. split; [now right | exact Hid].
    - destruct (String.eqb_spec (EventRow.id a) i) as [Ha | _].
      + injection Hf as ->. left. split; [now left | exact Ha].
      + now right. }
  intros H. destruct (G None H) as [Hok | Hf]; [exact Hok | discriminate].
Qed.

Lemma resolved_in_length (rows : list EventRow.t) (participations : list Participation.t) :
  (List.length (resolved_in rows participations) <= List.length participations)%nat.
Proof.
  unfold resolved_in. induction participations as [| q l IH]; [apply le_n |].
  cbn [flat_map]. rewrite length_app. cbn [List.length].
  destruct (Participation.event_id q) as [i |]; [| cbn; lia].
  destruct (truthy_str i); [| cbn; lia].
  destruct (lookup_event rows i); cbn; lia.
Qed.

Lemma resolved_in_origin (rows : list EventRow.t) (participations : list Participation.t)
  (e : EventRow.t) :
  In e (resolved_in rows participations) ->
  In e rows
  /\ exists part, In part participations
                  /\ Participation.event_id part = Some (EventRow.id e).
Proof.
  unfold resolved_in. intros H. apply in_flat_map in H. destruct H as (part & Hp & He).
  destruct (Participation.event_id part) as [i |] eqn:Hi; [| contradiction].
  destruct (truthy_str i); [| contradiction].
  destruct (lookup_event rows i) as [e' |] eqn:Hl; [| contradiction].
  destruct He as [<- | []]. destruct (lookup_event_found rows i e' Hl) as [Hin Hid].
  split; [exact Hin |]. exists part. split; [exact Hp |]. now rewrite Hid.
Qed.

(** X16.  The participation history of the profile lists, in the order of
    the participations, one item for every participation whose event is in
    the events table, whatever its status, with the title, the category
    ([''] for none) and the tags of that event; events the user created
    add nothing to it.  The count of attended events is taken from the
    statuses alone: it is 0 when no participation is marked attended,
    whatever the history holds, and both numbers are at most the number of
    participations. *)
Theorem history_lists_resolved_participations (r : Records.t) :
  UserProfile.participation_history (build_user_profile r)
  = map history_item (resolved r)
  /\ (forall e, In e (resolved r) ->
                In e (Records.events_table r)
                /\ exists part, In part (Records.participations r)
                                /\ Participation.event_id part = Some (EventRow.id e))
  /\ (List.length (UserProfile.participation_history (build_user_profile r))
      <= List.length (Records.participations r))%nat
  /\ (UserProfile.events_attended (build_user_profile r)
      <= List.length (Records.participations r))%nat
  /\ (Forall (fun part => Participation.status part <> Some "attended")
        (Records.participations r) ->
      UserProfile.events_attended (build_user_profile r) = 0%nat).
Proof.
  split; [apply build_user_profile_history | split; [| split; [| split]]].
  - intros e. apply resolved_in_origin.
  - rewrite build_user_profile_history, length_map. apply resolved_in_length.
  - destruct (build_user_profile_counts r) as [_ ->]. apply filter_length_le.
  - intros H. destruct (build_user_profile_counts r) as [_ ->].
    now rewrite none_attended.
Qed.

Lemma history_lists_resolved_participations_witness :
  List.length (UserProfile.participation_history (build_user_profile registered_user))
  = 1%nat
  /\ UserProfile.events_attended (build_user_profile registered_user) = 0%nat.
Proof.
  destruct (history_lists_resolved_participations registered_user)
    as (Hh & _ & _ & _ & Ha).
  split; [rewrite Hh; reflexivity |].
  apply Ha. repeat constructor. discriminate.
Defined.

(** A participation marked attended whose event is gone counts as attended
    and leaves no history item. *)
Example attended_without_history :
  UserProfile.participation_history (build_user_profile stranded_user) = []
  /\ UserProfile.events_attended (build_user_profile stranded_user) = 1%nat.
Proof. split; reflexivity. Qed.

Lemma weighted_In (w : Z) (labels : list string) (c : string) :
  In c (map fst (weighted w labels)) <-> In c labels /\ truthy_str c = true.
Proof.
  unfold weighted. rewrite map_map. cbn [fst]. rewrite map_id. apply filter_In.
Qed.

Lemma weighted_nil (w : Z) (labels : list string) :
  weighted w labels = [] <-> existsb truthy_str labels = false.
Proof.
  unfold weighted. induction labels as [| x l IH]; [split; reflexivity |].
  cbn [filter existsb]. destruct (truthy_str x); cbn [map orb]; [| exact IH].
  split; discriminate.
Qed.

Lemma spec_top_incl (n : nat) (occ : list (string * Z)) (c : string) :
  In c (spec_top n occ) -> In c (map fst occ).
Proof.
  unfold spec_top, spec_ranking. intros H.
  apply in_map_iff in H. destruct H as (o & <- & Ho). apply In_firstn in Ho.
  apply (Permutation_in _ (Permutation_sym (sorted_reverse_perm snd Z.ltb _))) in Ho.
  apply in_map_iff in Ho. destruct Ho as (label & <- & Hl). cbn [fst].
  now apply first_seen_In.
Qed.

Lemma NoDup_firstn {A : Type} (n : nat) (l : list A) : NoDup l -> NoDup (firstn n l).
Proof.
  intros H. rewrite <- (firstn_skipn n l) in H. now apply NoDup_app_remove_r in H.
Qed.

Lemma spec_top_NoDup (n : nat) (occ : list (string * Z)) : NoDup (spec_top n occ).
Proof.
  unfold spec_top. rewrite <- firstn_map. apply NoDup_firstn.
  unfold spec_ranking.
  apply (Permutation_NoDup
           (Permutation_map fst (sorted_reverse_perm snd Z.ltb _))).
  rewrite map_map. cbn [fst]. rewrite map_id. apply first_seen_NoDup.
Qed.

Lemma spec_top_length (n : nat) (occ : list (string * Z)) :
  (List.length (spec_top n occ) <= n)%nat.
Proof. unfold spec_top. rewrite length_map. apply firstn_le_length. Qed.

Lemma spec_top_truthy (n : nat) (occ : list (string * Z)) :
  truthy_list occ = true -> truthy_list (spec_top (S n) occ) = true.
Proof.
  intros H. rewrite truthy_list_length. unfold spec_top, spec_ranking.
  rewrite length_map, length_firstn, sorted_reverse_length, length_map.
  destruct occ as [| o occ]; [discriminate |]. reflexivity.
Qed.

(** The favorites, by the history and the weights. *)
Lemma build_user_profile_ranked (r : Records.t) :
  UserProfile.favorite_categories (build_user_profile r)
  = (if (has_history r && truthy_list (category_occurrences r))%bool
     then spec_top 3 (category_occurrences r)
     else firstn 3 (Records.initial_categories r))
  /\ UserProfile.favorite_tags (build_user_profile r)
     = (if (has_history r && truthy_list (tag_occurrences r))%bool
        then spec_top 5 (tag_occurrences r)
        else firstn 5 (Records.initial_tags r)).
Proof.
  destruct (build_user_profile_favorites r) as [-> ->].
  rewrite !top_labels_spec. now destruct (has_history r).
Qed.

Lemma occurrences_origin (r : Records.t) (c : string) :
  (In c (map fst (category_occurrences r)) ->
   truthy_str c = true
   /\ (In c (Records.initial_categories r)
       \/ In c (flat_map row_category (Records.user_events r))
       \/ In c (flat_map row_category (resolved r))))
  /\ (In c (map fst (tag_occurrences r)) ->
      truthy_str c = true
      /\ (In c (Records.initial_tags r)
          \/ In c (flat_map row_tags (Records.user_events r))
          \/ In c (flat_map row_tags (resolved r)))).
Proof.
  unfold category_occurrences, tag_occurrences. rewrite !map_app.
  split; intros H; apply in_app_or in H; destruct H as [H | H];
    try (apply in_app_or in H; destruct H as [H | H]);
    apply weighted_In in H; tauto.
Qed.

(** X17.  The profile holds at most 3 favorite categories and 5 favorite
    tags, and each of them is a label the user chose at signup or the
    category (a tag) of an event the user created or of a participation
    whose event was found.  When the user has a created event or a
    participation and some label carries weight, the favorites are distinct
    and none is empty; the signup preferences a user without history gets
    back are not cleaned in this way. *)
Theorem favorites_are_known_labels (r : Records.t) :
  let p := build_user_profile r in
  (List.length (UserProfile.favorite_categories p) <= 3)%nat
  /\ (List.length (UserProfile.favorite_tags p) <= 5)%nat
  /\ (forall c, In c (UserProfile.favorite_categories p) ->
                In c (Records.initial_categories r)
                \/ In c (flat_map row_category (Records.user_events r))
                \/ In c (flat_map row_category (resolved r)))
  /\ (forall t, In t (UserProfile.favorite_tags p) ->
                In t (Records.initial_tags r)
                \/ In t (flat_map row_tags (Records.user_events r))
                \/ In t (flat_map row_tags (resolved r)))
  /\ (has_history r = true -> truthy_list (category_occurrences r) = true ->
      NoDup (UserProfile.favorite_categories p)
      /\ Forall (fun c => truthy_str c = true) (UserProfile.favorite_categories p))
  /\ (has_history r = true -> truthy_list (tag_occurrences r) = true ->
      NoDup (UserProfile.favorite_tags p)
      /\ Forall (fun t => truthy_str t = true) (UserProfile.favorite_tags p)).
Proof.
  cbv zeta. destruct (build_user_profile_ranked r) as [-> ->].
  split; [| split; [| split; [| split; [| split]]]].
  - destruct (has_history r && truthy_list (category_occurrences r))%bool;
      [apply spec_top_length | apply firstn_le_length].
  - destruct (has_history r && truthy_list (tag_occurrences r))%bool;
      [apply spec_top_length | apply firstn_le_length].
  - intros c Hc.
    destruct (has_history r && truthy_list (category_occurrences r))%bool.
    + apply spec_top_incl in Hc. now apply (proj1 (occurrences_origin r c)) in Hc.
    + left. now apply In_firstn in Hc.
  - intros t Ht.
    destruct (has_history r && truthy_list (tag_occurrences r))%bool.
    + apply spec_top_incl in Ht. now apply (proj2 (occurrences_origin r t)) in Ht.
    + left. now apply In_firstn in Ht.
  - intros -> ->. cbn [andb]. split; [apply spec_top_NoDup |].
    apply Forall_forall. intros c Hc. apply spec_top_incl in Hc.
    now apply (proj1 (occurrences_origin r c)) in Hc.
  - intros -> ->. cbn [andb]. split; [apply spec_top_NoDup |].
    apply Forall_forall. intros t Ht. apply spec_top_incl in Ht.
    now apply (proj2 (occurrences_origin r t)) in Ht.
Qed.

Lemma favorites_are_known_labels_witness :
  NoDup (UserProfile.favorite_categories (build_user_profile active_user))
  /\ Forall (fun c => truthy_str c = true)
       (UserProfile.favorite_categories (build_user_profile active_user)).
Proof.
  destruct (favorites_are_known_labels active_user) as (_ & _ & _ & _ & H & _).
  apply H; reflexivity.
Defined.

Lemma existsb_flat_map {A B : Type} (f : B -> bool) (g : A -> list B) (l : list A) :
  existsb f (flat_map g l) = existsb (fun a => existsb f (g a)) l.
Proof.
  induction l as [| a l IH]; [reflexivity |].
  cbn [flat_map existsb]. now rewrite existsb_app, IH.
Qed.

Lemma truthy_list_false {A : Type} (l : list A) : truthy_list l = false <-> l = [].
Proof. destruct l; split; intros H; try reflexivity; discriminate H. Qed.

Lemma unlabelled_events (events : list EventRow.t) :
  forallb unlabelled events = true
  <-> weighted 2 (flat_map row_category events) = []
      /\ weighted 2 (flat_map row_tags events) = [].
Proof.
  rewrite !weighted_nil, !existsb_flat_map.
  induction events as [| e events IH]; [split; auto |].
  cbn [forallb existsb]. unfold unlabelled at 1.
  rewrite existsb_app, andb_true_iff, negb_true_iff, IH, !orb_false_iff. tauto.
Qed.

(** X18.  The profile builder hands the scorer a profile without
    preferences, which sends the user through the cold-start override,
    exactly when the user chose nothing at signup, no participation names
    an event of the table, and every event the user created is without a
    category and without tags.  Participations whose events are missing
    and created events without labels do not count as preferences. *)
Theorem cold_start_goes_to_users_without_labels (r : Records.t) :
  no_preferences (build_user_profile r) = true
  <-> Records.initial_categories r = []
      /\ Records.initial_tags r = []
      /\ resolved r = []
      /\ forallb unlabelled (Records.user_events r) = true.
Proof.
  unfold no_preferences. rewrite build_user_profile_history.
  destruct (build_user_profile_ranked r) as [-> ->].
  rewrite !andb_true_iff, !negb_true_iff, !truthy_list_false, unlabelled_events.
  split.
  - intros [[Hc Ht] Hh]. apply map_eq_nil in Hh.
    assert (Hic : Records.initial_categories r = []).
    { destruct (has_history r && truthy_list (category_occurrences r))%bool eqn:E.
      - apply andb_true_iff in E. destruct E as [_ E].
        apply (spec_top_truthy 2) in E. rewrite Hc in E. discriminate.
      - now destruct (Records.initial_categories r). }
    assert (Hit : Records.initial_tags r = []).
    { destruct (has_history r && truthy_list (tag_occurrences r))%bool eqn:E.
      - apply andb_true_iff in E. destruct E as [_ E].
        apply (spec_top_truthy 4) in E. rewrite Ht in E. discriminate.
      - now destruct (Records.initial_tags r). }
    split; [exact Hic | split; [exact Hit | split; [exact Hh |]]].
    assert (Eoc : category_occurrences r
                  = weighted 2 (flat_map row_category (Records.user_events r))).
    { unfold category_occurrences. rewrite Hic, Hh. cbn. apply app_nil_r. }
    assert (Eot : tag_occurrences r
                  = weighted 2 (flat_map row_tags (Records.user_events r))).
    { unfold tag_occurrences. rewrite Hit, Hh. cbn. apply app_nil_r. }
    rewrite <- Eoc, <- Eot.
    destruct (has_history r) eqn:Hhist.
    + cbn [andb] in Hc, Ht. split; apply truthy_list_false.
      * destruct (truthy_list (category_occurrences r)) eqn:E; [| reflexivity].
        apply (spec_top_truthy 2) in E. rewrite Hc in E. discriminate.
      * destruct (truthy_list (tag_occurrences r)) eqn:E; [| reflexivity].
        apply (spec_top_truthy 4) in E. rewrite Ht in E. discriminate.
    + unfold has_history in Hhist. apply negb_false_iff, andb_true_iff in Hhist.
      destruct Hhist as [Hev _]. apply Nat.eqb_eq, length_zero_iff_nil in Hev.
      rewrite Eoc, Eot, Hev. split; reflexivity.
  - intros (Hic & Hit & Hh & Hc & Ht).
    assert (Eoc : category_occurrences r = []).
    { unfold category_occurrences. now rewrite Hic, Hh, Hc. }
    assert (Eot : tag_occurrences r = []).
    { unfold tag_occurrences. now rewrite Hit, Hh, Ht. }
    rewrite Eoc, Eot, Hic, Hit, Hh, !andb_false_r. auto.
Qed.

Lemma cold_start_goes_to_users_without_labels_witness :
  no_preferences (build_user_profile stranded_user) = true.
Proof.
  apply (proj2 (cold_start_goes_to_users_without_labels stranded_user)).
  repeat split.
Defined.
